(** * Twitch clip downloader: a shallow embedding of the Python sources

    The development follows the three modules of the repository that carry
    logic:

    - [video_processor.py]        (module [VideoProcessor])
    - [twitch_clip_downloader.py] (module [Cli])
    - [simple_gui.py]             (module [Gui])

    ([twitch_clip_downloader_gui.py] and [run_gui.py] are a window around the
    functions of [twitch_clip_downloader.py].)

    The programs are effectful: they print, start external processes
    ([yt-dlp], [ffmpeg]), and read and write the file system.  They are
    modelled in a state-and-exception monad over a [world] that holds the set
    of existing paths and the trace of observable events.  What an external
    process does, and what the Python standard library computes where the
    sources only call it ([json.loads], [os.path], [datetime], [repr]), is the
    interface [Host]: every theorem holds for every host. *)

From Stdlib Require Import String Ascii List ZArith Lia Bool.
From Stdlib Require Import DecimalString Permutation Sorted.
Import ListNotations.

Local Open Scope string_scope.
Local Open Scope list_scope.

Infix "+++" := String.append (right associativity, at level 60).

(* ------------------------------------------------------------------ *)
(** ** Python strings

    A [str] is modelled as a byte string (its UTF-8 encoding).  The
    characters the sources single out are all ASCII, and no byte of a
    multi-byte UTF-8 sequence is an ASCII byte, so replacing or comparing them
    byte-wise agrees with Python's code-point-wise operations.
    [ascii_lower] and [ascii_strip] are [str.lower] and [str.strip] on strings
    of ASCII characters; on other strings these two methods follow the
    Unicode tables, which the host supplies (see [lower] and [strip]
    below). *)

Definition newline : string := String "010" EmptyString.

(** [str(n)] for an [int] *)
Definition str_int (z : Z) : string := NilZero.string_of_int (Z.to_int z).

Definition lower_ascii (c : ascii) : ascii :=
  let n := nat_of_ascii c in
  if andb (Nat.leb 65 n) (Nat.leb n 90) then ascii_of_nat (n + 32) else c.

(** Is every character of [s] an ASCII character? *)
Definition is_ascii (s : string) : bool :=
  forallb (fun c => Nat.ltb (nat_of_ascii c) 128) (list_ascii_of_string s).

(** [s.lower()] for an ASCII [s] *)
Fixpoint ascii_lower (s : string) : string :=
  match s with
  | EmptyString => EmptyString
  | String c r => String (lower_ascii c) (ascii_lower r)
  end.

(** [c.isspace()] on ASCII: TAB, LF, VT, FF, CR, FS, GS, RS, US and space *)
Definition isspace (c : ascii) : bool :=
  let n := nat_of_ascii c in
  orb (andb (Nat.leb 9 n) (Nat.leb n 13))
      (orb (andb (Nat.leb 28 n) (Nat.leb n 31)) (Nat.eqb n 32)).

Fixpoint lstrip (s : string) : string :=
  match s with
  | EmptyString => EmptyString
  | String c r => if isspace c then lstrip r else s
  end.

Fixpoint rstrip (s : string) : string :=
  match s with
  | EmptyString => EmptyString
  | String c r =>
      match rstrip r with
      | EmptyString => if isspace c then EmptyString else String c EmptyString
      | r' => String c r'
      end
  end.

(** [s.strip()] for an ASCII [s] *)
Definition ascii_strip (s : string) : string := rstrip (lstrip s).

(** [s.split(sep)] for a one-character separator: never the empty list *)
Fixpoint split_on (sep : ascii) (s : string) : list string :=
  match s with
  | EmptyString => [EmptyString]
  | String c r =>
      if Ascii.eqb c sep then EmptyString :: split_on sep r
      else match split_on sep r with
           | [] => [String c EmptyString]
           | h :: t => String c h :: t
           end
  end.

(** [s.rsplit('.', 1)[0]]: the text before the last dot, all of [s] without one *)
Fixpoint rsplit_dot_head (s : string) : string :=
  match s with
  | EmptyString => EmptyString
  | String c r =>
      if existsb (Ascii.eqb ".") (list_ascii_of_string r)
      then String c (rsplit_dot_head r)
      else if Ascii.eqb c "." then EmptyString else s
  end.

(** [sep.join(l)] *)
Definition join (sep : string) (l : list string) : string := String.concat sep l.

(** [bool(s)] for a [str] *)
Definition nonempty (s : string) : bool := negb (String.eqb s "").

(* ------------------------------------------------------------------ *)
(** ** Python values

    What [json.loads] can return.  A [float] is kept as an opaque token, its
    [repr]: the sources store floats and print them, and never compute with
    them. *)

#[local] Set Warnings "-register-all".
Inductive value : Type :=
| PNone
| PBool (b : bool)
| PInt (z : Z)
| PFloat (repr : string)
| PStr (s : string)
| PList (l : list value)
| PDict (d : list (string * value)).

(** A [dict] with [str] keys, as an association list read at its first match *)
Definition dict (A : Type) : Type := list (string * A).

Fixpoint dict_lookup {A} (d : dict A) (k : string) : option A :=
  match d with
  | [] => None
  | (k', v) :: r => if String.eqb k' k then Some v else dict_lookup r k
  end.

(** [d.get(k, default)] *)
Definition dict_get {A} (d : dict A) (k : string) (default : A) : A :=
  match dict_lookup d k with Some v => v | None => default end.

(** [list(d.keys())] *)
Definition dict_keys {A} (d : dict A) : list string := map fst d.

(** [bool(v)] *)
Definition truthy (v : value) : bool :=
  match v with
  | PNone => false
  | PBool b => b
  | PInt z => negb (Z.eqb z 0)
  | PFloat r => negb (orb (String.eqb r "0.0") (String.eqb r "-0.0"))
  | PStr s => nonempty s
  | PList l => match l with [] => false | _ => true end
  | PDict d => match d with [] => false | _ => true end
  end.

(* ------------------------------------------------------------------ *)
(** ** Exceptions, the world, and the monad *)

(** The errors [os.makedirs] can end in: each an [OSError] *)
Inductive os_error : Type :=
| FileExistsError
| NotADirectoryError
| PermissionError.

Inductive exn : Type :=
| TypeError
| AttributeError
| FileNotFoundError
| OSError (kind : os_error)
| CalledProcessError (argv : list string) (returncode : Z)
| SystemExit (code : Z).

(** [except Exception]: [SystemExit] is a [BaseException] only *)
Definition is_Exception (e : exn) : bool :=
  match e with
  | SystemExit _ => false
  | _ => true
  end.

Definition is_CalledProcessError (e : exn) : bool :=
  match e with CalledProcessError _ _ => true | _ => false end.

(** [except (subprocess.SubprocessError, FileNotFoundError)] *)
Definition is_SubprocessError_or_FileNotFound (e : exn) : bool :=
  match e with
  | CalledProcessError _ _ | FileNotFoundError => true
  | _ => false
  end.

Inductive event : Type :=
| EvPrint (line : string)               (* print(line) *)
| EvRun (argv : list string)            (* a process was started *)
| EvMakedirs (path : string)            (* os.makedirs(path, exist_ok=True) *)
| EvOpenW (path : string)               (* open(path, "w"): created or truncated *)
| EvWrite (path text : string)          (* f.write(text) *)
| EvRemove (path : string)              (* os.remove(path) *)
| EvStatus (text : string)              (* root.after(0, status_var.set(text)) *)
| EvEnableButtons                       (* root.after(0, self.enable_buttons) *)
| EvShowInfo (title message : string)   (* root.after(0, messagebox.showinfo) *)
| EvShowError (title message : string). (* root.after(0, messagebox.showerror) *)

Record world : Type := World {
  files : list string;     (* the paths that exist, compared by name *)
  trace : list event       (* what happened so far, oldest first *)
}.

(** The result of a finished process, and the paths it left behind. *)
Record proc : Type := Proc {
  returncode : Z;
  stdout : string;
  stderr : string;
  created : list string
}.

Inductive outcome (A : Type) : Type :=
| Return (a : A)
| Raise (e : exn).
Arguments Return {A} a.
Arguments Raise {A} e.

Definition M (A : Type) : Type := world -> outcome A * world.

Definition ret {A} (a : A) : M A := fun w => (Return a, w).
Definition raise {A} (e : exn) : M A := fun w => (Raise e, w).

Definition bind {A B} (m : M A) (k : A -> M B) : M B :=
  fun w => match m w with
           | (Return a, w') => k a w'
           | (Raise e, w') => (Raise e, w')
           end.

Declare Scope py_scope.
Delimit Scope py_scope with py.
Notation "x <- m ;; k" := (bind m (fun x => k))
  (at level 100, m at next level, right associativity) : py_scope.
Notation "m ;; k" := (bind m (fun _ => k))
  (at level 100, right associativity) : py_scope.
Local Open Scope py_scope.

(** [try: m  except <catches> as e: handler e] *)
Definition try_except {A} (m : M A) (catches : exn -> bool) (handler : exn -> M A) : M A :=
  fun w => match m w with
           | (Return a, w') => (Return a, w')
           | (Raise e, w') => if catches e then handler e w' else (Raise e, w')
           end.

(** [try: m  finally: fin] *)
Definition try_finally {A} (m : M A) (fin : M unit) : M A :=
  fun w => match m w with
           | (r, w') => match fin w' with
                        | (Return _, w'') => (r, w'')
                        | (Raise e, w'') => (Raise e, w'')
                        end
           end.

Definition emit (e : event) : M unit :=
  fun w => (Return tt, World (files w) (trace w ++ [e])).

Definition print (line : string) : M unit := emit (EvPrint line).

Definition path_exists_in (fs : list string) (p : string) : bool :=
  existsb (String.eqb p) fs.

(** [os.path.exists(p)] *)
Definition os_path_exists (p : string) : M bool :=
  fun w => (Return (path_exists_in (files w) p), w).

(** [open(p, "w")] *)
Definition open_w (p : string) : M unit :=
  fun w => (Return tt, World (p :: files w) (trace w ++ [EvOpenW p])).

(** [f.write(text)] on the file opened at [p] *)
Definition file_write (p text : string) : M unit := emit (EvWrite p text).

(** [os.remove(p)] *)
Definition os_remove (p : string) : M unit :=
  fun w => if path_exists_in (files w) p
           then (Return tt, World (filter (fun q => negb (String.eqb p q)) (files w))
                                  (trace w ++ [EvRemove p]))
           else (Raise FileNotFoundError, w).

Fixpoint all_str (cmd : list (option string)) : option (list string) :=
  match cmd with
  | [] => Some []
  | None :: _ => None
  | Some a :: r => match all_str r with Some r' => Some (a :: r') | None => None end
  end.

(* ------------------------------------------------------------------ *)
(** ** The host: external processes and the Python standard library *)

Class Host : Type := {
  (** what the process started with [argv] in world [w] does: started
      processes run to an exit status, and add files but delete none *)
  run_process : world -> list string -> proc;
  (** [Path(directory).glob(pattern)], as strings *)
  path_glob : world -> string -> string -> list string;
  (** [datetime.datetime.now()], in seconds *)
  clock : world -> Z;
  (** [d.strftime(fmt)] *)
  strftime : string -> Z -> string;
  (** [d.isoformat()] *)
  isoformat : Z -> string;
  (** [json.loads(line)]; [None] stands for [json.JSONDecodeError] *)
  json_loads : string -> option value;
  (** [json.dumps(v, indent=2)] *)
  json_dumps : value -> string;
  (** [repr(v)] of a list or a dict *)
  py_repr : value -> string;
  (** [str(e)] of an exception *)
  str_exn : exn -> string;
  os_path_join : string -> string -> string;
  os_path_basename : string -> string;
  os_path_splitext : string -> string * string;
  os_path_abspath : string -> string;
  (** [s.lower()] and [s.strip()] for an [s] that is not ASCII *)
  unicode_lower : string -> string;
  unicode_strip : string -> string;
  (** the error that [os.makedirs(p, exist_ok=True)] ends in, if any: [p] is
      an existing file, a component of it is, or access is denied *)
  makedirs_error : world -> string -> option os_error;
  (** the outcome of [sort(reverse=True)] on keys that are [float], [str] or
      [list], or these and numbers: the position each key is put at, as
      [arrange] reads them, or [None] when a comparison raises [TypeError] *)
  sort_positions : list value -> option (list nat)
}.

Section Builtins.
Context {H : Host}.

(** [s.lower()] *)
Definition lower (s : string) : string :=
  if is_ascii s then ascii_lower s else unicode_lower s.

(** [s.strip()] *)
Definition strip (s : string) : string :=
  if is_ascii s then ascii_strip s else unicode_strip s.

(** [os.makedirs(p, exist_ok=True)] *)
Definition os_makedirs (p : string) : M unit :=
  fun w => match makedirs_error w p with
           | Some e => (Raise (OSError e), w)
           | None => (Return tt, World (p :: files w) (trace w ++ [EvMakedirs p]))
           end.

(** [str(v)], as an f-string renders [v] *)
Definition py_str (v : value) : string :=
  match v with
  | PNone => "None"
  | PBool true => "True"
  | PBool false => "False"
  | PInt z => str_int z
  | PFloat r => r
  | PStr s => s
  | PList _ | PDict _ => py_repr v
  end.

(** [subprocess.run(cmd, ...)]: an argument that is [None] is a
    [TypeError] before any process is started. *)
Definition subprocess_run (cmd : list (option string)) : M proc :=
  fun w => match all_str cmd with
           | None => (Raise TypeError, w)
           | Some argv =>
               let p := run_process w argv in
               (Return p, World (created p ++ files w) (trace w ++ [EvRun argv]))
           end.

(** [subprocess.run(cmd, check=True, ...)] *)
Definition subprocess_run_check (cmd : list (option string)) : M proc :=
  fun w => match subprocess_run cmd w with
           | (Return p, w') =>
               if Z.eqb (returncode p) 0 then (Return p, w')
               else match all_str cmd with
                    | Some argv => (Raise (CalledProcessError argv (returncode p)), w')
                    | None => (Raise TypeError, w')
                    end
           | (Raise e, w') => (Raise e, w')
           end.

(** [os.path.splitext(p)] and [os.path.abspath(p)] of a value that may be
    [None] *)
Definition splitext_of (p : option string) : M (string * string) :=
  match p with
  | Some s => ret (os_path_splitext s)
  | None => raise TypeError
  end.

Definition abspath_of (p : option string) : M string :=
  match p with
  | Some s => ret (os_path_abspath s)
  | None => raise TypeError
  end.

(** [datetime.datetime.now()] *)
Definition datetime_now : M Z := fun w => (Return (clock w), w).

End Builtins.

(* ------------------------------------------------------------------ *)
(** ** [video_processor.py]

    Arguments have the types the docstrings give them.  [input_path] alone is
    an [option string]: [batch_process] hands the result of one operation to
    the next, and that result is [None] after a failure.  Numbers that the
    code only interpolates ([start_time], [duration], [fontsize]) are carried
    as their [str()] rendering. *)

Module VideoProcessor.
Section Program.
Context {H : Host}.

Definition ffmpeg_missing_message : string :=
  "ffmpeg is not installed or not found in PATH. Please install it from https://ffmpeg.org/download.html".

Definition check_ffmpeg : M bool :=
  try_except
    (_ <- subprocess_run_check [Some "ffmpeg"; Some "-version"] ;; ret true)
    is_SubprocessError_or_FileNotFound
    (fun _ => print ffmpeg_missing_message ;; ret false).

Definition video_extensions : list string := [".mp4"; ".mov"; ".avi"; ".mkv"].

Definition list_video_files (directory : string) : M (list string) :=
  fun w => (Return (flat_map (fun ext => path_glob w directory ("*" +++ ext))
                             video_extensions), w).

(** [output_path] when given, else the input's name with [suffix] before its
    extension *)
Definition default_output (input_path output_path : option string) (suffix : string)
  : M string :=
  match output_path with
  | Some o => ret o
  | None => fe <- splitext_of input_path ;; ret (fst fe +++ suffix +++ snd fe)
  end.

Definition trim_video (input_path output_path : option string)
    (start_time : string) (duration : option string) : M (option string) :=
  ok <- check_ffmpeg ;;
  if negb ok then ret None else
  output_path <- default_output input_path output_path "_trimmed" ;;
  let command :=
    [Some "ffmpeg"; Some "-i"; input_path; Some "-ss"; Some start_time]
    ++ match duration with Some d => [Some "-t"; Some d] | None => [] end
    ++ [Some "-c"; Some "copy"; Some output_path; Some "-y"] in
  try_except
    (_ <- subprocess_run_check command ;;
     print ("Trimmed video saved to: " +++ output_path) ;;
     ret (Some output_path))
    is_CalledProcessError
    (fun e => print ("Error trimming video: " +++ str_exn e) ;; ret None).

Definition positions : dict string :=
  [ ("topleft", "10:10");
    ("topright", "w-tw-10:10");
    ("bottomleft", "10:h-th-10");
    ("bottomright", "w-tw-10:h-th-10");
    ("center", "(w-tw)/2:(h-th)/2") ].

(** [positions.get(position.lower(), positions["bottomright"])] *)
Definition position_value (position : string) : string :=
  dict_get positions (lower position) (dict_get positions "bottomright" "").

Definition drawtext_filter (watermark_text fontsize position : string) : string :=
  "drawtext=text='" +++ watermark_text +++ "':fontcolor=white:fontsize=" +++ fontsize
  +++ ":box=1:boxcolor=black@0.5:boxborderw=5:x=" +++ position_value position.

Definition add_watermark (input_path : option string) (watermark_text : string)
    (output_path : option string) (position fontsize : string) : M (option string) :=
  ok <- check_ffmpeg ;;
  if negb ok then ret None else
  output_path <- default_output input_path output_path "_watermarked" ;;
  let command :=
    [Some "ffmpeg"; Some "-i"; input_path;
     Some "-vf"; Some (drawtext_filter watermark_text fontsize position);
     Some "-codec:a"; Some "copy"; Some output_path; Some "-y"] in
  try_except
    (_ <- subprocess_run_check command ;;
     print ("Watermarked video saved to: " +++ output_path) ;;
     ret (Some output_path))
    is_CalledProcessError
    (fun e => print ("Error adding watermark: " +++ str_exn e) ;; ret None).

Definition temp_list : string := "concat_list.txt".

Definition concat_command (output_path : string) : list (option string) :=
  [Some "ffmpeg"; Some "-f"; Some "concat"; Some "-safe"; Some "0";
   Some "-i"; Some temp_list; Some "-c"; Some "copy"; Some output_path; Some "-y"].

Definition add_intro (input_path : option string) (intro_path : string)
    (output_path : option string) : M (option string) :=
  ok <- check_ffmpeg ;;
  if negb ok then ret None else
  found <- os_path_exists intro_path ;;
  if negb found then (print ("Intro file not found: " +++ intro_path) ;; ret None) else
  output_path <- default_output input_path output_path "_with_intro" ;;
  open_w temp_list ;;
  intro_abs <- abspath_of (Some intro_path) ;;
  file_write temp_list ("file '" +++ intro_abs +++ "'" +++ newline) ;;
  input_abs <- abspath_of input_path ;;
  file_write temp_list ("file '" +++ input_abs +++ "'" +++ newline) ;;
  try_except
    (_ <- subprocess_run_check (concat_command output_path) ;;
     print ("Video with intro saved to: " +++ output_path) ;;
     os_remove temp_list ;;
     ret (Some output_path))
    is_CalledProcessError
    (fun e =>
       print ("Error adding intro: " +++ str_exn e) ;;
       left_over <- os_path_exists temp_list ;;
       (if left_over then os_remove temp_list else ret tt) ;;
       ret None).

Definition convert_format (input_path : option string) (output_format : string)
    (output_path : option string) : M (option string) :=
  ok <- check_ffmpeg ;;
  if negb ok then ret None else
  output_path <- match output_path with
                 | Some o => ret o
                 | None => fe <- splitext_of input_path ;;
                           ret (fst fe +++ "." +++ output_format)
                 end ;;
  let command :=
    [Some "ffmpeg"; Some "-i"; input_path;
     Some "-c:v"; Some "libx264"; Some "-c:a"; Some "aac";
     Some output_path; Some "-y"] in
  try_except
    (_ <- subprocess_run_check command ;;
     print ("Converted video saved to: " +++ output_path) ;;
     ret (Some output_path))
    is_CalledProcessError
    (fun e => print ("Error converting video: " +++ str_exn e) ;; ret None).

Record platform_setting : Type := Setting {
  resolution : string;
  description : string
}.

Definition platform_settings : dict platform_setting :=
  [ ("tiktok", Setting "1080:1920" "TikTok (vertical 9:16)");
    ("instagram", Setting "1080:1080" "Instagram (square 1:1)");
    ("instagram_story", Setting "1080:1920" "Instagram Story (vertical 9:16)");
    ("youtube", Setting "1920:1080" "YouTube (horizontal 16:9)") ].

Definition scale_pad_filter (settings : platform_setting) : string :=
  "scale=" +++ resolution settings +++ ":force_original_aspect_ratio=decrease,pad="
  +++ resolution settings +++ ":(ow-iw)/2:(oh-ih)/2".

Definition resize_command (input_path : option string) (settings : platform_setting)
    (output_path : string) : list (option string) :=
  [Some "ffmpeg"; Some "-i"; input_path;
   Some "-vf"; Some (scale_pad_filter settings);
   Some "-c:a"; Some "copy"; Some output_path; Some "-y"].

Definition resize_for_platform (input_path : option string) (platform : string)
    (output_path : option string) : M (option string) :=
  ok <- check_ffmpeg ;;
  if negb ok then ret None else
  match dict_lookup platform_settings (lower platform) with
  | None =>
      print ("Unknown platform: " +++ platform) ;;
      print ("Supported platforms: " +++ join ", " (dict_keys platform_settings)) ;;
      ret None
  | Some settings =>
      output_path <- default_output input_path output_path ("_for_" +++ platform) ;;
      try_except
        (_ <- subprocess_run_check (resize_command input_path settings output_path) ;;
         print ("Resized video for " +++ description settings +++ " saved to: "
                +++ output_path) ;;
         ret (Some output_path))
        is_CalledProcessError
        (fun e => print ("Error resizing video: " +++ str_exn e) ;; ret None)
  end.

(** An entry of the [operations] list: a dict with a ["type"] key. *)
Definition operation : Type := dict string.

Definition is_type (operation : operation) (name : string) : bool :=
  match dict_lookup operation "type" with
  | Some t => String.eqb t name
  | None => false
  end.

(** The body of the inner loop of [batch_process]: the new [current_input]. *)
Definition run_operation (output_dir filename : string) (operation : operation)
    (current_input : option string) : M (option string) :=
  let stem := fst (os_path_splitext filename) in
  let ext := snd (os_path_splitext filename) in
  if is_type operation "trim" then
    trim_video current_input
      (Some (os_path_join output_dir (stem +++ "_trimmed" +++ ext)))
      (dict_get operation "start_time" "0")
      (dict_lookup operation "duration")
  else if is_type operation "watermark" then
    add_watermark current_input
      (dict_get operation "text" "")
      (Some (os_path_join output_dir (stem +++ "_watermarked" +++ ext)))
      (dict_get operation "position" "bottomright")
      (dict_get operation "fontsize" "24")
  else if is_type operation "intro" then
    add_intro current_input
      (dict_get operation "intro_path" "")
      (Some (os_path_join output_dir (stem +++ "_with_intro" +++ ext)))
  else if is_type operation "convert" then
    convert_format current_input
      (dict_get operation "format" "mp4")
      (Some (os_path_join output_dir
               (stem +++ "." +++ dict_get operation "format" "mp4")))
  else if is_type operation "resize" then
    resize_for_platform current_input
      (dict_get operation "platform" "youtube")
      (Some (os_path_join output_dir
               (stem +++ "_for_" +++ dict_get operation "platform" "youtube" +++ ext)))
  else ret current_input.

(** [for operation in operations: ...]: there is no [break] *)
Fixpoint run_operations (output_dir filename : string) (operations : list operation)
    (current_input : option string) : M (option string) :=
  match operations with
  | [] => ret current_input
  | operation :: rest =>
      current_input <- run_operation output_dir filename operation current_input ;;
      run_operations output_dir filename rest current_input
  end.

(** [if current_input and current_input != video_file] *)
Definition completed (current_input : option string) (video_file : string) : bool :=
  match current_input with
  | Some p => andb (nonempty p) (negb (String.eqb p video_file))
  | None => false
  end.

(** [for video_file in video_files: ...] *)
Fixpoint process_files (output_dir : string) (operations : list operation)
    (video_files processed_files : list string) : M (list string) :=
  match video_files with
  | [] => ret processed_files
  | video_file :: rest =>
      let filename := os_path_basename video_file in
      current_input <- run_operations output_dir filename operations (Some video_file) ;;
      process_files output_dir operations rest
        (match current_input with
         | Some p => if completed current_input video_file
                     then processed_files ++ [p] else processed_files
         | None => processed_files
         end)
  end.

Definition batch_process (input_dir : string) (operations : list operation)
    (output_dir : option string) : M (list string) :=
  let output_dir := match output_dir with
                    | Some o => o
                    | None => os_path_join input_dir "processed"
                    end in
  os_makedirs output_dir ;;
  video_files <- list_video_files input_dir ;;
  process_files output_dir operations video_files [].

End Program.
End VideoProcessor.

(* ------------------------------------------------------------------ *)
(** ** Clips

    The Lister builds every clip as a dict with the same eight keys, so a
    clip is a record and the defaults of the later [clip.get(key, default)]
    never apply.  Seven fields hold whatever the decoded JSON object held;
    [broadcaster_name] is the user name that was asked for. *)

Record clip : Type := Clip {
  id : value;
  title : value;
  url : value;
  thumbnail_url : value;
  view_count : value;
  duration : value;
  created_at : value;
  broadcaster_name : string
}.

(** The dict literal built from one decoded line *)
Definition clip_of_data (username : string) (clip_data : dict value) : clip :=
  {| id := dict_get clip_data "id" (PStr "");
     title := dict_get clip_data "title" (PStr "Untitled Clip");
     url := dict_get clip_data "webpage_url" (PStr "");
     thumbnail_url := dict_get clip_data "thumbnail" (PStr "");
     view_count := dict_get clip_data "view_count" (PInt 0);
     duration := dict_get clip_data "duration" (PInt 0);
     created_at := dict_get clip_data "upload_date" (PStr "");
     broadcaster_name := username |}.

(** *** [clips.sort(key=lambda x: x.get('view_count', 0), reverse=True)]

    [list.sort] is stable and compares keys with [<] only; with
    [reverse=True] it reverses the list, sorts it, and reverses the result,
    which keeps equal keys in their original order.  Keys that are [int] or
    [bool] are compared as numbers.  A key that is [None] or a [dict] takes
    part in no comparison: [<] raises [TypeError] for it, and a sort of two or
    more elements compares each of them at least once.  On other keys
    ([float], [str], [list], alone or mixed with numbers) the sort rearranges
    the list as the host says, or raises [TypeError]. *)

(** The key as a number: an [int], or a [bool], which is 0 or 1 *)
Definition numeric_key (c : clip) : option Z :=
  match view_count c with
  | PInt z => Some z
  | PBool b => Some (if b then 1 else 0)%Z
  | _ => None
  end.

Definition views (c : clip) : Z :=
  match numeric_key c with Some z => z | None => 0%Z end.

Definition has_numeric_key (c : clip) : bool :=
  match numeric_key c with Some _ => true | None => false end.

Definition has_incomparable_key (c : clip) : bool :=
  match view_count c with PNone | PDict _ => true | _ => false end.

Fixpoint insert_sorted {A} (key : A -> Z) (x : A) (l : list A) : list A :=
  match l with
  | [] => [x]
  | y :: r => if Z.ltb (key y) (key x) then y :: insert_sorted key x r else x :: l
  end.

(** A stable ascending sort *)
Fixpoint stable_sort {A} (key : A -> Z) (l : list A) : list A :=
  match l with
  | [] => []
  | x :: r => insert_sorted key x (stable_sort key r)
  end.

(** [l.sort(key=key, reverse=reverse)] *)
Definition list_sort {A} (key : A -> Z) (reverse : bool) (l : list A) : list A :=
  if reverse then rev (stable_sort key (rev l)) else stable_sort key l.

(** [l] with [x] put in at position [n], at the end when [n] is too large *)
Fixpoint insert_at {A} (n : nat) (x : A) (l : list A) : list A :=
  match n, l with
  | S n', y :: r => y :: insert_at n' x r
  | _, _ => x :: l
  end.

(** The elements of [l] put in one by one, the last first, each at its
    position: every rearrangement of [l] is one of these. *)
Fixpoint arrange {A} (positions : list nat) (l : list A) : list A :=
  match l with
  | [] => []
  | x :: r => insert_at (hd 0 positions) x (arrange (tl positions) r)
  end.

Section Ranker.
Context {H : Host}.

Definition sort_by_view_count (clips : list clip) : M (list clip) :=
  match clips with
  | [] | [_] => ret clips
  | _ => if forallb has_numeric_key clips
         then ret (list_sort views true clips)
         else if existsb has_incomparable_key clips then raise TypeError
         else match sort_positions (map view_count clips) with
              | Some positions => ret (arrange positions clips)
              | None => raise TypeError
              end
  end.

End Ranker.

(** *** [re.sub] of the character class of invalid file name characters by ['_'] *)

(** The characters of the class: backslash, slash, star, question mark,
    colon, double quote, less-than, greater-than and bar *)
Definition invalid_chars : list ascii :=
  ["092"; "/"; "*"; "?"; ":"; "034"; "<"; ">"; "|"]%char.

Definition is_invalid (c : ascii) : bool := existsb (Ascii.eqb c) invalid_chars.

Fixpoint sanitize (title : string) : string :=
  match title with
  | EmptyString => EmptyString
  | String c r => String (if is_invalid c then "_"%char else c) (sanitize r)
  end.

(** [re.sub] raises [TypeError] on a title that is not a string *)
Definition sanitize_title (title : value) : M string :=
  match title with
  | PStr s => ret (sanitize s)
  | _ => raise TypeError
  end.

(** A value as a process argument: anything but a [str] makes
    [subprocess.run] raise [TypeError] *)
Definition as_arg (v : value) : option string :=
  match v with PStr s => Some s | _ => None end.

(** *** The instructions file *)

Definition platforms : list string := ["YouTube"; "TikTok"; "Instagram"].

Definition instructions : dict (list string) :=
  [ ("YouTube",
     [ "1. Go to https://studio.youtube.com/";
       "2. Click 'CREATE' > 'Upload video'";
       "3. Select the downloaded clip file";
       "4. Use the metadata file (JSON) to fill in title, description, and tags";
       "5. Set visibility to Public";
       "6. Click 'NEXT' through the screens and then 'PUBLISH'" ]);
    ("TikTok",
     [ "1. Open the TikTok app on your device";
       "2. Tap the '+' button to create a new video";
       "3. Tap 'Upload' and select the downloaded clip";
       "4. Ensure the clip is under 60 seconds (TikTok's limit)";
       "5. Add relevant text, effects, and hashtags";
       "6. Tap 'Next' and then 'Post'" ]);
    ("Instagram",
     [ "1. Open the Instagram app on your device";
       "2. Tap the '+' button at the bottom and select 'Post'";
       "3. Select the downloaded clip";
       "4. Apply filters if desired";
       "5. Write a caption including attribution to the original creator";
       "6. Add relevant hashtags and location";
       "7. Tap 'Share'" ]) ].

Fixpoint write_lines (path : string) (lines : list string) : M unit :=
  match lines with
  | [] => ret tt
  | l :: r => file_write path (l +++ newline) ;; write_lines path r
  end.

Fixpoint write_platforms (path : string) (names : list string) : M unit :=
  match names with
  | [] => ret tt
  | platform :: r =>
      file_write path ("=== " +++ platform +++ " Instructions ===" +++ newline) ;;
      write_lines path (dict_get instructions platform []) ;;
      file_write path newline ;;
      write_platforms path r
  end.

Section Emitters.
Context {H : Host}.

(** The body of [with open(instructions_path, 'w') as f] *)
Definition write_instructions (instructions_path output_dir : string)
    (downloaded_clips : list (clip * string)) : M unit :=
  open_w instructions_path ;;
  file_write instructions_path ("==== UPLOAD INSTRUCTIONS ====" +++ newline +++ newline) ;;
  file_write instructions_path
    ("Downloaded clips directory: " +++ os_path_abspath output_dir +++ newline) ;;
  file_write instructions_path
    ("Number of clips: " +++ str_int (Z.of_nat (length downloaded_clips))
     +++ newline +++ newline) ;;
  write_platforms instructions_path platforms ;;
  file_write instructions_path ("==== IMPORTANT NOTES ====" +++ newline) ;;
  file_write instructions_path
    ("1. Always give credit to the original content creator" +++ newline) ;;
  file_write instructions_path
    ("2. Follow each platform's community guidelines" +++ newline) ;;
  file_write instructions_path
    ("3. Consider adding your own branding/intro if reusing content regularly"
     +++ newline) ;;
  file_write instructions_path
    ("4. Check each platform's specific size/length/format requirements" +++ newline).

(** The [metadata] dict of [create_metadata_file] *)
Definition metadata_of (clip : clip) (downloaded_at : Z) : value :=
  PDict
    [ ("title", PStr (broadcaster_name clip +++ " - " +++ py_str (title clip)));
      ("description",
       PStr ("Clip from " +++ broadcaster_name clip +++ " on Twitch" +++ newline +++ newline
             +++ "Original clip: " +++ py_str (url clip)));
      ("tags", PList [ PStr (lower (broadcaster_name clip)); PStr "twitch";
                       PStr "gaming"; PStr "clip"; PStr "highlights" ]);
      ("category", PStr "Gaming");
      ("visibility", PStr "public");
      ("original_url", url clip);
      ("views", view_count clip);
      ("clip_created_at", created_at clip);
      ("downloaded_at", PStr (isoformat downloaded_at)) ].

End Emitters.

(* ------------------------------------------------------------------ *)
(** ** [twitch_clip_downloader.py] *)

Module Cli.
Section Program.
Context {H : Host}.

(** The parsed command line *)
Record arguments : Type := Arguments {
  streamer : string;
  hours : Z;
  limit : Z;
  output_dir : string;
  min_views : Z;
  metadata : bool;
  format : string
}.

Definition check_dependencies : M unit :=
  try_except
    (_ <- subprocess_run_check [Some "yt-dlp"; Some "--version"] ;;
     print "✓ yt-dlp is installed")
    is_SubprocessError_or_FileNotFound
    (fun _ =>
       print "✗ yt-dlp is not installed. Please install it with 'pip install yt-dlp'" ;;
       raise (SystemExit 1)) ;;
  try_except
    (_ <- subprocess_run_check [Some "ffmpeg"; Some "-version"] ;;
     print "✓ ffmpeg is installed")
    is_SubprocessError_or_FileNotFound
    (fun _ =>
       print "✗ ffmpeg is not installed. Please install it from https://ffmpeg.org/download.html" ;;
       raise (SystemExit 1)).

Definition get_clips_url (username period : string) : string :=
  let username := lower (strip username) in
  "https://www.twitch.tv/" +++ username +++ "/clips?filter=clips&range=" +++ period.

Definition period_of_hours (hours : Z) : string :=
  if Z.eqb hours (7 * 24) then "7d"
  else if Z.eqb hours (30 * 24) then "30d"
  else if Z.eqb hours (90 * 24) then "all"
  else "24h".

(** The [command] list of [scrape_clips]: [hours] and [period] play no part *)
Definition listing_command (username : string) (limit min_views : Z)
  : list (option string) :=
  [ Some "yt-dlp";
    Some "--flat-playlist";
    Some "--dump-json";
    Some ("https://www.twitch.tv/" +++ username +++ "/clips");
    Some "--match-filter"; Some ("view_count >= " +++ str_int min_views);
    Some "--playlist-end"; Some (str_int limit) ].

(** The loop over the lines of the tool's output.  An empty line and a line
    that is not JSON are passed over; a line that decodes to something other
    than an object has no [get]. *)
Fixpoint parse_lines (username : string) (lines : list string) (clips : list clip)
  : M (list clip) :=
  match lines with
  | [] => ret clips
  | line :: rest =>
      if negb (nonempty line) then parse_lines username rest clips
      else match json_loads line with
           | None => parse_lines username rest clips
           | Some (PDict clip_data) =>
               parse_lines username rest (clips ++ [clip_of_data username clip_data])
           | Some _ => raise AttributeError
           end
  end.

Definition scrape_clips (username : string) (hours limit min_views : Z)
  : M (list clip) :=
  let period := period_of_hours hours in
  let clips_url := get_clips_url username period in
  print ("Fetching clips from: " +++ clips_url) ;;
  try_except
    (result <- subprocess_run (listing_command username limit min_views) ;;
     if negb (Z.eqb (returncode result) 0) then
       (print ("Error running yt-dlp: " +++ stderr result) ;; ret [])
     else
       clips <- parse_lines username (split_on "010" (strip (stdout result))) [] ;;
       print ("Found " +++ str_int (Z.of_nat (length clips)) +++ " clips.") ;;
       ret clips)
    is_Exception
    (fun e => print ("Error scraping clips: " +++ str_exn e) ;; ret []).

Definition download_command (output_path : string) (clip_url : value)
  : list (option string) :=
  [Some "yt-dlp"; Some "-o"; Some output_path; Some "-f"; Some "best"; as_arg clip_url].

Definition download_clip (clip : clip) (output_dir output_format : string)
  : M (option string) :=
  try_except
    (let clip_url := url clip in
     if negb (truthy clip_url) then
       (print ("Error: No URL for clip " +++ py_str (title clip)) ;; ret None)
     else
       let broadcaster := broadcaster_name clip in
       let title := title clip in
       sanitized_title <- sanitize_title title ;;
       let filename := broadcaster +++ " - " +++ sanitized_title +++ "." +++ output_format in
       let output_path := os_path_join output_dir filename in
       present <- os_path_exists output_path ;;
       if present then
         (print ("Clip already exists: " +++ output_path) ;; ret (Some output_path))
       else
         print ("Downloading: " +++ py_str title) ;;
         result <- subprocess_run (download_command output_path clip_url) ;;
         if negb (Z.eqb (returncode result) 0) then
           (print ("Error downloading clip: " +++ stderr result) ;; ret None)
         else
           present <- os_path_exists output_path ;;
           if negb present then
             (print ("Download finished but file not found: " +++ output_path) ;;
              ret None)
           else
             (print ("Successfully downloaded: " +++ output_path) ;;
              ret (Some output_path)))
    is_Exception
    (fun e => print ("Error downloading clip: " +++ str_exn e) ;; ret None).

Definition create_metadata_file (clip : clip) (video_path : string) (output_format : string)
  : M (option string) :=
  try_except
    (let output_path := rsplit_dot_head video_path +++ "." +++ output_format in
     downloaded_at <- datetime_now ;;
     let metadata := metadata_of clip downloaded_at in
     open_w output_path ;;
     file_write output_path (json_dumps metadata) ;;
     print ("Created metadata file: " +++ output_path) ;;
     ret (Some output_path))
    is_Exception
    (fun e => print ("Error creating metadata file: " +++ str_exn e) ;; ret None).

Definition generate_platform_instructions (downloaded_clips : list (clip * string))
    (output_dir : string) : M unit :=
  match downloaded_clips with
  | [] => ret tt
  | _ =>
      let instructions_path := os_path_join output_dir "upload_instructions.txt" in
      write_instructions instructions_path output_dir downloaded_clips ;;
      print ("Created upload instructions: " +++ instructions_path)
  end.

(** [for i, clip in enumerate(clips, 1): ...] of [main], from index [i] on *)
Fixpoint download_all (args : arguments) (total : nat) (i : Z) (clips : list clip)
    (downloaded_clips : list (clip * string)) : M (list (clip * string)) :=
  match clips with
  | [] => ret downloaded_clips
  | clip :: rest =>
      print (newline +++ "Processing clip " +++ str_int i +++ "/"
             +++ str_int (Z.of_nat total)) ;;
      print ("Title: " +++ py_str (title clip)) ;;
      print ("Views: " +++ py_str (view_count clip)) ;;
      output_path <- download_clip clip (output_dir args) (format args) ;;
      match output_path with
      | Some p =>
          (if andb (nonempty p) (metadata args)
           then (_ <- create_metadata_file clip p "json" ;; ret tt)
           else ret tt) ;;
          download_all args total (i + 1) rest
            (if nonempty p then downloaded_clips ++ [(clip, p)] else downloaded_clips)
      | None => download_all args total (i + 1) rest downloaded_clips
      end
  end.

(** [main] up to the listing: dependencies, banner, output directory *)
Definition main_prelude (args : arguments) : M unit :=
  check_dependencies ;;
  print "=== Twitch Clip Downloader ===" ;;
  print ("Target streamer: " +++ streamer args) ;;
  print ("Looking back " +++ str_int (hours args) +++ " hours") ;;
  print ("Clip limit: " +++ str_int (limit args)) ;;
  print ("Minimum views: " +++ str_int (min_views args)) ;;
  print "" ;;
  os_makedirs (output_dir args).

(** The listing step of [main] *)
Definition main_listing (args : arguments) : M (list clip) :=
  scrape_clips (streamer args) (hours args) (limit args) (min_views args).

(** [main] from the listing's result on *)
Definition main_rest (args : arguments) (clips : list clip) : M unit :=
  match clips with
  | [] =>
      print ("No clips found for " +++ streamer args +++ " in the last "
             +++ str_int (hours args) +++ " hours.")
  | _ =>
      clips <- sort_by_view_count clips ;;
      downloaded_clips <- download_all args (length clips) 1 clips [] ;;
      print (newline +++ "Downloaded " +++ str_int (Z.of_nat (length downloaded_clips))
             +++ "/" +++ str_int (Z.of_nat (length clips)) +++ " clips to "
             +++ os_path_abspath (output_dir args)) ;;
      generate_platform_instructions downloaded_clips (output_dir args)
  end.

Definition main (args : arguments) : M unit :=
  main_prelude args ;;
  clips <- main_listing args ;;
  main_rest args clips.

End Program.
End Cli.

(* ------------------------------------------------------------------ *)
(** ** [simple_gui.py]: the methods of [TwitchClipDownloaderGUI]

    [self] is the record [gui]: the form variables and the located
    [ffmpeg_path].  What is printed goes to the trace; the traceback that
    [download_clips_thread] sends to the standard error stream does not. *)

Module Gui.
Section Program.
Context {H : Host}.

Record gui : Type := Self {
  streamer_var : string;
  period_var : string;
  limit_var : Z;
  min_views_var : Z;
  format_var : string;
  output_dir_var : string;
  create_metadata_var : bool;
  generate_instructions_var : bool;
  ffmpeg_path : option string
}.

Definition log (message : string) : M unit :=
  now <- datetime_now ;;
  let timestamp := strftime "%H:%M:%S" now in
  print ("[" +++ timestamp +++ "] " +++ message).

(** [hours_map.get(period, period)], as the f-string renders it *)
Definition hours_display (period : string) : string :=
  dict_get [ ("24h", str_int 24); ("7d", str_int (7 * 24));
             ("30d", str_int (30 * 24)); ("all", "all time") ] period period.

(** [now - datetime.timedelta(...)], in seconds *)
Definition timedelta_hours (h : Z) : Z := (h * 3600)%Z.
Definition timedelta_days (d : Z) : Z := (d * 86400)%Z.

Definition get_date_filter (period : string) : M string :=
  now <- datetime_now ;;
  let date :=
    (if String.eqb period "24h" then now - timedelta_hours 24
     else if String.eqb period "7d" then now - timedelta_days 7
     else if String.eqb period "30d" then now - timedelta_days 30
     else now - timedelta_hours 24)%Z in
  ret (strftime "%Y%m%d" date).

Definition listing_command (username : string) (limit min_views : Z)
  : list (option string) :=
  [ Some "yt-dlp";
    Some "--flat-playlist";
    Some "--dump-json";
    Some ("https://www.twitch.tv/" +++ username +++ "/clips");
    Some "--match-filter"; Some ("view_count >= " +++ str_int min_views);
    Some "--playlist-end"; Some (str_int limit) ].

Fixpoint parse_lines (username : string) (lines : list string) (clips : list clip)
  : M (list clip) :=
  match lines with
  | [] => ret clips
  | line :: rest =>
      if negb (nonempty line) then parse_lines username rest clips
      else match json_loads line with
           | None => parse_lines username rest clips
           | Some (PDict clip_data) =>
               parse_lines username rest (clips ++ [clip_of_data username clip_data])
           | Some _ => raise AttributeError
           end
  end.

Definition scrape_clips (username period : string) (limit min_views : Z)
  : M (list clip) :=
  log ("Searching for clips from " +++ username +++ " (" +++ period +++ ")...") ;;
  log ("Looking back " +++ hours_display period +++ " hours/period") ;;
  try_except
    (let command := listing_command username limit min_views in
     command <- (if negb (String.eqb period "all")
                 then (date_filter <- get_date_filter period ;;
                       ret (command ++ [Some "--dateafter"; Some date_filter]))
                 else ret command) ;;
     log "Running clip search..." ;;
     result <- subprocess_run command ;;
     if negb (Z.eqb (returncode result) 0) then
       (log ("Error running yt-dlp: " +++ stderr result) ;; ret [])
     else
       clips <- parse_lines username (split_on "010" (strip (stdout result))) [] ;;
       log ("Found " +++ str_int (Z.of_nat (length clips)) +++ " clips") ;;
       sort_by_view_count clips)
    is_Exception
    (fun e => log ("Error scraping clips: " +++ str_exn e) ;; ret []).

Definition download_command (self : gui) (output_path : string) (clip_url : value)
  : list (option string) :=
  [Some "yt-dlp"; Some "-o"; Some output_path; Some "-f"; Some "best"; as_arg clip_url]
  ++ match ffmpeg_path self with
     | Some p => if nonempty p then [Some "--ffmpeg-location"; Some p] else []
     | None => []
     end.

Definition download_clip (self : gui) (clip : clip) (output_dir output_format : string)
  : M (option string) :=
  try_except
    (let clip_url := url clip in
     if negb (truthy clip_url) then
       (log ("Error: No URL for clip " +++ py_str (title clip)) ;; ret None)
     else
       let broadcaster := broadcaster_name clip in
       let title := title clip in
       sanitized_title <- sanitize_title title ;;
       let filename := broadcaster +++ " - " +++ sanitized_title +++ "." +++ output_format in
       let output_path := os_path_join output_dir filename in
       present <- os_path_exists output_path ;;
       if present then
         (log ("Clip already exists: " +++ output_path) ;; ret (Some output_path))
       else
         log ("Downloading: " +++ py_str title) ;;
         result <- subprocess_run (download_command self output_path clip_url) ;;
         if negb (Z.eqb (returncode result) 0) then
           (log ("Error downloading clip: " +++ stderr result) ;; ret None)
         else
           present <- os_path_exists output_path ;;
           if negb present then
             (log ("Download finished but file not found: " +++ output_path) ;;
              ret None)
           else
             (log ("Successfully downloaded: " +++ output_path) ;;
              ret (Some output_path)))
    is_Exception
    (fun e => log ("Error downloading clip: " +++ str_exn e) ;; ret None).

Definition create_metadata_file (clip : clip) (video_path : string) : M (option string) :=
  try_except
    (let output_path := rsplit_dot_head video_path +++ ".json" in
     downloaded_at <- datetime_now ;;
     let metadata := metadata_of clip downloaded_at in
     open_w output_path ;;
     file_write output_path (json_dumps metadata) ;;
     log ("Created metadata file: " +++ output_path) ;;
     ret (Some output_path))
    is_Exception
    (fun e => log ("Error creating metadata file: " +++ str_exn e) ;; ret None).

Definition generate_platform_instructions (downloaded_clips : list (clip * string))
    (output_dir : string) : M unit :=
  match downloaded_clips with
  | [] => ret tt
  | _ =>
      let instructions_path := os_path_join output_dir "upload_instructions.txt" in
      write_instructions instructions_path output_dir downloaded_clips ;;
      log ("Created upload instructions: " +++ instructions_path)
  end.

(** [for i, clip in enumerate(clips, 1): ...] of [download_clips_thread] *)
Fixpoint download_all (self : gui) (total : nat) (i : Z) (clips : list clip)
    (downloaded_clips : list (clip * string)) : M (list (clip * string)) :=
  match clips with
  | [] => ret downloaded_clips
  | clip :: rest =>
      log (newline +++ "Processing clip " +++ str_int i +++ "/"
           +++ str_int (Z.of_nat total)) ;;
      log ("Title: " +++ py_str (title clip)) ;;
      log ("Views: " +++ py_str (view_count clip)) ;;
      emit (EvStatus ("Downloading " +++ str_int i +++ "/" +++ str_int (Z.of_nat total)
                      +++ " clips")) ;;
      output_path <- download_clip self clip (output_dir_var self) (format_var self) ;;
      match output_path with
      | Some p =>
          (if andb (nonempty p) (create_metadata_var self)
           then (_ <- create_metadata_file clip p ;; ret tt)
           else ret tt) ;;
          download_all self total (i + 1) rest
            (if nonempty p then downloaded_clips ++ [(clip, p)] else downloaded_clips)
      | None => download_all self total (i + 1) rest downloaded_clips
      end
  end.

(** The listing step of [download_clips_thread] *)
Definition thread_listing (self : gui) : M (list clip) :=
  let streamer := strip (streamer_var self) in
  log ("Searching for clips from " +++ streamer +++ " (" +++ period_var self +++ ")...") ;;
  scrape_clips streamer (period_var self) (limit_var self) (min_views_var self).

(** The [try] block from the listing's result on *)
Definition thread_rest (self : gui) (clips : list clip) : M unit :=
  let streamer := strip (streamer_var self) in
  match clips with
  | [] =>
      log ("No clips found for " +++ streamer +++ " in the selected time period.") ;;
      emit (EvStatus "No clips found") ;;
      emit EvEnableButtons
  | _ =>
      downloaded_clips <- download_all self (length clips) 1 clips [] ;;
      log (newline +++ "Downloaded " +++ str_int (Z.of_nat (length downloaded_clips))
           +++ "/" +++ str_int (Z.of_nat (length clips)) +++ " clips to "
           +++ os_path_abspath (output_dir_var self)) ;;
      (if generate_instructions_var self
       then generate_platform_instructions downloaded_clips (output_dir_var self)
       else ret tt) ;;
      emit (EvStatus ("Completed: " +++ str_int (Z.of_nat (length downloaded_clips))
                      +++ " clips downloaded")) ;;
      emit (EvShowInfo "Download Complete"
              ("Successfully downloaded " +++ str_int (Z.of_nat (length downloaded_clips))
               +++ " clips."))
  end.

Definition download_clips_thread (self : gui) : M unit :=
  try_finally
    (try_except
       (clips <- thread_listing self ;;
        thread_rest self clips)
       is_Exception
       (fun e =>
          log ("Error during download: " +++ str_exn e) ;;
          emit (EvStatus "Error during download") ;;
          emit (EvShowError "Error" ("An error occurred: " +++ str_exn e))))
    (emit EvEnableButtons).

End Program.
End Gui.

(* ------------------------------------------------------------------ *)
(** ** [video_processor.py]: [process_single_file] and [main]

    [args] is the parsed command line.  Two things that [main] asks of the
    outside are parameters here: [os.path.isdir], and the reading of the
    batch config file, that is [json.load] and the three [config.get], at the
    types of a config file (an object with two optional strings and a list of
    operations); [None] stands for [json.JSONDecodeError]. *)

Module Processor.

Record arguments : Type := Arguments {
  input : string;
  output : option string;
  batch : bool;
  operation : option string;
  start : string;
  duration : option string;
  text : string;
  position : string;
  fontsize : string;
  intro_file : string;
  format : string;
  platform : string;
  config : string
}.

Record config_file : Type := Config {
  config_input_dir : option string;
  config_output_dir : option string;
  config_operations : option (list VideoProcessor.operation)
}.

Section Program.
Context {H : Host}.
Variable os_path_isdir : world -> string -> bool.
Variable load_config : world -> string -> option config_file.

Definition is_operation (args : arguments) (name : string) : bool :=
  match operation args with
  | Some o => String.eqb o name
  | None => false
  end.

Definition process_single_file (args : arguments) (input_path : string)
    (output_path : option string) : M unit :=
  if is_operation args "trim" then
    (_ <- VideoProcessor.trim_video (Some input_path) output_path
            (start args) (duration args) ;; ret tt)
  else if is_operation args "watermark" then
    (_ <- VideoProcessor.add_watermark (Some input_path) (text args) output_path
            (position args) (fontsize args) ;; ret tt)
  else if is_operation args "intro" then
    (_ <- VideoProcessor.add_intro (Some input_path) (intro_file args) output_path ;;
     ret tt)
  else if is_operation args "convert" then
    (_ <- VideoProcessor.convert_format (Some input_path) (format args) output_path ;;
     ret tt)
  else if is_operation args "resize" then
    (_ <- VideoProcessor.resize_for_platform (Some input_path) (platform args)
            output_path ;; ret tt)
  else print "No operation specified. Use --help for usage information.".

(** [for video_file in video_files: ...] of [main] *)
Fixpoint process_each (args : arguments) (output_dir : string)
    (video_files : list string) : M unit :=
  match video_files with
  | [] => ret tt
  | video_file :: rest =>
      let filename := os_path_basename video_file in
      let output_path := os_path_join output_dir filename in
      process_single_file args video_file (Some output_path) ;;
      process_each args output_dir rest
  end.

(** The branch of [main] for the [batch-config] operation *)
Definition main_batch_config (args : arguments) : M unit :=
  found <- os_path_exists (config args) ;;
  if negb found then
    (print ("Config file not found: " +++ config args) ;; raise (SystemExit 1))
  else
    (fun w =>
       match load_config w (config args) with
       | None =>
           (print ("Invalid JSON in config file: " +++ config args) ;;
            raise (SystemExit 1)) w
       | Some cfg =>
           try_except
             (let input_dir := match config_input_dir cfg with
                               | Some d => d
                               | None => input args
                               end in
              let output_dir := match config_output_dir cfg with
                                | Some d => Some d
                                | None => output args
                                end in
              let operations := match config_operations cfg with
                                | Some l => l
                                | None => []
                                end in
              processed_files <-
                VideoProcessor.batch_process input_dir operations output_dir ;;
              print ("Processed " +++ str_int (Z.of_nat (length processed_files))
                     +++ " files"))
             is_Exception
             (fun e => print ("Error processing batch: " +++ str_exn e) ;;
                       raise (SystemExit 1)) w
       end) ;;
    raise (SystemExit 0).

(** The branch of [main] for [--batch] *)
Definition main_batch (args : arguments) : M unit :=
  is_dir <- (fun w => (Return (os_path_isdir w (input args)), w)) ;;
  if negb is_dir then
    (print ("Input must be a directory for batch processing: " +++ input args) ;;
     raise (SystemExit 1))
  else
    let output_dir := match output args with
                      | Some o => if nonempty o then o
                                  else os_path_join (input args) "processed"
                      | None => os_path_join (input args) "processed"
                      end in
    os_makedirs output_dir ;;
    video_files <- VideoProcessor.list_video_files (input args) ;;
    print ("Found " +++ str_int (Z.of_nat (length video_files)) +++ " video files") ;;
    process_each args output_dir video_files ;;
    print ("Batch processing complete. Processed files saved to: " +++ output_dir) ;;
    raise (SystemExit 0).

Definition main (args : arguments) : M unit :=
  ok <- VideoProcessor.check_ffmpeg ;;
  if negb ok then raise (SystemExit 1)
  else if is_operation args "batch-config" then main_batch_config args
  else if batch args then main_batch args
  else
    found <- os_path_exists (input args) ;;
    if negb found then
      (print ("Input file not found: " +++ input args) ;; raise (SystemExit 1))
    else process_single_file args (input args) (output args).

End Program.
End Processor.

(* ------------------------------------------------------------------ *)
(** ** [twitch_clip_downloader_gui.py]: the window around the command line

    The methods of its [TwitchClipDownloaderGUI] that carry logic; they call
    the functions of [twitch_clip_downloader.py]. *)

Module Window.
Section Program.
Context {H : Host}.

Record gui : Type := Self {
  streamer_var : string;
  period_var : string;
  limit_var : Z;
  min_views_var : Z;
  format_var : string;
  output_dir_var : string;
  create_metadata_var : bool;
  generate_instructions_var : bool
}.

Definition log (message : string) : M unit :=
  now <- datetime_now ;;
  let timestamp := strftime "%H:%M:%S" now in
  print ("[" +++ timestamp +++ "] " +++ message).

Definition check_dependencies : M unit :=
  log "Checking dependencies..." ;;
  try_except
    (Cli.check_dependencies ;; emit (EvStatus "Dependencies OK"))
    is_Exception
    (fun e =>
       log ("Error checking dependencies: " +++ str_exn e) ;;
       emit (EvStatus "Dependencies missing")).

(** [hours_map.get(period, 24)] *)
Definition hours_of_period (period : string) : Z :=
  dict_get [("24h", 24); ("7d", 7 * 24); ("30d", 30 * 24); ("all", 365 * 24)]%Z
           period 24%Z.

(** [for i, clip in enumerate(clips, 1): ...] of [download_clips] *)
Fixpoint download_all (self : gui) (total : nat) (i : Z) (clips : list clip)
    (downloaded_clips : list (clip * string)) : M (list (clip * string)) :=
  match clips with
  | [] => ret downloaded_clips
  | clip :: rest =>
      log (newline +++ "Processing clip " +++ str_int i +++ "/"
           +++ str_int (Z.of_nat total)) ;;
      log ("Title: " +++ py_str (title clip)) ;;
      log ("Views: " +++ py_str (view_count clip)) ;;
      output_path <- Cli.download_clip clip (output_dir_var self) (format_var self) ;;
      downloaded_clips <-
        match output_path with
        | Some p =>
            (if andb (nonempty p) (create_metadata_var self)
             then (_ <- Cli.create_metadata_file clip p "json" ;; ret tt)
             else ret tt) ;;
            ret (if nonempty p then downloaded_clips ++ [(clip, p)]
                 else downloaded_clips)
        | None => ret downloaded_clips
        end ;;
      emit (EvStatus ("Downloaded " +++ str_int i +++ "/" +++ str_int (Z.of_nat total)
                      +++ " clips")) ;;
      download_all self total (i + 1) rest downloaded_clips
  end.

Definition download_clips (self : gui) : M unit :=
  try_finally
    (try_except
       (let streamer := strip (streamer_var self) in
        let period := period_var self in
        let hours := hours_of_period period in
        log ("Searching for clips from " +++ streamer +++ " (" +++ period +++ ")...") ;;
        clips <- Cli.scrape_clips streamer hours (limit_var self) (min_views_var self) ;;
        match clips with
        | [] =>
            log ("No clips found for " +++ streamer +++ " in the selected time period.") ;;
            emit EvEnableButtons ;;
            emit (EvStatus "No clips found")
        | _ =>
            clips <- sort_by_view_count clips ;;
            downloaded_clips <- download_all self (length clips) 1 clips [] ;;
            log (newline +++ "Downloaded "
                 +++ str_int (Z.of_nat (length downloaded_clips))
                 +++ "/" +++ str_int (Z.of_nat (length clips)) +++ " clips to "
                 +++ os_path_abspath (output_dir_var self)) ;;
            (if generate_instructions_var self
             then Cli.generate_platform_instructions downloaded_clips
                    (output_dir_var self)
             else ret tt) ;;
            emit (EvStatus ("Completed: "
                            +++ str_int (Z.of_nat (length downloaded_clips))
                            +++ " clips downloaded")) ;;
            emit (EvShowInfo "Download Complete"
                    ("Successfully downloaded "
                     +++ str_int (Z.of_nat (length downloaded_clips)) +++ " clips."))
        end)
       is_Exception
       (fun e =>
          log ("Error during download: " +++ str_exn e) ;;
          emit (EvStatus "Error during download") ;;
          emit (EvShowError "Error" ("An error occurred: " +++ str_exn e))))
    (emit EvEnableButtons).

End Program.
End Window.

(* ------------------------------------------------------------------ *)
(** ** A host for the examples

    The theorems quantify over the host.  Closed examples need one: the
    functions below follow the Python library on plain inputs (POSIX paths,
    JSON without surrogate escapes, dates of the Gregorian calendar) and are
    used for nothing else. *)

Module Example.

Definition dquote : ascii := "034"%char.
Definition backslash : ascii := "092"%char.

(** *** [json.loads] *)

Definition is_json_ws (c : ascii) : bool :=
  existsb (Ascii.eqb c) [" "; "009"; "010"; "013"]%char.

Fixpoint skip_ws (s : string) : string :=
  match s with
  | String c r => if is_json_ws c then skip_ws r else s
  | EmptyString => s
  end.

Definition is_digit (c : ascii) : bool :=
  andb (Nat.leb 48 (nat_of_ascii c)) (Nat.leb (nat_of_ascii c) 57).

Fixpoint take_digits (s : string) : string * string :=
  match s with
  | String c r => if is_digit c then let (d, t) := take_digits r in (String c d, t)
                  else (EmptyString, s)
  | EmptyString => (EmptyString, s)
  end.

Fixpoint digits_value (s : string) (acc : Z) : Z :=
  match s with
  | String c r => digits_value r (10 * acc + Z.of_nat (nat_of_ascii c - 48))
  | EmptyString => acc
  end.

Definition hex_digit (c : ascii) : option N :=
  let n := N_of_ascii c in
  (if andb (48 <=? n) (n <=? 57) then Some (n - 48)
   else if andb (65 <=? n) (n <=? 70) then Some (n - 55)
   else if andb (97 <=? n) (n <=? 102) then Some (n - 87)
   else None)%N.

(** The UTF-8 bytes of a code point of the basic plane *)
Definition utf8 (cp : N) : string :=
  (if cp <? 128 then String (ascii_of_N cp) EmptyString
   else if cp <? 2048 then
     String (ascii_of_N (192 + cp / 64))
       (String (ascii_of_N (128 + cp mod 64)) EmptyString)
   else
     String (ascii_of_N (224 + cp / 4096))
       (String (ascii_of_N (128 + (cp / 64) mod 64))
          (String (ascii_of_N (128 + cp mod 64)) EmptyString)))%N.

(** The text after an opening quote, up to the closing one *)
Fixpoint string_body (fuel : nat) (s : string) : option (string * string) :=
  match fuel with
  | O => None
  | S fuel =>
      match s with
      | EmptyString => None
      | String c r =>
          if Ascii.eqb c dquote then Some (EmptyString, r)
          else if Ascii.eqb c backslash then
            match r with
            | String e r' =>
                let plain (x : ascii) :=
                  match string_body fuel r' with
                  | Some (b, t) => Some (String x b, t)
                  | None => None
                  end in
                if Ascii.eqb e dquote then plain dquote
                else if Ascii.eqb e backslash then plain backslash
                else if Ascii.eqb e "/" then plain "/"%char
                else if Ascii.eqb e "b" then plain "008"%char
                else if Ascii.eqb e "f" then plain "012"%char
                else if Ascii.eqb e "n" then plain "010"%char
                else if Ascii.eqb e "r" then plain "013"%char
                else if Ascii.eqb e "t" then plain "009"%char
                else if Ascii.eqb e "u" then
                  match r' with
                  | String h1 (String h2 (String h3 (String h4 r''))) =>
                      match hex_digit h1, hex_digit h2, hex_digit h3, hex_digit h4 with
                      | Some a, Some b, Some c', Some d =>
                          let cp := (((a * 16 + b) * 16 + c') * 16 + d)%N in
                          if andb (55296 <=? cp)%N (cp <=? 57343)%N then None
                          else match string_body fuel r'' with
                               | Some (b', t) => Some (utf8 cp +++ b', t)
                               | None => None
                               end
                      | _, _, _, _ => None
                      end
                  | _ => None
                  end
                else None
            | EmptyString => None
            end
          else if Nat.ltb (nat_of_ascii c) 32 then None
          else match string_body fuel r with
               | Some (b, t) => Some (String c b, t)
               | None => None
               end
      end
  end.

Fixpoint strip_prefix (p s : string) : option string :=
  match p, s with
  | EmptyString, _ => Some s
  | String a p', String b s' => if Ascii.eqb a b then strip_prefix p' s' else None
  | _, EmptyString => None
  end.

(** A number: an integer, or the literal of a float *)
Definition number (s : string) : option (value * string) :=
  let (neg, s1) := match s with
                   | String "-" r => (true, r)
                   | _ => (false, s)
                   end in
  let (ds, s2) := take_digits s1 in
  match ds with
  | EmptyString => None
  | String d0 more =>
      if andb (Ascii.eqb d0 "0") (negb (String.eqb more "")) then None
      else
        let (frac, s3) := match s2 with
                          | String "." r =>
                              let (fd, t) := take_digits r in
                              (String "." fd, t)
                          | _ => (EmptyString, s2)
                          end in
        if String.eqb frac "." then None
        else
          let (exp, s4) :=
            match s3 with
            | String e r =>
                if orb (Ascii.eqb e "e") (Ascii.eqb e "E") then
                  let (sign, r1) := match r with
                                    | String "+" t => ("+", t)
                                    | String "-" t => ("-", t)
                                    | _ => ("", r)
                                    end in
                  let (ed, t) := take_digits r1 in
                  match ed with
                  | EmptyString => (EmptyString, s3)
                  | _ => (String e (sign +++ ed), t)
                  end
                else (EmptyString, s3)
            | EmptyString => (EmptyString, s3)
            end in
          if andb (String.eqb frac "") (String.eqb exp "")
          then Some (PInt (if neg then - digits_value ds 0 else digits_value ds 0), s4)
          else Some (PFloat ((if neg then "-" else "") +++ ds +++ frac +++ exp), s4)
  end.

(** [d[k] = v] *)
Fixpoint dict_set {A} (d : dict A) (k : string) (v : A) : dict A :=
  match d with
  | [] => [(k, v)]
  | (k', v') :: r => if String.eqb k' k then (k, v) :: r else (k', v') :: dict_set r k v
  end.

Inductive goal : Type :=
| AValue
| Items (acc : list value)
| Members (acc : dict value).

(** One value, the items of an array after its bracket or a comma, or the
    members of an object after its brace or a comma *)
Fixpoint parse (fuel : nat) (g : goal) (s : string) : option (value * string) :=
  match fuel with
  | O => None
  | S fuel =>
      let s := skip_ws s in
      match g with
      | AValue =>
          match s with
          | String "{" r =>
              match skip_ws r with
              | String "}" t => Some (PDict [], t)
              | _ => parse fuel (Members []) r
              end
          | String "[" r =>
              match skip_ws r with
              | String "]" t => Some (PList [], t)
              | _ => parse fuel (Items []) r
              end
          | String c r =>
              if Ascii.eqb c dquote then
                match string_body (S (String.length r)) r with
                | Some (b, t) => Some (PStr b, t)
                | None => None
                end
              else
                match strip_prefix "true" s, strip_prefix "false" s, strip_prefix "null" s with
                | Some t, _, _ => Some (PBool true, t)
                | _, Some t, _ => Some (PBool false, t)
                | _, _, Some t => Some (PNone, t)
                | _, _, _ =>
                    match strip_prefix "NaN" s, strip_prefix "Infinity" s,
                          strip_prefix "-Infinity" s with
                    | Some t, _, _ => Some (PFloat "nan", t)
                    | _, Some t, _ => Some (PFloat "inf", t)
                    | _, _, Some t => Some (PFloat "-inf", t)
                    | _, _, _ => number s
                    end
                end
          | EmptyString => None
          end
      | Items acc =>
          match parse fuel AValue s with
          | Some (v, t) =>
              match skip_ws t with
              | String "," t' => parse fuel (Items (acc ++ [v])) t'
              | String "]" t' => Some (PList (acc ++ [v]), t')
              | _ => None
              end
          | None => None
          end
      | Members acc =>
          match s with
          | String c r =>
              if Ascii.eqb c dquote then
                match string_body (S (String.length r)) r with
                | Some (k, t) =>
                    match skip_ws t with
                    | String ":" t' =>
                        match parse fuel AValue t' with
                        | Some (v, t'') =>
                            match skip_ws t'' with
                            | String "," u => parse fuel (Members (dict_set acc k v)) u
                            | String "}" u => Some (PDict (dict_set acc k v), u)
                            | _ => None
                            end
                        | None => None
                        end
                    | _ => None
                    end
                | None => None
                end
              else None
          | EmptyString => None
          end
      end
  end.

Definition loads (s : string) : option value :=
  match parse (S (String.length s)) AValue s with
  | Some (v, t) => match skip_ws t with EmptyString => Some v | _ => None end
  | None => None
  end.

(** *** [os.path] on POSIX, with [/work] as the current directory and no
    normalisation in [abspath] *)

Definition has_char (c : ascii) (s : string) : bool :=
  existsb (Ascii.eqb c) (list_ascii_of_string s).

Definition is_abs (s : string) : bool :=
  match s with String "/" _ => true | _ => false end.

Fixpoint ends_with_slash (s : string) : bool :=
  match s with
  | EmptyString => false
  | String c EmptyString => Ascii.eqb c "/"
  | String _ r => ends_with_slash r
  end.

Definition path_join (a b : string) : string :=
  if is_abs b then b
  else if orb (String.eqb a "") (ends_with_slash a) then a +++ b
  else a +++ "/" +++ b.

(** The directory part with its slash, and the last component *)
Fixpoint split_last_slash (s : string) : string * string :=
  match s with
  | EmptyString => (EmptyString, EmptyString)
  | String c r =>
      if has_char "/" r then let (d, b) := split_last_slash r in (String c d, b)
      else if Ascii.eqb c "/" then ("/", r)
      else (EmptyString, s)
  end.

Definition path_basename (s : string) : string := snd (split_last_slash s).

(** The text before the last dot, and the rest from that dot on *)
Fixpoint split_last_dot (s : string) : string * string :=
  match s with
  | EmptyString => (EmptyString, EmptyString)
  | String c r =>
      if has_char "." r then let (a, e) := split_last_dot r in (String c a, e)
      else if Ascii.eqb c "." then (EmptyString, s)
      else (s, EmptyString)
  end.

Definition only_dots (s : string) : bool :=
  forallb (Ascii.eqb ".") (list_ascii_of_string s).

Definition path_splitext (p : string) : string * string :=
  let (d, name) := split_last_slash p in
  let (stem, ext) := split_last_dot name in
  if orb (String.eqb ext "") (only_dots stem) then (p, EmptyString)
  else (d +++ stem, ext).

Definition path_abspath (p : string) : string :=
  if is_abs p then p else "/work/" +++ p.

(** *** [datetime]: seconds since 1970-01-01 00:00:00 *)

(** Year, month and day of a day number (days since 1970-01-01) *)
Definition civil_of_days (days : Z) : Z * Z * Z :=
  (let z := days + 719468 in
   let era := z / 146097 in
   let doe := z - era * 146097 in
   let yoe := (doe - doe / 1460 + doe / 36524 - doe / 146096) / 365 in
   let doy := doe - (365 * yoe + yoe / 4 - yoe / 100) in
   let mp := (5 * doy + 2) / 153 in
   let d := doy - (153 * mp + 2) / 5 + 1 in
   let m := if mp <? 10 then mp + 3 else mp - 9 in
   let y := yoe + era * 400 + (if m <=? 2 then 1 else 0) in
   (y, m, d))%Z.

Definition pad2 (n : Z) : string :=
  if (n <? 10)%Z then "0" +++ str_int n else str_int n.

Definition pad4 (n : Z) : string :=
  if (n <? 10)%Z then "000" +++ str_int n
  else if (n <? 100)%Z then "00" +++ str_int n
  else if (n <? 1000)%Z then "0" +++ str_int n
  else str_int n.

Definition format_time (fmt : string) (t : Z) : string :=
  (let '(y, m, d) := civil_of_days (t / 86400) in
   let s := t mod 86400 in
   if String.eqb fmt "%Y%m%d" then pad4 y +++ pad2 m +++ pad2 d
   else if String.eqb fmt "%H:%M:%S"
   then pad2 (s / 3600) +++ ":" +++ pad2 (s mod 3600 / 60) +++ ":" +++ pad2 (s mod 60)
   else fmt)%Z.

Definition iso_time (t : Z) : string :=
  (let '(y, m, d) := civil_of_days (t / 86400) in
   pad4 y +++ "-" +++ pad2 m +++ "-" +++ pad2 d +++ "T" +++ format_time "%H:%M:%S" t)%Z.

(** *** [repr], [str] of an exception, [json.dumps] *)

Fixpoint repr (v : value) : string :=
  match v with
  | PNone => "None"
  | PBool true => "True"
  | PBool false => "False"
  | PInt z => str_int z
  | PFloat r => r
  | PStr s => "'" +++ s +++ "'"
  | PList l => "[" +++ join ", " (map repr l) +++ "]"
  | PDict d =>
      "{" +++ join ", " (map (fun kv => match kv with
                                        | (k, x) => "'" +++ k +++ "': " +++ repr x
                                        end) d) +++ "}"
  end.

Definition exn_text (e : exn) : string :=
  match e with
  | TypeError => "expected str, bytes or os.PathLike object, not NoneType"
  | AttributeError => "object has no attribute 'get'"
  | FileNotFoundError => "[Errno 2] No such file or directory"
  | OSError FileExistsError => "[Errno 17] File exists"
  | OSError NotADirectoryError => "[Errno 20] Not a directory"
  | OSError PermissionError => "[Errno 13] Permission denied"
  | CalledProcessError argv rc =>
      "Command '" +++ repr (PList (map PStr argv))
      +++ "' returned non-zero exit status " +++ str_int rc +++ "."
  | SystemExit code => str_int code
  end.

Fixpoint escape (s : string) : string :=
  match s with
  | EmptyString => EmptyString
  | String c r =>
      if orb (Ascii.eqb c dquote) (Ascii.eqb c backslash)
      then String backslash (String c (escape r))
      else if Ascii.eqb c "010" then String backslash (String "n" (escape r))
      else String c (escape r)
  end.

Definition quoted (s : string) : string :=
  String dquote (escape s) +++ String dquote EmptyString.

Fixpoint spaces (n : nat) : string :=
  match n with O => EmptyString | S n => String " " (spaces n) end.

Fixpoint dumps (level : nat) (v : value) : string :=
  match v with
  | PNone => "null"
  | PBool true => "true"
  | PBool false => "false"
  | PInt z => str_int z
  | PFloat r => r
  | PStr s => quoted s
  | PList [] => "[]"
  | PList l =>
      "[" +++ newline
      +++ join ("," +++ newline)
            (map (fun x => spaces (2 * S level) +++ dumps (S level) x) l)
      +++ newline +++ spaces (2 * level) +++ "]"
  | PDict [] => "{}"
  | PDict d =>
      "{" +++ newline
      +++ join ("," +++ newline)
            (map (fun kv => match kv with
                            | (k, x) => spaces (2 * S level) +++ quoted k +++ ": "
                                        +++ dumps (S level) x
                            end) d)
      +++ newline +++ spaces (2 * level) +++ "}"
  end.

(** *** [str.lower] and [str.strip] beyond ASCII

    A string is cut into its UTF-8 sequences.  Of the characters that are
    not ASCII, [lower_text] changes the Kelvin sign, the one whose lower-case
    form is an ASCII letter, and [strip_text] knows the white space of the
    basic plane. *)

Definition is_continuation (c : ascii) : bool :=
  let n := nat_of_ascii c in andb (Nat.leb 128 n) (Nat.ltb n 192).

Fixpoint sequences (s : string) : list string :=
  match s with
  | EmptyString => []
  | String c r =>
      match sequences r with
      | String d h :: t =>
          if is_continuation d then String c (String d h) :: t
          else String c EmptyString :: String d h :: t
      | rest => String c EmptyString :: rest
      end
  end.

Definition kelvin_sign : string := utf8 8490.

Definition lower_sequence (q : string) : string :=
  if String.eqb q kelvin_sign then "k" else ascii_lower q.

Definition lower_text (s : string) : string :=
  String.concat "" (map lower_sequence (sequences s)).

Definition white_space : list string :=
  map utf8 [9; 10; 11; 12; 13; 28; 29; 30; 31; 32; 133; 160; 5760;
            8192; 8193; 8194; 8195; 8196; 8197; 8198; 8199; 8200; 8201; 8202;
            8232; 8233; 8239; 8287; 12288]%N.

Definition is_white (q : string) : bool := existsb (String.eqb q) white_space.

Fixpoint drop_white (l : list string) : list string :=
  match l with
  | q :: r => if is_white q then drop_white r else l
  | [] => []
  end.

Definition strip_text (s : string) : string :=
  String.concat "" (rev (drop_white (rev (drop_white (sequences s))))).

(** *** Hosts: the library above, with a given behaviour of the tools *)

Definition host_of (processes : world -> list string -> proc)
    (listing : string -> string -> list string) (time : Z) : Host :=
  {| run_process := processes;
     path_glob := fun _ => listing;
     clock := fun _ => time;
     strftime := format_time;
     isoformat := iso_time;
     json_loads := loads;
     json_dumps := dumps 0;
     py_repr := repr;
     str_exn := exn_text;
     os_path_join := path_join;
     os_path_basename := path_basename;
     os_path_splitext := path_splitext;
     os_path_abspath := path_abspath;
     unicode_lower := lower_text;
     unicode_strip := strip_text;
     makedirs_error := fun _ _ => None;
     sort_positions := fun _ => None |}.

(** How the two tools behave *)
Record tools : Type := Tools {
  clip_listing : string;               (* what the lister prints *)
  listing_status : Z;                  (* and its exit status *)
  download_works : bool;               (* does the downloader write its file? *)
  ffmpeg_present : bool;               (* does [ffmpeg -version] succeed? *)
  ffmpeg_fails_on : list string        (* ffmpeg fails if given one of these *)
}.

Definition output_of (args : list string) : list string :=
  match rev args with
  | _ :: out :: _ => [out]
  | _ => []
  end.

Definition processes_of (t : tools) (_ : world) (argv : list string) : proc :=
  match argv with
  | ["ffmpeg"; "-version"] =>
      if ffmpeg_present t then Proc 0 "ffmpeg version 6.0" "" [] else Proc 127 "" "" []
  | ["yt-dlp"; "--version"] => Proc 0 "2024.01.01" "" []
  | "yt-dlp" :: "--flat-playlist" :: _ =>
      Proc (listing_status t) (clip_listing t)
           (if Z.eqb (listing_status t) 0 then "" else "ERROR: unable to list clips") []
  | "yt-dlp" :: "-o" :: path :: _ =>
      if download_works t then Proc 0 "" "" [path]
      else Proc 1 "" "ERROR: unable to download video data" []
  | "ffmpeg" :: args =>
      if existsb (fun a => existsb (String.eqb a) (ffmpeg_fails_on t)) args
      then Proc 1 "" "Conversion failed!" []
      else Proc 0 "" "" (output_of args)
  | _ => Proc 127 "" "" []
  end.

(** Noon of 2026-11-04 *)
Definition noon : Z := 1793793600.

Definition host_with (t : tools) (listing : string -> string -> list string) : Host :=
  host_of (processes_of t) listing noon.

Definition no_files (directory pattern : string) : list string := [].

(** The host [h] on a machine where the paths [plain] are files, not
    directories *)
Definition with_plain_files (h : Host) (plain : list string) : Host :=
  {| run_process := run_process (Host := h);
     path_glob := path_glob (Host := h);
     clock := clock (Host := h);
     strftime := strftime (Host := h);
     isoformat := isoformat (Host := h);
     json_loads := json_loads (Host := h);
     json_dumps := json_dumps (Host := h);
     py_repr := py_repr (Host := h);
     str_exn := str_exn (Host := h);
     os_path_join := os_path_join (Host := h);
     os_path_basename := os_path_basename (Host := h);
     os_path_splitext := os_path_splitext (Host := h);
     os_path_abspath := os_path_abspath (Host := h);
     unicode_lower := unicode_lower (Host := h);
     unicode_strip := unicode_strip (Host := h);
     makedirs_error := fun w p =>
       if path_exists_in plain p then Some FileExistsError else None;
     sort_positions := sort_positions (Host := h) |}.

Definition empty_world : world := World [] [].

End Example.

(* ------------------------------------------------------------------ *)
(** ** Vocabulary of the statements *)

(** The availability probe that opens every operation of
    [video_processor.py] *)
Definition probe : list string := ["ffmpeg"; "-version"].

(** A process started for anything but the probe is a transcoding job. *)
Definition is_transcoding (e : event) : bool :=
  match e with
  | EvRun ["ffmpeg"; "-version"] => false
  | EvRun ("ffmpeg" :: _) => true
  | _ => false
  end.

Definition is_run (e : event) : bool :=
  match e with EvRun _ => true | _ => false end.

(** How many processes a trace records *)
Definition runs (t : list event) : nat := length (filter is_run t).

(** What a trace tells the user: the printed and logged lines, the status
    lines and the texts of the message boxes, oldest first *)
Definition reports (t : list event) : list string :=
  flat_map (fun e => match e with
                     | EvPrint line => [line]
                     | EvStatus text => [text]
                     | EvShowInfo _ message | EvShowError _ message => [message]
                     | _ => []
                     end) t.

(** [word] occurs somewhere in [line] *)
Definition mentions (word line : string) : bool :=
  match String.index 0 word line with Some _ => true | None => false end.

(** An operation of [batch_process] that transcodes its input without
    looking at anything else first *)
Definition transcodes_at_once (op : VideoProcessor.operation) : bool :=
  orb (VideoProcessor.is_type op "trim")
      (orb (VideoProcessor.is_type op "watermark") (VideoProcessor.is_type op "convert")).

(** The transcoding jobs of [trim_video], [convert_format] and
    [resize_for_platform] *)
Definition trim_argv (video start_time : string) (duration : option string)
    (output_path : string) : list string :=
  ["ffmpeg"; "-i"; video; "-ss"; start_time]
  ++ match duration with Some d => ["-t"; d] | None => [] end
  ++ ["-c"; "copy"; output_path; "-y"].

Definition convert_argv (video output_path : string) : list string :=
  ["ffmpeg"; "-i"; video; "-c:v"; "libx264"; "-c:a"; "aac"; output_path; "-y"].

Definition resize_argv (video resolution output_path : string) : list string :=
  ["ffmpeg"; "-i"; video; "-vf";
   "scale=" +++ resolution +++ ":force_original_aspect_ratio=decrease,pad="
   +++ resolution +++ ":(ow-iw)/2:(oh-ih)/2";
   "-c:a"; "copy"; output_path; "-y"].

(** The result of an operation: the output path if the transcoder exited
    with status 0 *)
Definition path_if_ok (status : Z) (output_path : string) : outcome (option string) :=
  if Z.eqb status 0 then Return (Some output_path) else Return None.

(** The view count of [c] is an integer; it is the integer [k]; and [a] may
    stand before [b] in a ranking: both view counts are integers, and that of
    [b] is not the greater.  All three read the [view_count] field itself. *)
Definition integer_views (c : clip) : bool :=
  match view_count c with PInt _ => true | _ => false end.

Definition viewed (k : Z) (c : clip) : bool :=
  match view_count c with PInt z => Z.eqb z k | _ => false end.

Definition outranks (a b : clip) : bool :=
  match view_count a, view_count b with
  | PInt x, PInt y => Z.leb y x
  | _, _ => false
  end.


(** The objects among decoded values, when every value is one *)
Fixpoint objects_of (values : list value) : option (list (dict value)) :=
  match values with
  | [] => Some []
  | PDict d :: r =>
      match objects_of r with Some objects => Some (d :: objects) | None => None end
  | _ :: _ => None
  end.

(** The ways an operation with the output path [out] can end: no output, the
    output path, or a [TypeError] when its input is [None] *)
Definition ends_as (input : option string) (out : string)
    (r : outcome (option string)) : Prop :=
  r = Return None \/ r = Return (Some out) \/ (input = None /\ r = Raise TypeError).

(** The operation types [batch_process] knows *)
Definition recognised (op : VideoProcessor.operation) : bool :=
  existsb (VideoProcessor.is_type op) ["trim"; "watermark"; "intro"; "convert"; "resize"].

(** What a call of [download_clip] that returned [r] leaves behind: it
    started one process at most, kept every file, and the path it returned is
    there. *)
Definition downloaded (w : world) (r : option string) (w' : world) : Prop :=
  runs (trace w') <= runs (trace w) + 1 /\
  (forall p, path_exists_in (files w) p = true -> path_exists_in (files w') p = true) /\
  (forall p, r = Some p -> path_exists_in (files w') p = true).

(** [l1] is [l2] with some of its elements left out *)
Inductive subsequence {A : Type} : list A -> list A -> Prop :=
| subsequence_nil : subsequence [] []
| subsequence_skip (x : A) (l1 l2 : list A) :
    subsequence l1 l2 -> subsequence l1 (x :: l2)
| subsequence_keep (x : A) (l1 l2 : list A) :
    subsequence l1 l2 -> subsequence (x :: l1) (x :: l2).

(** What a download loop over [clips], started in [w], comes to: it
    returns clips of its list, in the order of the list, each with a
    non-empty path of a file that exists at the end; it starts one process
    per clip at most and keeps every file. *)
Definition reports_existing_files (clips : list clip) (w : world)
    (run : outcome (list (clip * string)) * world) : Prop :=
  exists downloaded_clips w',
    run = (Return downloaded_clips, w') /\
    subsequence (map fst downloaded_clips) clips /\
    Forall (fun cp => nonempty (snd cp) = true /\
                      path_exists_in (files w') (snd cp) = true) downloaded_clips /\
    runs (trace w') <= runs (trace w) + length clips /\
    (forall p, path_exists_in (files w) p = true -> path_exists_in (files w') p = true).

(** The command line [args] of the processor with another [--format] *)
Definition with_format (args : Processor.arguments) (output_format : string)
  : Processor.arguments :=
  Processor.Arguments (Processor.input args) (Processor.output args)
    (Processor.batch args) (Processor.operation args) (Processor.start args)
    (Processor.duration args) (Processor.text args) (Processor.position args)
    (Processor.fontsize args) (Processor.intro_file args) output_format
    (Processor.platform args) (Processor.config args).

(** [m] run in [w] returns, and does not raise *)
Definition returns {A} (m : M A) (w : world) : Prop :=
  exists a w', m w = (Return a, w').

(** Whatever [m] raises is an [Exception] of Python *)
Definition raises_exceptions_only {A} (m : M A) : Prop :=
  forall w e w', m w = (Raise e, w') -> is_Exception e = true.

Section Vocabulary.
Context {H : Host}.

(** The lines the Lister looks at: the non-empty ones of the stripped text *)
Definition output_lines (text : string) : list string :=
  filter nonempty (split_on "010" (strip text)).

Definition probe_ok (w : world) : bool :=
  Z.eqb (returncode (run_process w probe)) 0.

(** The world once the process [argv] has run in [w] *)
Definition after_run (w : world) (argv : list string) : world :=
  World (created (run_process w argv) ++ files w) (trace w ++ [EvRun argv]).

(** The world once [events] have been added to the trace of [w] *)
Definition after_events (w : world) (events : list event) : world :=
  World (files w) (trace w ++ events).

Definition malformed (line : string) : bool :=
  match json_loads line with None => true | Some _ => false end.

(** N, the number of non-empty lines, and K, the number of those that are
    not JSON *)
Definition line_count (text : string) : nat := length (output_lines text).
Definition skipped_count (text : string) : nat :=
  length (filter malformed (output_lines text)).

(** The values of the lines that are JSON, in line order *)
Definition values_of (lines : list string) : list value :=
  flat_map (fun line => match json_loads line with Some v => [v] | None => [] end)
           lines.

Definition decoded (text : string) : list value := values_of (output_lines text).

(** What a Lister makes of the exit status and the output of the tool: one
    clip for each line that is JSON, in line order, when the status is 0 and
    each of these lines is an object; no clip otherwise *)
Definition listed (username : string) (status : Z) (text : string) : list clip :=
  if Z.eqb status 0
  then match objects_of (decoded text) with
       | Some objects => map (clip_of_data username) objects
       | None => []
       end
  else [].

(** The output path that [batch_process] gives a known operation for the
    video named [filename] *)
Definition operation_output (output_dir filename : string)
    (op : VideoProcessor.operation) : string :=
  let stem := fst (os_path_splitext filename) in
  let ext := snd (os_path_splitext filename) in
  os_path_join output_dir
    (if VideoProcessor.is_type op "trim" then stem +++ "_trimmed" +++ ext
     else if VideoProcessor.is_type op "watermark" then stem +++ "_watermarked" +++ ext
     else if VideoProcessor.is_type op "intro" then stem +++ "_with_intro" +++ ext
     else if VideoProcessor.is_type op "convert"
          then stem +++ "." +++ dict_get op "format" "mp4"
     else stem +++ "_for_" +++ dict_get op "platform" "youtube" +++ ext).

(** The last operation of the list whose type [batch_process] knows *)
Fixpoint last_recognised (ops : list VideoProcessor.operation)
  : option VideoProcessor.operation :=
  match ops with
  | [] => None
  | op :: rest =>
      match last_recognised rest with
      | Some later => Some later
      | None => if recognised op then Some op else None
      end
  end.

(** [p] is what a batch of [ops] can report for [video]: the output path of
    the last known operation, when that is not empty and not the video. *)
Definition reported_for (output_dir : string) (ops : list VideoProcessor.operation)
    (video p : string) : Prop :=
  p <> video /\ p <> "" /\
  exists op, last_recognised ops = Some op /\
             p = operation_output output_dir (os_path_basename video) op.

(** The transcoding job of [resize_for_platform] for TikTok *)
Definition tiktok_command (video output_path : string) : list string :=
  ["ffmpeg"; "-i"; video; "-vf";
   "scale=1080:1920:force_original_aspect_ratio=decrease,pad=1080:1920:(ow-iw)/2:(oh-ih)/2";
   "-c:a"; "copy"; output_path; "-y"].

(** The transcoding job of [add_watermark] with the text box at [xy] *)
Definition watermark_command (video text fontsize xy output_path : string)
  : list string :=
  ["ffmpeg"; "-i"; video; "-vf";
   "drawtext=text='" +++ text +++ "':fontcolor=white:fontsize=" +++ fontsize
   +++ ":box=1:boxcolor=black@0.5:boxborderw=5:x=" +++ xy;
   "-codec:a"; "copy"; output_path; "-y"].

(** The transcoding job that the processor starts for [video] when its
    operation is a trim, a watermark or a conversion to [output_path] *)
Definition single_file_job (args : Processor.arguments) (video output_path : string)
  : list string :=
  if Processor.is_operation args "trim"
  then trim_argv video (Processor.start args) (Processor.duration args) output_path
  else if Processor.is_operation args "watermark"
  then watermark_command video (Processor.text args) (Processor.fontsize args)
         (VideoProcessor.position_value (Processor.position args)) output_path
  else convert_argv video output_path.

(** The concatenation job of [add_intro] *)
Definition concat_argv (output_path : string) : list string :=
  ["ffmpeg"; "-f"; "concat"; "-safe"; "0"; "-i"; "concat_list.txt";
   "-c"; "copy"; output_path; "-y"].

(** The explicit output path, or the input's name with a suffix *)
Definition output_or_default (output_path : option string) (video suffix : string)
  : string :=
  match output_path with
  | Some o => o
  | None => fst (os_path_splitext video) +++ suffix +++ snd (os_path_splitext video)
  end.

(** The world in which [add_intro] starts the transcoder: the probe has run
    and the concat list is written, the intro first. *)
Definition concat_list_written (w : world) (intro_path video : string) : world :=
  World ("concat_list.txt" :: created (run_process w probe) ++ files w)
        (trace w ++
         [ EvRun probe;
           EvOpenW "concat_list.txt";
           EvWrite "concat_list.txt"
             ("file '" +++ os_path_abspath intro_path +++ "'" +++ newline);
           EvWrite "concat_list.txt"
             ("file '" +++ os_path_abspath video +++ "'" +++ newline) ]).

(** The process both Listers start, before the GUI adds its date filter *)
Definition listing_argv (username : string) (limit min_views : Z) : list string :=
  [ "yt-dlp"; "--flat-playlist"; "--dump-json";
    "https://www.twitch.tv/" +++ username +++ "/clips";
    "--match-filter"; "view_count >= " +++ str_int min_views;
    "--playlist-end"; str_int limit ].

(** The world once the GUI has logged [message] in [w] *)
Definition logged (w : world) (message : string) : world :=
  after_events w
    [EvPrint ("[" +++ strftime "%H:%M:%S" (clock w) +++ "] " +++ message)].

(** The world in which the command-line Lister starts its process *)
Definition cli_listing_world (w : world) (username : string) (hours : Z) : world :=
  after_events w
    [EvPrint ("Fetching clips from: "
              +++ Cli.get_clips_url username (Cli.period_of_hours hours))].

(** The world in which the GUI Lister reads the clock for its date filter,
    and the one in which it starts its process *)
Definition gui_filter_world (w : world) (username period : string) : world :=
  logged
    (logged w ("Searching for clips from " +++ username +++ " (" +++ period +++ ")..."))
    ("Looking back " +++ Gui.hours_display period +++ " hours/period").

Definition gui_listing_world (w : world) (username period : string) : world :=
  logged (gui_filter_world w username period) "Running clip search...".

(** The length of a time window of the GUI, in seconds *)
Definition window_seconds (period : string) : Z :=
  if String.eqb period "7d" then 7 * 86400
  else if String.eqb period "30d" then 30 * 86400
  else 24 * 3600.

(** The process the GUI Lister starts *)
Definition gui_listing_argv (w : world) (username period : string)
    (limit min_views : Z) : list string :=
  listing_argv username limit min_views
  ++ (if String.eqb period "all" then []
      else ["--dateafter";
            strftime "%Y%m%d"
              (clock (gui_filter_world w username period) - window_seconds period)]).

(** Where [download_clip] saves a clip with the title [t] *)
Definition destination (clip : clip) (t output_dir output_format : string) : string :=
  os_path_join output_dir
    (broadcaster_name clip +++ " - " +++ sanitize t +++ "." +++ output_format).

(** The process [download_clip] starts, on the command line and in the GUI *)
Definition download_argv (output_path clip_url : string) : list string :=
  ["yt-dlp"; "-o"; output_path; "-f"; "best"; clip_url].

Definition gui_download_argv (self : Gui.gui) (output_path clip_url : string)
  : list string :=
  download_argv output_path clip_url
  ++ match Gui.ffmpeg_path self with
     | Some p => if nonempty p then ["--ffmpeg-location"; p] else []
     | None => []
     end.

(** The two probes of [check_dependencies]: for [yt-dlp] in [w], then for
    [ffmpeg] once the first is reported *)
Definition ytdlp_probe : list string := ["yt-dlp"; "--version"].

Definition ytdlp_ok (w : world) : bool :=
  Z.eqb (returncode (run_process w ytdlp_probe)) 0.

Definition ytdlp_found (w : world) : world :=
  after_events (after_run w ytdlp_probe) [EvPrint "✓ yt-dlp is installed"].

Definition dependencies_ok (w : world) : bool :=
  andb (ytdlp_ok w) (probe_ok (ytdlp_found w)).

(** The world in which [check_dependencies] gives up *)
Definition missing_tool_world (w : world) : world :=
  if ytdlp_ok w
  then after_events (after_run (ytdlp_found w) probe)
         [EvPrint "✗ ffmpeg is not installed. Please install it from https://ffmpeg.org/download.html"]
  else after_events (after_run w ytdlp_probe)
         [EvPrint "✗ yt-dlp is not installed. Please install it with 'pip install yt-dlp'"].

End Vocabulary.

(* ------------------------------------------------------------------ *)
(** ** Sample data *)

Definition sample_clip (name : string) (n : Z) : clip :=
  Clip (PStr name) (PStr name) (PStr ("https://clips.twitch.tv/" +++ name))
       (PStr "") (PInt n) (PInt 30) (PStr "20261104") "foo".

Definition sample_clips : list clip :=
  [sample_clip "A" 50; sample_clip "B" 90; sample_clip "C" 50; sample_clip "D" 70].

(** Tools that work, with no clips listed and no videos around *)
Definition working_tools : Example.tools := Example.Tools "" 0 true true [].

Definition working_host : Host := Example.host_with working_tools Example.no_files.

(** A directory [clips] with two videos, and an [ffmpeg] that fails on the
    first of them *)
Definition two_videos (directory pattern : string) : list string :=
  if andb (String.eqb directory "clips") (String.eqb pattern "*.mp4")
  then ["clips/x.mp4"; "clips/y.mp4"] else [].

Definition x_fails_host : Host :=
  Example.host_with (Example.Tools "" 0 true true ["clips/x.mp4"]) two_videos.

Definition sample_trim : VideoProcessor.operation :=
  [("type", "trim"); ("start_time", "2"); ("duration", "10")].

Definition sample_watermark : VideoProcessor.operation :=
  [("type", "watermark"); ("text", "foo")].

Definition trim_x_argv : list string :=
  ["ffmpeg"; "-i"; "clips/x.mp4"; "-ss"; "2"; "-t"; "10";
   "-c"; "copy"; "clips/processed/x_trimmed.mp4"; "-y"].

(** The world when the trim of [x.mp4] has failed *)
Definition trim_x_failed : world :=
  World ["clips/processed"]
    [ EvMakedirs "clips/processed";
      EvRun probe;
      EvRun trim_x_argv;
      EvPrint ("Error trimming video: "
               +++ Example.exn_text (CalledProcessError trim_x_argv 1)) ].

(** A host whose listing tool prints [text] and exits with status 0 *)
Definition listing_host (text : string) : Host :=
  Example.host_with (Example.Tools text 0 true true []) Example.no_files.

(** A line of the listing tool, and the clip the Lister makes of it *)
Definition clip_line (id title url : string) (views : Z) : string :=
  "{" +++ Example.quoted "id" +++ ":" +++ Example.quoted id
  +++ "," +++ Example.quoted "title" +++ ":" +++ Example.quoted title
  +++ "," +++ Example.quoted "webpage_url" +++ ":" +++ Example.quoted url
  +++ "," +++ Example.quoted "view_count" +++ ":" +++ str_int views +++ "}".

Definition listed_clip (username id title url : string) (views : Z) : clip :=
  Clip (PStr id) (PStr title) (PStr url) (PStr "") (PInt views) (PInt 0) (PStr "")
       username.

Definition line_A : string := clip_line "1" "A" "u1" 50.
Definition line_B : string := clip_line "2" "B" "u2" 90.

(** The run of the command-line Lister for the channel foo on a tool that
    prints [text] *)
Definition listing_of (text : string) : outcome (list clip) * world :=
  Cli.scrape_clips (H:=listing_host text) "foo" 24 5 0 Example.empty_world.

(** Tools of which the downloader fails *)
Definition failing_download_host : Host :=
  Example.host_with (Example.Tools "" 0 false true []) Example.no_files.

(** The form of the GUI, filled in for the channel foo *)
Definition sample_form : Gui.gui :=
  Gui.Self " foo " "24h" 5 0 "mp4" "downloads" true true (Some "ffmpeg").

Definition sample_arguments : Cli.arguments :=
  Cli.Arguments "foo" 24 5 "downloads" 0 true "mp4".

(** Tools without [ffmpeg], and tools whose listing fails *)
Definition no_ffmpeg_host : Host :=
  Example.host_with (Example.Tools "" 0 true false []) Example.no_files.

Definition failing_listing_host : Host :=
  Example.host_with (Example.Tools "" 1 true true []) Example.no_files.


(** Command lines of the processor: a trim of [clip.mp4], a trim of every
    video of [clips], and the batch described by [batch.json] *)
Definition trim_arguments : Processor.arguments :=
  Processor.Arguments "clip.mp4" None false (Some "trim") "0" None
    "" "bottomright" "24" "" "" "" "".

Definition batch_arguments : Processor.arguments :=
  Processor.Arguments "clips" None true (Some "trim") "0" None
    "" "bottomright" "24" "" "" "" "".

Definition config_arguments : Processor.arguments :=
  Processor.Arguments "clips" None false (Some "batch-config") "0" None
    "" "bottomright" "24" "" "" "" "batch.json".

Definition is_clips_directory (w : world) (path : string) : bool :=
  String.eqb path "clips".

(** The config file [batch.json]: a trim and a watermark, no directories *)
Definition read_batch_json (w : world) (path : string) : option Processor.config_file :=
  if String.eqb path "batch.json"
  then Some (Processor.Config None None (Some [sample_trim; sample_watermark]))
  else None.

Definition convert_arguments : Processor.arguments :=
  Processor.Arguments "clips" None true (Some "convert") "0" None
    "" "bottomright" "24" "" "mov" "" "".

(** The form of the window, with the period set to all time *)
Definition sample_window : Window.gui :=
  Window.Self " foo " "all" 5 0 "mp4" "downloads" true true.

(** Two clips of one broadcaster whose titles differ in a character that is
    replaced *)
Definition slash_clip : clip := listed_clip "foo" "1" "a/b" "u1" 50.
Definition colon_clip : clip := listed_clip "foo" "2" "a:b" "u2" 90.

(** A listing tool that prints [line_A] and [line_B] *)
Definition two_lines_host : Host := listing_host (line_A +++ newline +++ line_B).

(** A line of the listing tool whose view count is [null] *)
Definition null_line : string :=
  "{" +++ Example.quoted "id" +++ ":" +++ Example.quoted "3"
  +++ "," +++ Example.quoted "title" +++ ":" +++ Example.quoted "C"
  +++ "," +++ Example.quoted "webpage_url" +++ ":" +++ Example.quoted "u3"
  +++ "," +++ Example.quoted "view_count" +++ ":null}".

(** A listing tool that prints [line_A], a line that is not JSON, and
    [line_B] *)
Definition three_lines_host : Host :=
  listing_host (line_A +++ newline +++ "oops" +++ newline +++ line_B).

(** The platform name TikTok spelled with the Kelvin sign for its k *)
Definition kelvin_tiktok : string := "ti" +++ Example.kelvin_sign +++ "tok".

(** The host of the two videos, on which [clips/x.mp4] is a plain file *)
Definition plain_file_host : Host :=
  Example.with_plain_files x_fails_host ["clips/x.mp4"].

(** The objects of [line_A] and [line_B] *)
Definition object_A : dict value :=
  [("id", PStr "1"); ("title", PStr "A"); ("webpage_url", PStr "u1");
   ("view_count", PInt 50)].

Definition object_B : dict value :=
  [("id", PStr "2"); ("title", PStr "B"); ("webpage_url", PStr "u2");
   ("view_count", PInt 90)].

(* ================================================================== *)
(** * Properties *)

(* ------------------------------------------------------------------ *)
(** ** The sort behind the Ranker *)

Section SortFacts.
Context {A : Type} (key : A -> Z).

Let le_key (a b : A) : Prop := (key a <= key b)%Z.
Let ge_key (a b : A) : Prop := (key b <= key a)%Z.
Let has_key (k : Z) (a : A) : bool := Z.eqb (key a) k.

Lemma insert_sorted_perm (x : A) (l : list A) :
  Permutation (x :: l) (insert_sorted key x l).
Proof.
  induction l as [|y r IH]; simpl.
  - apply Permutation_refl.
  - destruct (Z.ltb (key y) (key x)).
    + apply perm_trans with (y :: x :: r); [apply perm_swap|].
      apply perm_skip, IH.
    + apply Permutation_refl.
Qed.

Lemma stable_sort_perm (l : list A) : Permutation l (stable_sort key l).
Proof.
  induction l as [|x r IH]; simpl.
  - apply perm_nil.
  - apply perm_trans with (x :: stable_sort key r).
    + apply perm_skip, IH.
    + apply insert_sorted_perm.
Qed.

Lemma insert_sorted_Forall (P : A -> Prop) (x : A) (l : list A) :
  P x -> Forall P l -> Forall P (insert_sorted key x l).
Proof.
  intros Px Pl. induction Pl as [|y r Py Pr IH]; simpl.
  - constructor; [exact Px | constructor].
  - destruct (Z.ltb (key y) (key x)); repeat constructor; assumption.
Qed.

Lemma insert_sorted_sorted (x : A) (l : list A) :
  StronglySorted le_key l -> StronglySorted le_key (insert_sorted key x l).
Proof.
  induction 1 as [|y r Hr IH Hy]; simpl.
  - repeat constructor.
  - destruct (Z.ltb_spec (key y) (key x)) as [Hlt|Hge].
    + constructor; [exact IH|].
      apply insert_sorted_Forall; [unfold le_key; lia | exact Hy].
    + constructor.
      * constructor; assumption.
      * constructor; [exact Hge|].
        eapply Forall_impl; [|exact Hy].
        unfold le_key; intros a Ha; simpl in Ha; lia.
Qed.

Lemma stable_sort_sorted (l : list A) : StronglySorted le_key (stable_sort key l).
Proof.
  induction l as [|x r IH]; simpl.
  - constructor.
  - apply insert_sorted_sorted, IH.
Qed.

(** Inserting [x] moves it past strictly smaller keys only. *)
Lemma insert_sorted_filter (k : Z) (x : A) (l : list A) :
  filter (has_key k) (insert_sorted key x l) = filter (has_key k) (x :: l).
Proof.
  induction l as [|y r IH]; [reflexivity|].
  simpl. destruct (Z.ltb_spec (key y) (key x)) as [Hlt|Hge]; [|reflexivity].
  simpl. rewrite IH. simpl. unfold has_key.
  destruct (Z.eqb_spec (key x) k) as [Hx|Hx];
    destruct (Z.eqb_spec (key y) k) as [Hy|Hy]; try reflexivity.
  exfalso; lia.
Qed.

Lemma stable_sort_filter (k : Z) (l : list A) :
  filter (has_key k) (stable_sort key l) = filter (has_key k) l.
Proof.
  induction l as [|x r IH]; [reflexivity|].
  simpl stable_sort. rewrite insert_sorted_filter. simpl. rewrite IH. reflexivity.
Qed.

Lemma filter_rev (p : A -> bool) (l : list A) :
  filter p (rev l) = rev (filter p l).
Proof.
  induction l as [|x r IH]; [reflexivity|].
  simpl. rewrite filter_app, IH. simpl.
  destruct (p x); simpl; [reflexivity | apply app_nil_r].
Qed.

Lemma sorted_snoc (R : A -> A -> Prop) (l : list A) (x : A) :
  StronglySorted R l -> Forall (fun a => R a x) l -> StronglySorted R (l ++ [x]).
Proof.
  induction 1 as [|y r Hr IH Hy]; intros Hx; simpl.
  - repeat constructor.
  - inversion Hx as [|? ? Hyx Hrx]; subst.
    constructor; [apply IH, Hrx|].
    apply Forall_app; split; [exact Hy | repeat constructor; exact Hyx].
Qed.

Lemma sorted_rev (l : list A) :
  StronglySorted le_key l -> StronglySorted ge_key (rev l).
Proof.
  induction 1 as [|y r Hr IH Hy]; simpl.
  - constructor.
  - apply sorted_snoc; [exact IH|].
    apply Forall_rev. exact Hy.
Qed.

Lemma list_sort_reverse_perm (l : list A) : Permutation l (list_sort key true l).
Proof.
  unfold list_sort.
  apply perm_trans with (rev l); [apply Permutation_rev|].
  apply perm_trans with (stable_sort key (rev l)); [apply stable_sort_perm|].
  apply Permutation_rev.
Qed.

Lemma list_sort_reverse_sorted (l : list A) :
  StronglySorted ge_key (list_sort key true l).
Proof. unfold list_sort. apply sorted_rev, stable_sort_sorted. Qed.

Lemma list_sort_reverse_stable (k : Z) (l : list A) :
  filter (has_key k) (list_sort key true l) = filter (has_key k) l.
Proof.
  unfold list_sort.
  rewrite filter_rev, stable_sort_filter, filter_rev. apply rev_involutive.
Qed.

End SortFacts.

(* ------------------------------------------------------------------ *)
(** ** Ranker *)

Section RankerFacts.
Context {H : Host}.

Lemma views_of_integer (c : clip) :
  integer_views c = true -> view_count c = PInt (views c).
Proof.
  unfold integer_views, views, numeric_key.
  destruct (view_count c); try discriminate. reflexivity.
Qed.

Lemma integer_views_numeric (clips : list clip) :
  forallb integer_views clips = true -> forallb has_numeric_key clips = true.
Proof.
  intros Hint. apply forallb_forall. intros c Hc.
  apply (proj1 (forallb_forall _ _) Hint) in Hc.
  unfold has_numeric_key, numeric_key. rewrite (views_of_integer c Hc). reflexivity.
Qed.

Lemma viewed_by_key (clips : list clip) (k : Z) :
  forallb integer_views clips = true ->
  filter (viewed k) clips = filter (fun c => Z.eqb (views c) k) clips.
Proof.
  intros Hint. apply filter_ext_in. intros c Hc.
  apply (proj1 (forallb_forall _ _) Hint) in Hc.
  unfold viewed. rewrite (views_of_integer c Hc). reflexivity.
Qed.

Lemma outranks_by_key (ranked : list clip) :
  forallb integer_views ranked = true ->
  StronglySorted (fun a b => (views b <= views a)%Z) ranked ->
  StronglySorted (fun a b => outranks a b = true) ranked.
Proof.
  intros Hint Hsorted. induction Hsorted as [|a r Hr IH Ha]; [constructor|].
  cbn [forallb] in Hint. apply andb_true_iff in Hint as [Hinta Hintr].
  constructor; [apply IH, Hintr|].
  rewrite Forall_forall in *. intros b Hb.
  assert (Hintb : integer_views b = true)
    by (apply (proj1 (forallb_forall _ _) Hintr), Hb).
  unfold outranks.
  rewrite (views_of_integer a Hinta), (views_of_integer b Hintb).
  apply Z.leb_le, Ha, Hb.
Qed.

Lemma integer_views_permuted (clips ranked : list clip) :
  Permutation clips ranked ->
  forallb integer_views clips = true -> forallb integer_views ranked = true.
Proof.
  intros Hperm Hint. apply forallb_forall. intros c Hc.
  apply (proj1 (forallb_forall _ _) Hint).
  apply (Permutation_in c (Permutation_sym Hperm) Hc).
Qed.

(** C3.  On clips whose view counts are integers, the sort of [main] and of
    the GUI's [scrape_clips] returns a permutation of its input, in
    non-increasing order of the [view_count] field, in which the clips of any
    one view count keep the order they had in the input. *)
Theorem ranker_permutation_descending_stable (clips : list clip) (w : world) :
  forallb integer_views clips = true ->
  exists ranked,
    sort_by_view_count clips w = (Return ranked, w) /\
    Permutation clips ranked /\
    StronglySorted (fun a b => outranks a b = true) ranked /\
    forall k, filter (viewed k) ranked = filter (viewed k) clips.
Proof.
  intros Hint.
  destruct clips as [|a [|b r]].
  - exists []. repeat split; constructor.
  - exists [a]. repeat split; try apply Permutation_refl.
    repeat constructor.
  - set (clips := a :: b :: r) in *.
    assert (Hperm : Permutation clips (list_sort views true clips))
      by apply list_sort_reverse_perm.
    assert (Hranked : forallb integer_views (list_sort views true clips) = true)
      by apply (integer_views_permuted clips _ Hperm Hint).
    exists (list_sort views true clips).
    unfold sort_by_view_count. fold clips.
    rewrite (integer_views_numeric clips Hint).
    split; [reflexivity|]. split; [exact Hperm|]. split.
    + apply (outranks_by_key _ Hranked), (list_sort_reverse_sorted views).
    + intros k. rewrite (viewed_by_key _ k Hranked), (viewed_by_key _ k Hint).
      apply (list_sort_reverse_stable views).
Qed.

End RankerFacts.

Lemma ranker_witness :
  forallb integer_views sample_clips = true /\
  exists ranked,
    sort_by_view_count (H:=working_host) sample_clips Example.empty_world
      = (Return ranked, Example.empty_world) /\
    Permutation sample_clips ranked /\
    StronglySorted (fun a b => outranks a b = true) ranked /\
    forall k, filter (viewed k) ranked = filter (viewed k) sample_clips.
Proof.
  split; [reflexivity|].
  apply (ranker_permutation_descending_stable (H:=working_host)
           sample_clips Example.empty_world).
  reflexivity.
Defined.

Example ranker_sample :
  sort_by_view_count (H:=working_host) sample_clips Example.empty_world
  = (Return [sample_clip "B" 90; sample_clip "D" 70; sample_clip "A" 50; sample_clip "C" 50],
     Example.empty_world).
Proof. reflexivity. Qed.

(* ------------------------------------------------------------------ *)
(** ** File name sanitization *)

Lemma is_invalid_underscore : is_invalid "_" = false.
Proof. reflexivity. Qed.

Lemma sanitize_char_fixed (c : ascii) :
  let c' := if is_invalid c then "_"%char else c in
  (if is_invalid c' then "_"%char else c') = c'.
Proof.
  simpl. destruct (is_invalid c) eqn:E.
  - rewrite is_invalid_underscore. reflexivity.
  - rewrite E. reflexivity.
Qed.

(** C6.  The substitution that builds the file name replaces each of the
    nine characters backslash, slash, star, question mark, colon, double
    quote, less-than, greater-than and bar by an underscore, position by
    position, leaves every other character as it is, and is idempotent. *)
Theorem sanitize_replaces_the_nine_and_is_idempotent (title : string) :
  (forall c, is_invalid c = true <->
             In c ["092"; "/"; "*"; "?"; ":"; "034"; "<"; ">"; "|"]%char) /\
  String.length (sanitize title) = String.length title /\
  (forall i c, String.get i title = Some c ->
               String.get i (sanitize title)
               = Some (if is_invalid c then "_"%char else c)) /\
  sanitize (sanitize title) = sanitize title.
Proof.
  split; [|split; [|split]].
  - intros c. unfold is_invalid. rewrite existsb_exists. split.
    + intros [x [Hin Heq]]. apply Ascii.eqb_eq in Heq. subst. exact Hin.
    + intros Hin. exists c. split; [exact Hin | apply Ascii.eqb_refl].
  - induction title as [|c r IH]; simpl; [reflexivity | now rewrite IH].
  - induction title as [|c r IH]; intros i x Hget; simpl in *.
    + destruct i; discriminate.
    + destruct i as [|i].
      * inversion Hget; subst. reflexivity.
      * apply IH, Hget.
  - induction title as [|c r IH]; simpl; [reflexivity|].
    rewrite IH. f_equal. apply sanitize_char_fixed.
Qed.

Example sanitize_sample :
  sanitize "a/b\\c: <d>|e?*" = "a_b__c_ _d__e__".
Proof. reflexivity. Qed.

(* ------------------------------------------------------------------ *)
(** ** Running the monad *)

Ltac run :=
  unfold bind, ret, raise, try_except, try_finally, print, file_write, emit,
    os_path_exists, os_makedirs, open_w, datetime_now; cbn.

(* ------------------------------------------------------------------ *)
(** ** Processing operations *)

Ltac same_world :=
  unfold after_events, after_run; cbn;
  repeat rewrite <- app_assoc; cbn; try reflexivity.

Lemma path_exists_in_app (fs gs : list string) (p : string) :
  path_exists_in (fs ++ gs) p = orb (path_exists_in fs p) (path_exists_in gs p).
Proof. apply existsb_app. Qed.

Lemma path_exists_in_removed (fs : list string) (p : string) :
  path_exists_in (filter (fun q => negb (String.eqb p q)) fs) p = false.
Proof.
  induction fs as [|q r IH]; [reflexivity|].
  simpl. destruct (String.eqb p q) eqn:E; simpl; [exact IH|].
  rewrite E. exact IH.
Qed.

Section VideoProcessorFacts.
Context {H : Host}.
Import VideoProcessor.

Lemma check_ffmpeg_run (w : world) :
  check_ffmpeg w =
  if probe_ok w then (Return true, after_run w probe)
  else (Return false, after_events (after_run w probe) [EvPrint ffmpeg_missing_message]).
Proof.
  unfold check_ffmpeg, probe_ok, subprocess_run_check, subprocess_run. run.
  fold probe. destruct (Z.eqb (returncode (run_process w probe)) 0); reflexivity.
Qed.

(** Every operation opens with the probe and gives up without it. *)
Lemma with_ffmpeg (body : M (option string)) (w : world) :
  (ok <- check_ffmpeg ;; if negb ok then ret None else body) w =
  if probe_ok w then body (after_run w probe)
  else (Return None, after_events (after_run w probe) [EvPrint ffmpeg_missing_message]).
Proof.
  unfold bind. rewrite check_ffmpeg_run.
  destruct (probe_ok w); reflexivity.
Qed.

Lemma subprocess_run_check_spec (cmd : list (option string)) (argv : list string)
    (w : world) :
  all_str cmd = Some argv ->
  subprocess_run_check cmd w =
  if Z.eqb (returncode (run_process w argv)) 0
  then (Return (run_process w argv), after_run w argv)
  else (Raise (CalledProcessError argv (returncode (run_process w argv))),
        after_run w argv).
Proof.
  intros Hc. unfold subprocess_run_check, subprocess_run. rewrite Hc.
  destruct (Z.eqb (returncode (run_process w argv)) 0); reflexivity.
Qed.

(** The shape shared by the operations: run the transcoder, report, and turn
    a non-zero exit status into [None]. *)
Lemma guarded_transcode (cmd : list (option string)) (argv : list string)
    (saved failed out : string) (w : world) :
  all_str cmd = Some argv ->
  try_except
    (_ <- subprocess_run_check cmd ;; print saved ;; ret (Some out))
    is_CalledProcessError
    (fun e => print (failed +++ str_exn e) ;; ret None) w =
  if Z.eqb (returncode (run_process w argv)) 0
  then (Return (Some out), after_events (after_run w argv) [EvPrint saved])
  else (Return None,
        after_events (after_run w argv)
          [EvPrint (failed +++ str_exn (CalledProcessError argv
                                           (returncode (run_process w argv))))]).
Proof.
  intros Hc. unfold try_except, bind at 1.
  rewrite (subprocess_run_check_spec cmd argv w Hc).
  destruct (Z.eqb (returncode (run_process w argv)) 0); reflexivity.
Qed.

Lemma default_output_of_video (video suffix : string) (output_path : option string)
    (w : world) :
  default_output (Some video) output_path suffix w
  = (Return (output_or_default output_path video suffix), w).
Proof. destruct output_path; reflexivity. Qed.

(** C8, as amended.  A platform whose lower-case form is none of tiktok,
    instagram, instagram_story and youtube is turned down: the call returns
    [None], the only process started is the availability probe, and, with
    [ffmpeg] available, the two lines printed name the platform and list the
    four supported ones.  A platform whose lower-case form is tiktok is
    accepted: with [ffmpeg] available the transcoder is started with the
    scale and pad target 1080:1920. *)
Theorem resize_platform_gate (unknown tiktok video : string)
    (input output_path : option string) (w : world) :
  dict_lookup platform_settings (lower unknown) = None ->
  lower tiktok = "tiktok" ->
  (exists report,
     resize_for_platform input unknown output_path w
     = (Return None, after_events (after_run w probe) report) /\
     report = (if probe_ok w
               then [EvPrint ("Unknown platform: " +++ unknown);
                     EvPrint "Supported platforms: tiktok, instagram, instagram_story, youtube"]
               else [EvPrint ffmpeg_missing_message]) /\
     existsb is_transcoding (EvRun probe :: report) = false)
  /\
  (let out := output_or_default output_path video ("_for_" +++ tiktok) in
   if probe_ok w then
     exists result message,
       resize_for_platform (Some video) tiktok output_path w =
         (result,
          after_events (after_run (after_run w probe) (tiktok_command video out))
            [EvPrint message])
   else
     resize_for_platform (Some video) tiktok output_path w =
       (Return None, after_events (after_run w probe) [EvPrint ffmpeg_missing_message])).
Proof.
  intros Hu Ht. unfold resize_for_platform. rewrite !with_ffmpeg, Hu, Ht.
  destruct (probe_ok w).
  - split.
    { eexists. split; [run; same_world|]. split; reflexivity. }
    cbn [dict_lookup platform_settings String.eqb Ascii.eqb Bool.eqb].
    unfold bind at 1. rewrite default_output_of_video.
    erewrite guarded_transcode by reflexivity.
    match goal with |- context [if ?c then _ else _] => destruct c end;
      eexists; eexists; reflexivity.
  - split; [|reflexivity].
    eexists. split; [same_world|]. split; reflexivity.
Qed.



(** C7.  When [add_intro] gets as far as the transcoder (the probe succeeds
    and the intro file exists), it has written the concat list, the absolute
    path of the intro first and that of the input second, and it removes the
    list before it returns, whatever the exit status of the transcoder: the
    list is there when the transcoder starts and gone when the call
    returns. *)
Theorem intro_removes_concat_list (video intro_path : string)
    (output_path : option string) (w : world) :
  probe_ok w = true ->
  path_exists_in (files w) intro_path = true ->
  let out := output_or_default output_path video "_with_intro" in
  let listed := concat_list_written w intro_path video in
  let status := returncode (run_process listed (concat_argv out)) in
  path_exists_in (files listed) temp_list = true /\
  exists message w',
    add_intro (Some video) intro_path output_path w
      = (if Z.eqb status 0 then Return (Some out) else Return None, w') /\
    trace w' = trace listed ++ [EvRun (concat_argv out); EvPrint message; EvRemove temp_list] /\
    path_exists_in (files w') temp_list = false.
Proof.
  intros Hprobe Hintro out listed status.
  split; [reflexivity|].
  unfold add_intro. rewrite with_ffmpeg, Hprobe.
  unfold bind at 1, os_path_exists.
  assert (Hthere : path_exists_in (files (after_run w probe)) intro_path = true).
  { unfold after_run; simpl. rewrite path_exists_in_app, Hintro. apply orb_true_r. }
  rewrite Hthere. cbn [negb].
  unfold bind at 1. rewrite default_output_of_video. fold out.
  unfold bind at 1, open_w. unfold bind at 1, abspath_of, ret.
  unfold bind at 1, file_write, emit. unfold bind at 1. unfold bind at 1.
  cbn [files trace after_run].
  replace (World _ _) with listed
    by (unfold listed, concat_list_written; f_equal; now rewrite <- !app_assoc).
  unfold try_except, bind at 1.
  rewrite (subprocess_run_check_spec (concat_command out) (concat_argv out))
    by reflexivity.
  fold status.
  assert (Hlist : path_exists_in
                    (created (run_process listed (concat_argv out)) ++ files listed)
                    temp_list = true).
  { rewrite path_exists_in_app. apply orb_true_r. }
  destruct (Z.eqb status 0).
  - unfold bind, print, emit, os_remove, ret. cbn [files trace after_run].
    rewrite Hlist.
    eexists; eexists. split; [reflexivity|]. split.
    + cbn [trace]. rewrite <- !app_assoc. reflexivity.
    + cbn [files]. apply path_exists_in_removed.
  - cbn [is_CalledProcessError].
    unfold bind, print, emit, os_path_exists, os_remove, ret.
    cbn [files trace after_run]. rewrite Hlist. cbn [files trace]. rewrite Hlist.
    eexists; eexists. split; [reflexivity|]. split.
    + cbn [trace]. rewrite <- !app_assoc. reflexivity.
    + cbn [files]. apply path_exists_in_removed.
Qed.

(** The inner loop of [batch_process] goes on after a failure: the next
    operation is run with [None] for its input. *)
Lemma run_operations_goes_on (output_dir filename : string) (op : operation)
    (rest : list operation) (current_input : option string) (w w' : world) :
  run_operation output_dir filename op current_input w = (Return None, w') ->
  run_operations output_dir filename (op :: rest) current_input w
  = run_operations output_dir filename rest None w'.
Proof. intros Hop. simpl. unfold bind. rewrite Hop. reflexivity. Qed.

Lemma None_in_command (front back : list (option string)) :
  all_str (front ++ None :: back) = None.
Proof.
  induction front as [|a r IH]; [reflexivity|].
  simpl. destruct a; [now rewrite IH | reflexivity].
Qed.

Lemma transcode_of_None (cmd : list (option string)) (saved failed out : string)
    (w : world) :
  all_str cmd = None ->
  try_except
    (_ <- subprocess_run_check cmd ;; print saved ;; ret (Some out))
    is_CalledProcessError
    (fun e => print (failed +++ str_exn e) ;; ret None) w
  = (Raise TypeError, w).
Proof.
  intros Hc. unfold try_except, bind at 1, subprocess_run_check, subprocess_run.
  rewrite Hc. reflexivity.
Qed.

Lemma run_operation_on_None (output_dir filename : string) (op : operation)
    (w : world) :
  transcodes_at_once op = true ->
  probe_ok w = true ->
  run_operation output_dir filename op None w = (Raise TypeError, after_run w probe).
Proof.
  unfold transcodes_at_once, run_operation. intros Hop Hprobe.
  destruct (is_type op "trim") eqn:Htrim.
  - unfold trim_video. rewrite with_ffmpeg, Hprobe.
    unfold bind at 1. cbn [default_output ret].
    apply transcode_of_None.
    apply (None_in_command [Some "ffmpeg"; Some "-i"]).
  - destruct (is_type op "watermark") eqn:Hmark.
    + unfold add_watermark. rewrite with_ffmpeg, Hprobe.
      unfold bind at 1. cbn [default_output ret].
      apply transcode_of_None.
      apply (None_in_command [Some "ffmpeg"; Some "-i"]).
    + simpl in Hop. destruct (is_type op "intro") eqn:Hintro.
      * unfold is_type in *. destruct (dict_lookup op "type") as [t|]; [|discriminate].
        apply String.eqb_eq in Hintro, Hop. subst t. discriminate.
      * rewrite Hop. unfold convert_format. rewrite with_ffmpeg, Hprobe.
        unfold bind at 1. cbn [ret].
        apply transcode_of_None.
        apply (None_in_command [Some "ffmpeg"; Some "-i"]).
Qed.

(** C1 fails on the code.  Let the first operation of the list return no
    output for the first video, with [ffmpeg] still there, and let the
    second operation be a trim, a watermark or a conversion.  The chain does
    not halt: the second operation is called with [None] as its input, probes
    for [ffmpeg], and its command with [None] in it is a [TypeError] that
    nothing catches.  [batch_process] returns no list, and the other videos
    are never looked at.  (Where [os.makedirs] cannot make the output
    directory, its error ends the call before any video is looked at.) *)
Theorem batch_process_does_not_halt_the_chain (input_dir : string)
    (output_dir : option string) (op next : operation) (rest : list operation)
    (video_file : string) (others : list string) (w failed : world) :
  let directory := match output_dir with
                   | Some o => o
                   | None => os_path_join input_dir "processed"
                   end in
  let started := World (directory :: files w) (trace w ++ [EvMakedirs directory]) in
  list_video_files input_dir started = (Return (video_file :: others), started) ->
  run_operation directory (os_path_basename video_file) op (Some video_file) started
  = (Return None, failed) ->
  transcodes_at_once next = true ->
  probe_ok failed = true ->
  batch_process input_dir (op :: next :: rest) output_dir w
  = match makedirs_error w directory with
    | Some e => (Raise (OSError e), w)
    | None => (Raise TypeError, after_run failed probe)
    end.
Proof.
  intros directory started Hlist Hop Hnext Hprobe.
  unfold batch_process. fold directory.
  unfold bind at 1, os_makedirs.
  destruct (makedirs_error w directory); [reflexivity|]. fold started.
  unfold bind at 1. rewrite Hlist.
  cbn [process_files]. unfold bind at 1.
  rewrite (run_operations_goes_on directory (os_path_basename video_file) op
             (next :: rest) (Some video_file) started failed Hop).
  cbn [run_operations]. unfold bind at 1.
  rewrite (run_operation_on_None directory (os_path_basename video_file) next failed
             Hnext Hprobe).
  reflexivity.
Qed.

End VideoProcessorFacts.

(** C8, as stated, fails: ["TikTok"] is none of the four names, and the
    transcoder is started for it. *)
Lemma resize_accepts_TikTok :
  ~ In "TikTok" ["tiktok"; "instagram"; "instagram_story"; "youtube"] /\
  VideoProcessor.resize_for_platform (H:=working_host)
    (Some "clip.mp4") "TikTok" None Example.empty_world
  = (Return (Some "clip_for_TikTok.mp4"),
     World ["clip_for_TikTok.mp4"]
       [ EvRun probe;
         EvRun (tiktok_command "clip.mp4" "clip_for_TikTok.mp4");
         EvPrint "Resized video for TikTok (vertical 9:16) saved to: clip_for_TikTok.mp4" ]).
Proof.
  split.
  - intros [E|[E|[E|[E|[]]]]]; discriminate E.
  - reflexivity.
Qed.

(** The lower-case form is that of Python: the Kelvin sign becomes the
    letter k, and a platform spelled with it is TikTok. *)
Example resize_with_a_kelvin_sign :
  lower (H:=working_host) kelvin_tiktok = "tiktok" /\
  VideoProcessor.resize_for_platform (H:=working_host)
    (Some "clip.mp4") kelvin_tiktok None Example.empty_world
  = (Return (Some ("clip_for_" +++ kelvin_tiktok +++ ".mp4")),
     World ["clip_for_" +++ kelvin_tiktok +++ ".mp4"]
       [ EvRun probe;
         EvRun (tiktok_command "clip.mp4" ("clip_for_" +++ kelvin_tiktok +++ ".mp4"));
         EvPrint ("Resized video for TikTok (vertical 9:16) saved to: clip_for_"
                  +++ kelvin_tiktok +++ ".mp4") ]).
Proof. split; reflexivity. Qed.

Lemma resize_platform_gate_witness :
  dict_lookup VideoProcessor.platform_settings (lower (H:=working_host) "unknown")
  = None /\
  lower (H:=working_host) "tiktok" = "tiktok" /\
  (exists report,
     VideoProcessor.resize_for_platform (H:=working_host)
       (Some "clip.mp4") "unknown" None Example.empty_world
     = (Return None, World [] (EvRun probe :: report)) /\
     report = [ EvPrint "Unknown platform: unknown";
                EvPrint "Supported platforms: tiktok, instagram, instagram_story, youtube" ] /\
     existsb is_transcoding (EvRun probe :: report) = false)
  /\
  exists result message,
    VideoProcessor.resize_for_platform (H:=working_host)
      (Some "clip.mp4") "tiktok" None Example.empty_world
    = (result,
       World ["clip_for_tiktok.mp4"]
         [ EvRun probe;
           EvRun (tiktok_command "clip.mp4" "clip_for_tiktok.mp4");
           EvPrint message ]).
Proof.
  split; [reflexivity|]. split; [reflexivity|].
  apply (resize_platform_gate (H:=working_host) "unknown" "tiktok" "clip.mp4"
           (Some "clip.mp4") None Example.empty_world); reflexivity.
Defined.


Example watermark_middle_run :
  VideoProcessor.add_watermark (H:=working_host)
    (Some "clip.mp4") "foo" None "middle" "24" Example.empty_world
  = (Return (Some "clip_watermarked.mp4"),
     World ["clip_watermarked.mp4"]
       [ EvRun probe;
         EvRun ["ffmpeg"; "-i"; "clip.mp4"; "-vf";
                "drawtext=text='foo':fontcolor=white:fontsize=24:box=1:boxcolor=black@0.5:boxborderw=5:x=w-tw-10:h-th-10";
                "-codec:a"; "copy"; "clip_watermarked.mp4"; "-y"];
         EvPrint "Watermarked video saved to: clip_watermarked.mp4" ]).
Proof. reflexivity. Qed.

Lemma intro_removes_concat_list_witness :
  probe_ok (H:=working_host) (World ["intro.mp4"] []) = true /\
  path_exists_in (files (World ["intro.mp4"] [])) "intro.mp4" = true /\
  exists message w',
    VideoProcessor.add_intro (H:=working_host)
      (Some "clip.mp4") "intro.mp4" None (World ["intro.mp4"] [])
    = (Return (Some "clip_with_intro.mp4"), w') /\
    trace w' =
      [ EvRun probe;
        EvOpenW "concat_list.txt";
        EvWrite "concat_list.txt" ("file '/work/intro.mp4'" +++ newline);
        EvWrite "concat_list.txt" ("file '/work/clip.mp4'" +++ newline);
        EvRun (concat_argv "clip_with_intro.mp4");
        EvPrint message;
        EvRemove "concat_list.txt" ] /\
    path_exists_in (files w') "concat_list.txt" = false.
Proof.
  split; [reflexivity|]. split; [reflexivity|].
  apply (intro_removes_concat_list (H:=working_host) "clip.mp4" "intro.mp4" None
           (World ["intro.mp4"] [])); reflexivity.
Defined.

(** The same on the failure path: the transcoder exits with status 1. *)
Example intro_failure_run :
  VideoProcessor.add_intro
    (H:=Example.host_with (Example.Tools "" 0 true true ["concat"]) Example.no_files)
    (Some "clip.mp4") "intro.mp4" None (World ["intro.mp4"] [])
  = (Return None,
     World ["intro.mp4"]
       [ EvRun probe;
         EvOpenW "concat_list.txt";
         EvWrite "concat_list.txt" ("file '/work/intro.mp4'" +++ newline);
         EvWrite "concat_list.txt" ("file '/work/clip.mp4'" +++ newline);
         EvRun (concat_argv "clip_with_intro.mp4");
         EvPrint ("Error adding intro: "
                  +++ Example.exn_text
                        (CalledProcessError (concat_argv "clip_with_intro.mp4") 1));
         EvRemove "concat_list.txt" ]).
Proof. reflexivity. Qed.

Lemma batch_process_does_not_halt_the_chain_witness :
  VideoProcessor.list_video_files (H:=x_fails_host) "clips"
    (World ["clips/processed"] [EvMakedirs "clips/processed"])
  = (Return ["clips/x.mp4"; "clips/y.mp4"],
     World ["clips/processed"] [EvMakedirs "clips/processed"]) /\
  VideoProcessor.run_operation (H:=x_fails_host) "clips/processed" "x.mp4" sample_trim
    (Some "clips/x.mp4") (World ["clips/processed"] [EvMakedirs "clips/processed"])
  = (Return None, trim_x_failed) /\
  transcodes_at_once sample_watermark = true /\
  probe_ok (H:=x_fails_host) trim_x_failed = true /\
  VideoProcessor.batch_process (H:=x_fails_host)
    "clips" [sample_trim; sample_watermark] None Example.empty_world
  = (Raise TypeError,
     World ["clips/processed"] (trace trim_x_failed ++ [EvRun probe])).
Proof.
  split; [reflexivity|]. split; [reflexivity|]. split; [reflexivity|].
  split; [reflexivity|].
  apply (batch_process_does_not_halt_the_chain (H:=x_fails_host) "clips" None
           sample_trim sample_watermark [] "clips/x.mp4" ["clips/y.mp4"]
           Example.empty_world trim_x_failed); reflexivity.
Defined.

(** The run in full: the directory holds [x.mp4] and [y.mp4], the trim of
    [x.mp4] fails, the watermark is tried all the same, and [y.mp4] is never
    looked at. *)
Example batch_run_with_a_failed_trim :
  VideoProcessor.batch_process (H:=x_fails_host)
    "clips" [sample_trim; sample_watermark] None Example.empty_world
  = (Raise TypeError,
     World ["clips/processed"]
       [ EvMakedirs "clips/processed";
         EvRun probe;
         EvRun ["ffmpeg"; "-i"; "clips/x.mp4"; "-ss"; "2"; "-t"; "10";
                "-c"; "copy"; "clips/processed/x_trimmed.mp4"; "-y"];
         EvPrint ("Error trimming video: "
                  +++ Example.exn_text
                        (CalledProcessError
                           ["ffmpeg"; "-i"; "clips/x.mp4"; "-ss"; "2"; "-t"; "10";
                            "-c"; "copy"; "clips/processed/x_trimmed.mp4"; "-y"] 1));
         EvRun probe ]).
Proof. reflexivity. Qed.

(* ------------------------------------------------------------------ *)
(** ** Lister *)

Section ListerFacts.
Context {H : Host}.







(** The loop over the lines, as a function of the lines *)
Lemma parse_lines_exact (username : string) (lines : list string) (w : world) :
  forall clips,
    Cli.parse_lines username lines clips w =
    match objects_of (values_of (filter nonempty lines)) with
    | Some objects => (Return (clips ++ map (clip_of_data username) objects), w)
    | None => (Raise AttributeError, w)
    end.
Proof.
  induction lines as [|line rest IH]; intros clips.
  - cbn. now rewrite app_nil_r.
  - cbn [Cli.parse_lines filter].
    destruct (nonempty line); cbn [negb]; [|apply IH].
    unfold values_of. cbn [flat_map]. fold (values_of (filter nonempty rest)).
    destruct (json_loads line) as [v|]; cbn [app]; [|apply IH].
    destruct v; try reflexivity.
    cbn [objects_of]. rewrite IH.
    destruct (objects_of (values_of (filter nonempty rest))); [|reflexivity].
    cbn [map]. now rewrite <- app_assoc.
Qed.

(** The two modules hold the same loop. *)
Lemma gui_parse_lines_cli : Gui.parse_lines = Cli.parse_lines.
Proof. reflexivity. Qed.

(** The sort leaves the world alone. *)
Lemma sort_by_view_count_world (clips : list clip) (w : world) :
  sort_by_view_count clips w = (fst (sort_by_view_count clips w), w).
Proof.
  destruct clips as [|a [|b r]]; try reflexivity.
  unfold sort_by_view_count.
  destruct (forallb has_numeric_key (a :: b :: r)); [reflexivity|].
  destruct (existsb has_incomparable_key (a :: b :: r)); [reflexivity|].
  destruct (sort_positions _); reflexivity.
Qed.






Lemma print_run (line : string) (w : world) :
  print line w = (Return tt, after_events w [EvPrint line]).
Proof. reflexivity. Qed.

Lemma log_run (message : string) (w : world) :
  Gui.log message w = (Return tt, logged w message).
Proof. reflexivity. Qed.

Lemma get_date_filter_run (period : string) (w : world) :
  Gui.get_date_filter period w
  = (Return (strftime "%Y%m%d" (clock w - window_seconds period)), w).
Proof.
  unfold Gui.get_date_filter, window_seconds, Gui.timedelta_hours, Gui.timedelta_days.
  run.
  destruct (String.eqb_spec period "24h") as [E|E]; [subst; reflexivity|].
  destruct (String.eqb period "7d"); [reflexivity|].
  destruct (String.eqb period "30d"); reflexivity.
Qed.

Lemma all_str_map_Some (argv : list string) : all_str (map Some argv) = Some argv.
Proof. induction argv as [|a r IH]; simpl; [reflexivity | now rewrite IH]. Qed.

(** What a run of the command-line Lister amounts to: one process, one more
    line of output, and the clips of the lines. *)
Lemma cli_scrape_clips_exact (username : string) (hours limit min_views : Z)
    (w : world) :
  let listing := cli_listing_world w username hours in
  let argv := listing_argv username limit min_views in
  let run := run_process listing argv in
  exists line,
    Cli.scrape_clips username hours limit min_views w
    = (Return (listed username (returncode run) (stdout run)),
       after_events (after_run listing argv) [EvPrint line]).
Proof.
  intros listing argv run. unfold Cli.scrape_clips.
  unfold bind at 1. rewrite print_run.
  change (after_events w _) with (cli_listing_world w username hours).
  fold listing.
  unfold try_except, bind at 1, subprocess_run.
  change (all_str (Cli.listing_command username limit min_views)) with (Some argv).
  cbv iota. fold run. fold (after_run listing argv).
  unfold listed, decoded, output_lines.
  destruct (Z.eqb (returncode run) 0); cbn [negb].
  - unfold bind at 1. rewrite parse_lines_exact.
    destruct (objects_of _) as [objects|].
    + unfold bind. rewrite print_run. eexists. reflexivity.
    + cbn [is_Exception]. unfold bind. rewrite print_run. eexists. reflexivity.
  - unfold bind. rewrite print_run. eexists. reflexivity.
Qed.

(** The same for the GUI Lister, which goes on to sort what it found *)
Lemma gui_scrape_clips_exact (username period : string) (limit min_views : Z)
    (w : world) :
  let listing := gui_listing_world w username period in
  let argv := gui_listing_argv w username period limit min_views in
  let run := run_process listing argv in
  let clips := listed username (returncode run) (stdout run) in
  exists message,
    let found := logged (after_run listing argv) message in
    Gui.scrape_clips username period limit min_views w =
    match fst (sort_by_view_count clips found) with
    | Return ranked => (Return ranked, found)
    | Raise e =>
        if is_Exception e
        then (Return [], logged found ("Error scraping clips: " +++ str_exn e))
        else (Raise e, found)
    end.
Proof.
  intros listing argv run clips. unfold Gui.scrape_clips.
  unfold bind at 1. rewrite log_run. unfold bind at 1. rewrite log_run.
  change (logged (logged w _) _) with (gui_filter_world w username period).
  remember (gui_filter_world w username period) as w2 eqn:Hw2.
  assert (Hcmd :
    (if negb (String.eqb period "all")
     then (date_filter <- Gui.get_date_filter period ;;
           ret (Gui.listing_command username limit min_views
                ++ [Some "--dateafter"; Some date_filter]))
     else ret (Gui.listing_command username limit min_views)) w2
    = (Return (map Some argv), w2)).
  { unfold argv, gui_listing_argv. rewrite <- Hw2.
    destruct (String.eqb period "all"); cbn [negb]; [reflexivity|].
    unfold bind. rewrite get_date_filter_run. reflexivity. }
  unfold try_except, bind at 1. rewrite Hcmd.
  unfold bind at 1. rewrite log_run.
  replace (logged w2 "Running clip search...") with listing
    by (unfold listing, gui_listing_world; now rewrite <- Hw2).
  unfold bind at 1, subprocess_run. rewrite all_str_map_Some.
  fold run. fold (after_run listing argv).
  unfold clips, listed, decoded, output_lines.
  destruct (Z.eqb (returncode run) 0); cbn [negb].
  - unfold bind at 1. rewrite gui_parse_lines_cli, parse_lines_exact.
    destruct (objects_of _) as [objects|].
    + unfold bind at 1. rewrite log_run. cbn [app].
      match goal with
      | |- context [sort_by_view_count _ (logged _ ?m)] => exists m
      end.
      cbv zeta.
      rewrite (sort_by_view_count_world (map (clip_of_data username) objects)).
      cbn [fst].
      destruct (fst (sort_by_view_count _ _)) as [ranked|e]; [reflexivity|].
      destruct (is_Exception e); [|reflexivity].
      unfold bind. rewrite log_run. reflexivity.
    + cbn [is_Exception]. unfold bind. rewrite log_run. eexists. reflexivity.
  - unfold bind, ret. rewrite log_run. eexists. reflexivity.
Qed.


Lemma string_of_uint_not_dash (d : Decimal.uint) (s : string) :
  NilZero.string_of_uint d <> String "-" s.
Proof. destruct d; discriminate. Qed.

Lemma str_int_not_dateafter (z : Z) : str_int z <> "--dateafter".
Proof.
  unfold str_int. destruct (Z.to_int z) as [d|d]; simpl.
  - apply string_of_uint_not_dash.
  - intros E. injection E as E. revert E. apply string_of_uint_not_dash.
Qed.

(** C4 fails on the code of the command-line Lister.  Whatever [hours] is,
    the one process it starts has no [--dateafter] argument: [hours] only
    reaches the address that is printed.  The GUI Lister does what the claim
    says: for every period but ["all"] its process gets [--dateafter] and the
    date of now minus the window in the format [%Y%m%d]. *)
Theorem cli_lister_sends_no_date_filter (username period : string)
    (hours limit min_views : Z) (w : world) :
  ~ In "--dateafter" (listing_argv username limit min_views)
  /\
  (exists result line w',
     Cli.scrape_clips username hours limit min_views w = (result, w') /\
     trace w' = trace (cli_listing_world w username hours)
                ++ [EvRun (listing_argv username limit min_views); EvPrint line])
  /\
  (exists result line more w',
     Gui.scrape_clips username period limit min_views w = (result, w') /\
     trace w' = trace (gui_listing_world w username period)
                ++ [EvRun (listing_argv username limit min_views
                           ++ if String.eqb period "all" then []
                              else ["--dateafter";
                                    strftime "%Y%m%d"
                                      (clock (gui_filter_world w username period)
                                       - window_seconds period)]);
                    EvPrint line] ++ more /\
     (more = [] \/ exists error, more = [EvPrint error] /\ result = Return [])).
Proof.
  split; [|split].
  - simpl. intros [E|[E|[E|[E|[E|[E|[E|[E|[]]]]]]]]]; try discriminate E.
    revert E. apply str_int_not_dateafter.
  - destruct (cli_scrape_clips_exact username hours limit min_views w) as (line & E).
    eexists; eexists; eexists. split; [exact E|].
    unfold after_events, after_run. cbn [trace]. now rewrite <- !app_assoc.
  - destruct (gui_scrape_clips_exact username period limit min_views w)
      as (message & E). cbv zeta in E.
    destruct (fst (sort_by_view_count _ _)) as [ranked|e].
    + eexists; eexists; exists []; eexists. split; [exact E|]. split; [|left; reflexivity].
      unfold logged, after_events, after_run. cbn [trace].
      now rewrite app_nil_r, <- !app_assoc.
    + destruct (is_Exception e).
      * eexists; eexists; eexists; eexists. split; [exact E|]. split.
        -- unfold logged at 1, after_events. cbn [trace].
           unfold logged, after_events, after_run. cbn [trace].
           rewrite <- !app_assoc. reflexivity.
        -- right. eexists. split; reflexivity.
      * eexists; eexists; exists []; eexists. split; [exact E|].
        split; [|left; reflexivity].
        unfold logged, after_events, after_run. cbn [trace].
        now rewrite app_nil_r, <- !app_assoc.
Qed.

End ListerFacts.


Example lister_run_with_a_malformed_line :
  listing_of (line_A +++ newline +++ "oops")
  = (Return [listed_clip "foo" "1" "A" "u1" 50],
     World []
       [ EvPrint "Fetching clips from: https://www.twitch.tv/foo/clips?filter=clips&range=24h";
         EvRun ["yt-dlp"; "--flat-playlist"; "--dump-json";
                "https://www.twitch.tv/foo/clips";
                "--match-filter"; "view_count >= 0"; "--playlist-end"; "5"];
         EvPrint "Found 1 clips." ]).
Proof. reflexivity. Qed.

(** The GUI Lister at noon of 2026-11-04, for the last 24 hours: the date
    filter is there, and the two clips come back ranked. *)
Example gui_lister_run :
  Gui.scrape_clips (H:=listing_host (line_A +++ newline +++ line_B))
    "foo" "24h" 2 0 Example.empty_world
  = (Return [listed_clip "foo" "2" "B" "u2" 90; listed_clip "foo" "1" "A" "u1" 50],
     World []
       [ EvPrint "[12:00:00] Searching for clips from foo (24h)...";
         EvPrint "[12:00:00] Looking back 24 hours/period";
         EvPrint "[12:00:00] Running clip search...";
         EvRun ["yt-dlp"; "--flat-playlist"; "--dump-json";
                "https://www.twitch.tv/foo/clips";
                "--match-filter"; "view_count >= 0"; "--playlist-end"; "2";
                "--dateafter"; "20261103"];
         EvPrint "[12:00:00] Found 2 clips" ]).
Proof. reflexivity. Qed.

(** With a [null] view count among its two clips the ranking raises, and the
    GUI Lister logs the error and returns no clip. *)
Example gui_lister_run_with_a_null_view_count :
  exists error,
    Gui.scrape_clips (H:=listing_host (line_A +++ newline +++ null_line))
      "foo" "24h" 2 0 Example.empty_world
    = (Return [],
       World []
         [ EvPrint "[12:00:00] Searching for clips from foo (24h)...";
           EvPrint "[12:00:00] Looking back 24 hours/period";
           EvPrint "[12:00:00] Running clip search...";
           EvRun ["yt-dlp"; "--flat-playlist"; "--dump-json";
                  "https://www.twitch.tv/foo/clips";
                  "--match-filter"; "view_count >= 0"; "--playlist-end"; "2";
                  "--dateafter"; "20261103"];
           EvPrint "[12:00:00] Found 2 clips";
           EvPrint ("[12:00:00] Error scraping clips: " +++ error) ]).
Proof. eexists. reflexivity. Qed.

(** [strip] takes off the white space of Python: an output that opens with
    a no-break space has one line, which is JSON. *)
Example lister_run_after_a_no_break_space :
  line_count (H:=working_host) (Example.utf8 160 +++ line_A +++ newline) = 1 /\
  skipped_count (H:=working_host) (Example.utf8 160 +++ line_A +++ newline) = 0 /\
  fst (listing_of (Example.utf8 160 +++ line_A +++ newline))
  = Return [listed_clip "foo" "1" "A" "u1" 50].
Proof. repeat split. Qed.

Section WithThreeLines.
#[local] Existing Instance three_lines_host.


End WithThreeLines.

(* ------------------------------------------------------------------ *)
(** ** Downloader *)

Lemma runs_app (t1 t2 : list event) : runs (t1 ++ t2) = runs t1 + runs t2.
Proof. unfold runs. now rewrite filter_app, length_app. Qed.

Section DownloaderFacts.
Context {H : Host}.

Lemma cli_download_clip_run (clip : clip) (u t output_dir output_format : string)
    (w : world) :
  url clip = PStr u -> u <> "" -> title clip = PStr t ->
  let dest := destination clip t output_dir output_format in
  let asked := after_events w [EvPrint ("Downloading: " +++ t)] in
  let argv := download_argv dest u in
  let done := after_run asked argv in
  Cli.download_clip clip output_dir output_format w =
  if path_exists_in (files w) dest
  then (Return (Some dest), after_events w [EvPrint ("Clip already exists: " +++ dest)])
  else if Z.eqb (returncode (run_process asked argv)) 0
  then if path_exists_in (files done) dest
       then (Return (Some dest),
             after_events done [EvPrint ("Successfully downloaded: " +++ dest)])
       else (Return None,
             after_events done
               [EvPrint ("Download finished but file not found: " +++ dest)])
  else (Return None,
        after_events done
          [EvPrint ("Error downloading clip: " +++ stderr (run_process asked argv))]).
Proof.
  intros Hu Hne Ht dest asked argv done.
  unfold Cli.download_clip, try_except. rewrite Hu, Ht.
  assert (Htruthy : truthy (PStr u) = true).
  { simpl. unfold nonempty. apply negb_true_iff, String.eqb_neq, Hne. }
  rewrite Htruthy. cbn [negb].
  unfold bind at 1. cbn [sanitize_title ret].
  unfold bind at 1, os_path_exists. fold (destination clip t output_dir output_format).
  fold dest.
  destruct (path_exists_in (files w) dest); [reflexivity|].
  unfold bind at 1. rewrite print_run. cbn [py_str]. fold asked.
  unfold bind at 1, subprocess_run. cbn [Cli.download_command as_arg all_str].
  fold (download_argv dest u). fold argv. fold done.
  destruct (Z.eqb (returncode (run_process asked argv)) 0); cbn [negb]; [|reflexivity].
  unfold bind at 1.
  change (files (World (created (run_process asked argv) ++ files asked)
                       (trace asked ++ [EvRun argv]))) with (files done).
  destruct (path_exists_in (files done) dest); reflexivity.
Qed.

Lemma files_after_events (w : world) (events : list event) :
  files (after_events w events) = files w.
Proof. reflexivity. Qed.

Lemma files_logged (w : world) (message : string) : files (logged w message) = files w.
Proof. reflexivity. Qed.

Lemma gui_download_command_argv (self : Gui.gui) (dest u : string) :
  all_str (Gui.download_command self dest (PStr u)) = Some (gui_download_argv self dest u).
Proof.
  unfold Gui.download_command, gui_download_argv.
  destruct (Gui.ffmpeg_path self) as [p|]; [|reflexivity].
  destruct (nonempty p); reflexivity.
Qed.

Lemma gui_download_clip_run (self : Gui.gui) (clip : clip)
    (u t output_dir output_format : string) (w : world) :
  url clip = PStr u -> u <> "" -> title clip = PStr t ->
  let dest := destination clip t output_dir output_format in
  let asked := logged w ("Downloading: " +++ t) in
  let argv := gui_download_argv self dest u in
  let done := after_run asked argv in
  Gui.download_clip self clip output_dir output_format w =
  if path_exists_in (files w) dest
  then (Return (Some dest), logged w ("Clip already exists: " +++ dest))
  else if Z.eqb (returncode (run_process asked argv)) 0
  then if path_exists_in (files done) dest
       then (Return (Some dest), logged done ("Successfully downloaded: " +++ dest))
       else (Return None, logged done ("Download finished but file not found: " +++ dest))
  else (Return None,
        logged done ("Error downloading clip: " +++ stderr (run_process asked argv))).
Proof.
  intros Hu Hne Ht dest asked argv done.
  unfold Gui.download_clip, try_except. rewrite Hu, Ht.
  assert (Htruthy : truthy (PStr u) = true).
  { simpl. unfold nonempty. apply negb_true_iff, String.eqb_neq, Hne. }
  rewrite Htruthy. cbn [negb].
  unfold bind at 1. cbn [sanitize_title ret].
  unfold bind at 1, os_path_exists. fold (destination clip t output_dir output_format).
  fold dest.
  destruct (path_exists_in (files w) dest).
  { unfold bind. rewrite log_run. reflexivity. }
  unfold bind at 1. rewrite log_run. cbn [py_str]. fold asked.
  unfold bind at 1, subprocess_run. rewrite gui_download_command_argv.
  fold argv. fold done.
  destruct (Z.eqb (returncode (run_process asked argv)) 0); cbn [negb].
  - unfold bind at 1.
    change (files (World (created (run_process asked argv) ++ files asked)
                         (trace asked ++ [EvRun argv]))) with (files done).
    destruct (path_exists_in (files done) dest); cbn [negb]; unfold bind; rewrite log_run;
      reflexivity.
  - unfold bind. rewrite log_run. reflexivity.
Qed.

(** C5, as amended.  For a clip with a non-empty URL and a title, on the
    command line and in the GUI alike: if the destination file exists, the
    Downloader returns its path and starts no process; and after a call that
    returned a path, a second call with the same clip and directory returns
    that path and starts no process, so that the two calls together started
    one process if the file was absent at first and none if it was there. *)
Theorem downloader_short_circuit (self : Gui.gui) (clip : clip)
    (u t output_dir output_format : string) (w : world) :
  url clip = PStr u -> u <> "" -> title clip = PStr t ->
  let dest := destination clip t output_dir output_format in
  (path_exists_in (files w) dest = true ->
   Cli.download_clip clip output_dir output_format w
   = (Return (Some dest), after_events w [EvPrint ("Clip already exists: " +++ dest)]) /\
   Gui.download_clip self clip output_dir output_format w
   = (Return (Some dest), logged w ("Clip already exists: " +++ dest)))
  /\
  (forall p w1,
     Cli.download_clip clip output_dir output_format w = (Return (Some p), w1) ->
     p = dest /\
     Cli.download_clip clip output_dir output_format w1
     = (Return (Some p), after_events w1 [EvPrint ("Clip already exists: " +++ p)]) /\
     runs (trace (after_events w1 [EvPrint ("Clip already exists: " +++ p)]))
     = runs (trace w) + (if path_exists_in (files w) dest then 0 else 1))
  /\
  (forall p w1,
     Gui.download_clip self clip output_dir output_format w = (Return (Some p), w1) ->
     p = dest /\
     Gui.download_clip self clip output_dir output_format w1
     = (Return (Some p), logged w1 ("Clip already exists: " +++ p)) /\
     runs (trace (logged w1 ("Clip already exists: " +++ p)))
     = runs (trace w) + (if path_exists_in (files w) dest then 0 else 1)).
Proof.
  intros Hu Hne Ht dest. split; [|split].
  - intros Hex. split.
    + rewrite (cli_download_clip_run clip u t output_dir output_format w Hu Hne Ht).
      fold dest. rewrite Hex. reflexivity.
    + rewrite (gui_download_clip_run self clip u t output_dir output_format w Hu Hne Ht).
      fold dest. rewrite Hex. reflexivity.
  - intros p w1.
    rewrite (cli_download_clip_run clip u t output_dir output_format w Hu Hne Ht).
    fold dest. cbv zeta.
    destruct (path_exists_in (files w) dest) eqn:Hex.
    + intros E. injection E as Ep Ew. subst p w1. split; [reflexivity|].
      rewrite (cli_download_clip_run clip u t output_dir output_format _ Hu Hne Ht).
      fold dest. rewrite files_after_events, Hex.
      split; [reflexivity|].
      unfold after_events. cbn [trace]. rewrite !runs_app. unfold runs. simpl. lia.
    + match goal with |- (if ?c then _ else _) = _ -> _ => destruct c end;
        [|intros E; discriminate E].
      match goal with |- (if ?c then _ else _) = _ -> _ => destruct c eqn:Hnow end;
        [|intros E; discriminate E].
      intros E. injection E as Ep Ew. subst p w1. split; [reflexivity|].
      rewrite (cli_download_clip_run clip u t output_dir output_format _ Hu Hne Ht).
      fold dest. rewrite files_after_events.
      replace (path_exists_in _ dest) with true by (symmetry; exact Hnow).
      split; [reflexivity|].
      unfold after_events, after_run. cbn [trace]. rewrite !runs_app. unfold runs. simpl. lia.
  - intros p w1.
    rewrite (gui_download_clip_run self clip u t output_dir output_format w Hu Hne Ht).
    fold dest. cbv zeta.
    destruct (path_exists_in (files w) dest) eqn:Hex.
    + intros E. injection E as Ep Ew. subst p w1. split; [reflexivity|].
      rewrite (gui_download_clip_run self clip u t output_dir output_format _ Hu Hne Ht).
      fold dest. rewrite files_logged, Hex.
      split; [reflexivity|].
      unfold logged, after_events. cbn [trace]. rewrite !runs_app. unfold runs. simpl. lia.
    + match goal with |- (if ?c then _ else _) = _ -> _ => destruct c end;
        [|intros E; discriminate E].
      match goal with |- (if ?c then _ else _) = _ -> _ => destruct c eqn:Hnow end;
        [|intros E; discriminate E].
      intros E. injection E as Ep Ew. subst p w1. split; [reflexivity|].
      rewrite (gui_download_clip_run self clip u t output_dir output_format _ Hu Hne Ht).
      fold dest. rewrite files_logged.
      replace (path_exists_in _ dest) with true by (symmetry; exact Hnow).
      split; [reflexivity|].
      unfold logged, after_events, after_run. cbn [trace]. rewrite !runs_app. unfold runs. simpl. lia.
Qed.

End DownloaderFacts.

(** C5, as stated, fails: when the download fails, the second call starts
    the tool again, and the two calls together have started two processes. *)
Lemma downloader_retries_after_failure :
  url (sample_clip "A" 50) = PStr "https://clips.twitch.tv/A" /\
  exists w1 w2,
    Cli.download_clip (H:=failing_download_host) (sample_clip "A" 50) "downloads" "mp4"
      Example.empty_world = (Return None, w1) /\
    Cli.download_clip (H:=failing_download_host) (sample_clip "A" 50) "downloads" "mp4"
      w1 = (Return None, w2) /\
    trace w2 =
      [ EvPrint "Downloading: A";
        EvRun (download_argv "downloads/foo - A.mp4" "https://clips.twitch.tv/A");
        EvPrint "Error downloading clip: ERROR: unable to download video data";
        EvPrint "Downloading: A";
        EvRun (download_argv "downloads/foo - A.mp4" "https://clips.twitch.tv/A");
        EvPrint "Error downloading clip: ERROR: unable to download video data" ] /\
    runs (trace w2) = 2.
Proof.
  split; [reflexivity|].
  eexists; eexists. split; [reflexivity|]. split; [reflexivity|].
  split; reflexivity.
Qed.

Lemma downloader_short_circuit_witness :
  url (sample_clip "A" 50) = PStr "https://clips.twitch.tv/A" /\
  "https://clips.twitch.tv/A" <> "" /\
  title (sample_clip "A" 50) = PStr "A" /\
  Cli.download_clip (H:=working_host) (sample_clip "A" 50) "downloads" "mp4"
    (World ["downloads/foo - A.mp4"] [])
  = (Return (Some "downloads/foo - A.mp4"),
     World ["downloads/foo - A.mp4"]
       [EvPrint "Clip already exists: downloads/foo - A.mp4"]) /\
  Cli.download_clip (H:=working_host) (sample_clip "A" 50) "downloads" "mp4"
    (World ["downloads/foo - A.mp4"]
       [ EvPrint "Downloading: A";
         EvRun (download_argv "downloads/foo - A.mp4" "https://clips.twitch.tv/A");
         EvPrint "Successfully downloaded: downloads/foo - A.mp4" ])
  = (Return (Some "downloads/foo - A.mp4"),
     World ["downloads/foo - A.mp4"]
       [ EvPrint "Downloading: A";
         EvRun (download_argv "downloads/foo - A.mp4" "https://clips.twitch.tv/A");
         EvPrint "Successfully downloaded: downloads/foo - A.mp4";
         EvPrint "Clip already exists: downloads/foo - A.mp4" ]).
Proof.
  assert (Hne : "https://clips.twitch.tv/A" <> "") by discriminate.
  split; [reflexivity|]. split; [exact Hne|]. split; [reflexivity|]. split.
  - apply (proj1 (downloader_short_circuit (H:=working_host) sample_form
                    (sample_clip "A" 50) "https://clips.twitch.tv/A" "A" "downloads" "mp4"
                    (World ["downloads/foo - A.mp4"] []) eq_refl Hne eq_refl)).
    reflexivity.
  - apply (proj1 (proj2 (downloader_short_circuit (H:=working_host) sample_form
                           (sample_clip "A" 50) "https://clips.twitch.tv/A" "A"
                           "downloads" "mp4" Example.empty_world eq_refl Hne eq_refl))
             "downloads/foo - A.mp4").
    reflexivity.
Defined.

(* ------------------------------------------------------------------ *)
(** ** Orchestrator *)

Section OrchestratorFacts.
Context {H : Host}.

(** C9, as amended.  When the listing step returns the empty list, the run
    ends there, on the command line and in the GUI, each on its own.  On the
    command line, [main] prints that no clips were found and returns; in the
    GUI, the thread logs the same, sets the status line to
    [No clips found] and enables the buttons again.  Nothing else happens
    after the listing: no process is started, no file is written, and the
    summary line of the downloads is not printed, so neither the Downloader
    nor the Metadata Emitter nor the Instructions Emitter is reached, and
    no number of downloaded clips is reported. *)
Theorem orchestrator_stops_on_empty_listing (args : Cli.arguments) (self : Gui.gui)
    (w w0 w1 v v1 : world) :
  (Cli.main_prelude args w = (Return tt, w0) ->
   Cli.main_listing args w0 = (Return [], w1) ->
   Cli.main args w
   = (Return tt,
      after_events w1
        [EvPrint ("No clips found for " +++ Cli.streamer args +++ " in the last "
                  +++ str_int (Cli.hours args) +++ " hours.")]))
  /\
  (Gui.thread_listing self v = (Return [], v1) ->
   Gui.download_clips_thread self v
   = (Return tt,
      after_events
        (logged v1 ("No clips found for " +++ strip (Gui.streamer_var self)
                    +++ " in the selected time period."))
        [EvStatus "No clips found"; EvEnableButtons; EvEnableButtons])).
Proof.
  split.
  - intros Hprelude Hlisting.
    unfold Cli.main, bind. rewrite Hprelude, Hlisting. reflexivity.
  - intros Hthread.
    unfold Gui.download_clips_thread, try_finally, try_except.
    unfold bind at 1. rewrite Hthread.
    unfold Gui.thread_rest, bind. rewrite log_run.
    unfold emit, logged, after_events. cbn [files trace]. rewrite <- !app_assoc.
    reflexivity.
Qed.

End OrchestratorFacts.

Section WithAnEmptyListing.
#[local] Existing Instance working_host.

(** C9, as stated, fails: after an empty listing the command line reports one
    line, that no clips were found, and the GUI the same line and the status
    [No clips found]; nothing that either run reports mentions a download,
    so no count of downloaded clips, zero or other, is reported. *)
Lemma empty_listing_reports_no_download_count :
  let w0 := snd (Cli.main_prelude sample_arguments Example.empty_world) in
  exists w1 w2 v1 v2,
    Cli.main_listing sample_arguments w0 = (Return [], w1) /\
    Cli.main sample_arguments Example.empty_world = (Return tt, w2) /\
    reports (trace w2)
    = reports (trace w1) ++ ["No clips found for foo in the last 24 hours."] /\
    existsb (mentions "ownloaded") (reports (trace w2)) = false /\
    Gui.thread_listing sample_form Example.empty_world = (Return [], v1) /\
    Gui.download_clips_thread sample_form Example.empty_world = (Return tt, v2) /\
    reports (trace v2)
    = reports (trace v1)
      ++ ["[12:00:00] No clips found for foo in the selected time period.";
          "No clips found"] /\
    existsb (mentions "ownloaded") (reports (trace v2)) = false.
Proof.
  intros w0. do 4 eexists.
  split; [reflexivity|]. split; [reflexivity|]. split; [reflexivity|].
  split; [reflexivity|]. split; [reflexivity|]. split; [reflexivity|].
  split; reflexivity.
Qed.

Lemma orchestrator_stops_on_empty_listing_witness :
  let w0 := snd (Cli.main_prelude sample_arguments Example.empty_world) in
  let w1 := snd (Cli.main_listing sample_arguments w0) in
  let v1 := snd (Gui.thread_listing sample_form Example.empty_world) in
  Cli.main_prelude sample_arguments Example.empty_world = (Return tt, w0) /\
  Cli.main_listing sample_arguments w0 = (Return [], w1) /\
  Gui.thread_listing sample_form Example.empty_world = (Return [], v1) /\
  Cli.main sample_arguments Example.empty_world
  = (Return tt,
     after_events w1
       [EvPrint ("No clips found for " +++ Cli.streamer sample_arguments
                 +++ " in the last " +++ str_int (Cli.hours sample_arguments)
                 +++ " hours.")]) /\
  Gui.download_clips_thread sample_form Example.empty_world
  = (Return tt,
     after_events
       (logged v1
          ("No clips found for " +++ strip (Gui.streamer_var sample_form)
           +++ " in the selected time period."))
       [EvStatus "No clips found"; EvEnableButtons; EvEnableButtons]).
Proof.
  intros w0 w1 v1.
  split; [reflexivity|]. split; [reflexivity|]. split; [reflexivity|].
  split.
  - apply (proj1 (orchestrator_stops_on_empty_listing
                    sample_arguments sample_form Example.empty_world w0 w1
                    Example.empty_world v1)); reflexivity.
  - apply (proj2 (orchestrator_stops_on_empty_listing
                    sample_arguments sample_form Example.empty_world w0 w1
                    Example.empty_world v1)); reflexivity.
Defined.

End WithAnEmptyListing.

Example thread_run_without_clips :
  Gui.download_clips_thread (H:=working_host) sample_form Example.empty_world
  = (Return tt,
     World []
       [ EvPrint "[12:00:00] Searching for clips from foo (24h)...";
         EvPrint "[12:00:00] Searching for clips from foo (24h)...";
         EvPrint "[12:00:00] Looking back 24 hours/period";
         EvPrint "[12:00:00] Running clip search...";
         EvRun ["yt-dlp"; "--flat-playlist"; "--dump-json";
                "https://www.twitch.tv/foo/clips";
                "--match-filter"; "view_count >= 0"; "--playlist-end"; "5";
                "--dateafter"; "20261103"];
         EvPrint "[12:00:00] Found 0 clips";
         EvPrint "[12:00:00] No clips found for foo in the selected time period.";
         EvStatus "No clips found"; EvEnableButtons; EvEnableButtons ]).
Proof. reflexivity. Qed.

Example main_run_without_clips :
  Cli.main (H:=working_host) sample_arguments Example.empty_world
  = (Return tt,
     World ["downloads"]
       [ EvRun ["yt-dlp"; "--version"];
         EvPrint "✓ yt-dlp is installed";
         EvRun ["ffmpeg"; "-version"];
         EvPrint "✓ ffmpeg is installed";
         EvPrint "=== Twitch Clip Downloader ===";
         EvPrint "Target streamer: foo";
         EvPrint "Looking back 24 hours";
         EvPrint "Clip limit: 5";
         EvPrint "Minimum views: 0";
         EvPrint "";
         EvMakedirs "downloads";
         EvPrint "Fetching clips from: https://www.twitch.tv/foo/clips?filter=clips&range=24h";
         EvRun ["yt-dlp"; "--flat-playlist"; "--dump-json";
                "https://www.twitch.tv/foo/clips";
                "--match-filter"; "view_count >= 0"; "--playlist-end"; "5"];
         EvPrint "Found 0 clips.";
         EvPrint "No clips found for foo in the last 24 hours." ]).
Proof. reflexivity. Qed.

(* ================================================================== *)
(** * Further properties *)

(* ------------------------------------------------------------------ *)
(** ** The five operations *)

Section OperationFacts.
Context {H : Host}.
Import VideoProcessor.

Lemma default_output_given (input : option string) (out suffix : string) (w : world) :
  default_output input (Some out) suffix w = (Return out, w).
Proof. reflexivity. Qed.

(** X1.  Without [ffmpeg] each of the five operations prints the notice that it is
    missing and returns [None], whatever its arguments: nothing but the probe
    is started and no file is written. *)
Theorem operations_need_ffmpeg (input output_path : option string)
    (start_time text position fontsize intro_path output_format platform : string)
    (duration : option string) (w : world) :
  probe_ok w = false ->
  let gave_up :=
    (Return (@None string),
     after_events (after_run w probe) [EvPrint ffmpeg_missing_message]) in
  trim_video input output_path start_time duration w = gave_up /\
  add_watermark input text output_path position fontsize w = gave_up /\
  add_intro input intro_path output_path w = gave_up /\
  convert_format input output_format output_path w = gave_up /\
  resize_for_platform input platform output_path w = gave_up.
Proof.
  intros Hprobe gave_up.
  unfold trim_video, add_watermark, add_intro, convert_format, resize_for_platform.
  rewrite !with_ffmpeg, Hprobe. repeat split.
Qed.

Lemma trim_video_run (video start_time : string) (duration output_path : option string)
    (w : world) :
  probe_ok w = true ->
  let out := output_or_default output_path video "_trimmed" in
  let argv := trim_argv video start_time duration out in
  let status := returncode (run_process (after_run w probe) argv) in
  trim_video (Some video) output_path start_time duration w
  = (path_if_ok status out,
     after_events (after_run (after_run w probe) argv)
       [EvPrint (if Z.eqb status 0 then "Trimmed video saved to: " +++ out
                 else "Error trimming video: "
                      +++ str_exn (CalledProcessError argv status))]).
Proof.
  intros Hprobe out argv status. unfold trim_video. rewrite with_ffmpeg, Hprobe.
  unfold bind at 1. rewrite default_output_of_video. fold out.
  erewrite guarded_transcode with (argv := argv)
    by (unfold argv, trim_argv; destruct duration; reflexivity).
  fold status. unfold path_if_ok. destruct (Z.eqb status 0); reflexivity.
Qed.

Lemma add_watermark_run (video text position fontsize : string)
    (output_path : option string) (w : world) :
  probe_ok w = true ->
  let out := output_or_default output_path video "_watermarked" in
  let argv := watermark_command video text fontsize (position_value position) out in
  let status := returncode (run_process (after_run w probe) argv) in
  add_watermark (Some video) text output_path position fontsize w
  = (path_if_ok status out,
     after_events (after_run (after_run w probe) argv)
       [EvPrint (if Z.eqb status 0 then "Watermarked video saved to: " +++ out
                 else "Error adding watermark: "
                      +++ str_exn (CalledProcessError argv status))]).
Proof.
  intros Hprobe out argv status. unfold add_watermark. rewrite with_ffmpeg, Hprobe.
  unfold bind at 1. rewrite default_output_of_video. fold out.
  erewrite guarded_transcode with (argv := argv) by reflexivity.
  fold status. unfold path_if_ok. destruct (Z.eqb status 0); reflexivity.
Qed.

Lemma convert_format_run (video output_format : string) (output_path : option string)
    (w : world) :
  probe_ok w = true ->
  let out := match output_path with
             | Some o => o
             | None => fst (os_path_splitext video) +++ "." +++ output_format
             end in
  let argv := convert_argv video out in
  let status := returncode (run_process (after_run w probe) argv) in
  convert_format (Some video) output_format output_path w
  = (path_if_ok status out,
     after_events (after_run (after_run w probe) argv)
       [EvPrint (if Z.eqb status 0 then "Converted video saved to: " +++ out
                 else "Error converting video: "
                      +++ str_exn (CalledProcessError argv status))]).
Proof.
  intros Hprobe out argv status. unfold convert_format. rewrite with_ffmpeg, Hprobe.
  unfold bind at 1.
  replace ((match output_path with
            | Some o => ret o
            | None => fe <- splitext_of (Some video) ;;
                      ret (fst fe +++ "." +++ output_format)
            end) (after_run w probe))
    with (Return out, after_run w probe) by (destruct output_path; reflexivity).
  erewrite guarded_transcode with (argv := argv) by reflexivity.
  fold status. unfold path_if_ok. destruct (Z.eqb status 0); reflexivity.
Qed.

Lemma resize_for_platform_run (video platform : string) (settings : platform_setting)
    (output_path : option string) (w : world) :
  dict_lookup platform_settings (lower platform) = Some settings ->
  probe_ok w = true ->
  let out := output_or_default output_path video ("_for_" +++ platform) in
  let argv := resize_argv video (resolution settings) out in
  let status := returncode (run_process (after_run w probe) argv) in
  resize_for_platform (Some video) platform output_path w
  = (path_if_ok status out,
     after_events (after_run (after_run w probe) argv)
       [EvPrint (if Z.eqb status 0
                 then "Resized video for " +++ description settings
                      +++ " saved to: " +++ out
                 else "Error resizing video: "
                      +++ str_exn (CalledProcessError argv status))]).
Proof.
  intros Hs Hprobe out argv status. unfold resize_for_platform.
  rewrite with_ffmpeg, Hprobe, Hs.
  unfold bind at 1. rewrite default_output_of_video. fold out.
  erewrite guarded_transcode with (argv := argv) by reflexivity.
  fold status. unfold path_if_ok. destruct (Z.eqb status 0); reflexivity.
Qed.



Lemma platform_settings_entries (name : string) (settings : platform_setting) :
  dict_lookup platform_settings name = Some settings ->
  In (name, resolution settings)
     [ ("tiktok", "1080:1920"); ("instagram", "1080:1080");
       ("instagram_story", "1080:1920"); ("youtube", "1920:1080") ].
Proof.
  unfold platform_settings. cbn [dict_lookup].
  destruct (String.eqb_spec "tiktok" name) as [E|_].
  { intros E'. injection E' as <-. subst. simpl. auto. }
  destruct (String.eqb_spec "instagram" name) as [E|_].
  { intros E'. injection E' as <-. subst. simpl. auto. }
  destruct (String.eqb_spec "instagram_story" name) as [E|_].
  { intros E'. injection E' as <-. subst. simpl. auto. }
  destruct (String.eqb_spec "youtube" name) as [E|_].
  { intros E'. injection E' as <-. subst. simpl. auto 6. }
  discriminate.
Qed.

(** X3.  A platform that is one of the four names in any letter case is resized
    to the resolution the table gives its lower-case form, while the default
    output name carries the platform as it was typed. *)
Theorem resize_uses_the_table (video platform : string) (settings : platform_setting)
    (output_path : option string) (w : world) :
  dict_lookup platform_settings (lower platform) = Some settings ->
  probe_ok w = true ->
  In (lower platform, resolution settings)
     [ ("tiktok", "1080:1920"); ("instagram", "1080:1080");
       ("instagram_story", "1080:1920"); ("youtube", "1920:1080") ] /\
  let out := output_or_default output_path video ("_for_" +++ platform) in
  let argv := resize_argv video (resolution settings) out in
  let status := returncode (run_process (after_run w probe) argv) in
  resize_for_platform (Some video) platform output_path w
  = (path_if_ok status out,
     after_events (after_run (after_run w probe) argv)
       [EvPrint (if Z.eqb status 0
                 then "Resized video for " +++ description settings
                      +++ " saved to: " +++ out
                 else "Error resizing video: "
                      +++ str_exn (CalledProcessError argv status))]).
Proof.
  intros Hs Hprobe. split; [apply platform_settings_entries, Hs|].
  apply (resize_for_platform_run video platform settings output_path w Hs Hprobe).
Qed.

(** X4.  With [ffmpeg] there and no file at [intro_path], [add_intro] reports the
    missing file and returns [None]: it writes no concat list and starts no
    transcoding job. *)
Theorem intro_needs_its_file (input : option string) (intro_path : string)
    (output_path : option string) (w : world) :
  probe_ok w = true ->
  path_exists_in (files (after_run w probe)) intro_path = false ->
  add_intro input intro_path output_path w
  = (Return None,
     after_events (after_run w probe) [EvPrint ("Intro file not found: " +++ intro_path)]).
Proof.
  intros Hprobe Hmissing. unfold add_intro. rewrite with_ffmpeg, Hprobe.
  unfold bind at 1, os_path_exists. rewrite Hmissing. reflexivity.
Qed.

(** X5.  Handed [None] for its input and an explicit output path, as
    [batch_process] does after a failed step, [add_intro] raises [TypeError]
    in the middle of writing its concat list: the list stays behind, with the
    line of the intro alone in it. *)
Theorem intro_of_None_leaves_its_list (intro_path out : string) (w : world) :
  probe_ok w = true ->
  path_exists_in (files w) intro_path = true ->
  exists w',
    add_intro None intro_path (Some out) w = (Raise TypeError, w') /\
    trace w' = trace w ++
               [ EvRun probe;
                 EvOpenW temp_list;
                 EvWrite temp_list
                   ("file '" +++ os_path_abspath intro_path +++ "'" +++ newline) ] /\
    path_exists_in (files w') temp_list = true.
Proof.
  intros Hprobe Hintro. unfold add_intro. rewrite with_ffmpeg, Hprobe.
  unfold bind at 1, os_path_exists.
  assert (Hthere : path_exists_in (files (after_run w probe)) intro_path = true).
  { unfold after_run; simpl. rewrite path_exists_in_app, Hintro. apply orb_true_r. }
  rewrite Hthere. cbn [negb].
  unfold bind at 1. rewrite default_output_given.
  unfold bind at 1, open_w. unfold bind at 1, abspath_of, ret.
  unfold bind at 1, file_write, emit. unfold bind at 1, raise.
  eexists. split; [reflexivity|]. split.
  - unfold after_run. cbn [trace]. now rewrite <- !app_assoc.
  - reflexivity.
Qed.


(** *** What an operation can come to *)

(** The three ways an operation with the output path [out] can end *)
Lemma guarded_transcode_outcome (cmd : list (option string))
    (saved failed out : string) (w : world) :
  exists r w',
    try_except
      (_ <- subprocess_run_check cmd ;; print saved ;; ret (Some out))
      is_CalledProcessError
      (fun e => print (failed +++ str_exn e) ;; ret None) w = (r, w') /\
    (r = Return None \/ r = Return (Some out)
     \/ (all_str cmd = None /\ r = Raise TypeError)).
Proof.
  destruct (all_str cmd) as [argv|] eqn:Hc.
  - rewrite (guarded_transcode cmd argv saved failed out w Hc).
    destruct (Z.eqb _ 0); eexists; eexists; (split; [reflexivity|]); auto.
  - rewrite (transcode_of_None cmd saved failed out w Hc).
    eexists; eexists; split; [reflexivity|]; auto.
Qed.

Lemma all_str_Some_input (front back : list (option string)) (input : option string) :
  all_str (front ++ input :: back) = None ->
  all_str front <> None -> all_str back <> None -> input = None.
Proof.
  intros Hnone Hfront Hback. destruct input as [v|]; [|reflexivity].
  exfalso. revert Hnone Hfront. induction front as [|a r IH]; simpl.
  - destruct (all_str back); [discriminate | congruence].
  - destruct a; [|congruence].
    destruct (all_str (r ++ Some v :: back)) eqn:E; [discriminate|].
    intros _ Hr. apply IH; [reflexivity|].
    destruct (all_str r); [discriminate | congruence].
Qed.

Lemma trim_video_outcome (input : option string) (out start_time : string)
    (duration : option string) (w : world) :
  exists r w',
    trim_video input (Some out) start_time duration w = (r, w') /\ ends_as input out r.
Proof.
  unfold trim_video. rewrite with_ffmpeg.
  destruct (probe_ok w).
  - unfold bind at 1. rewrite default_output_given.
    match goal with
    | |- context [try_except (_ <- subprocess_run_check ?cmd ;; print ?s ;; _) _
                    (fun e => print (?f +++ _) ;; _) ?w0] =>
        destruct (guarded_transcode_outcome cmd s f out w0) as (r & w' & E & Hr)
    end.
    exists r, w'. split; [exact E|].
    destruct Hr as [Hr|[Hr|[Hc Hr]]]; [left; exact Hr | right; left; exact Hr |].
    right; right. split; [|exact Hr].
    apply (all_str_Some_input [Some "ffmpeg"; Some "-i"] _ input Hc); [discriminate|].
    destruct duration; discriminate.
  - eexists; eexists; split; [reflexivity | left; reflexivity].
Qed.

Lemma add_watermark_outcome (input : option string) (text out position fontsize : string)
    (w : world) :
  exists r w',
    add_watermark input text (Some out) position fontsize w = (r, w') /\
    ends_as input out r.
Proof.
  unfold add_watermark. rewrite with_ffmpeg.
  destruct (probe_ok w).
  - unfold bind at 1. rewrite default_output_given.
    match goal with
    | |- context [try_except (_ <- subprocess_run_check ?cmd ;; print ?s ;; _) _
                    (fun e => print (?f +++ _) ;; _) ?w0] =>
        destruct (guarded_transcode_outcome cmd s f out w0) as (r & w' & E & Hr)
    end.
    exists r, w'. split; [exact E|].
    destruct Hr as [Hr|[Hr|[Hc Hr]]]; [left; exact Hr | right; left; exact Hr |].
    right; right. split; [|exact Hr].
    apply (all_str_Some_input [Some "ffmpeg"; Some "-i"] _ input Hc); discriminate.
  - eexists; eexists; split; [reflexivity | left; reflexivity].
Qed.

Lemma convert_format_outcome (input : option string) (output_format out : string)
    (w : world) :
  exists r w',
    convert_format input output_format (Some out) w = (r, w') /\ ends_as input out r.
Proof.
  unfold convert_format. rewrite with_ffmpeg.
  destruct (probe_ok w).
  - unfold bind at 1. unfold ret at 1.
    match goal with
    | |- context [try_except (_ <- subprocess_run_check ?cmd ;; print ?s ;; _) _
                    (fun e => print (?f +++ _) ;; _) ?w0] =>
        destruct (guarded_transcode_outcome cmd s f out w0) as (r & w' & E & Hr)
    end.
    exists r, w'. split; [exact E|].
    destruct Hr as [Hr|[Hr|[Hc Hr]]]; [left; exact Hr | right; left; exact Hr |].
    right; right. split; [|exact Hr].
    apply (all_str_Some_input [Some "ffmpeg"; Some "-i"] _ input Hc); discriminate.
  - eexists; eexists; split; [reflexivity | left; reflexivity].
Qed.

Lemma resize_for_platform_outcome (input : option string) (platform out : string)
    (w : world) :
  exists r w',
    resize_for_platform input platform (Some out) w = (r, w') /\ ends_as input out r.
Proof.
  unfold resize_for_platform. rewrite with_ffmpeg.
  destruct (probe_ok w).
  - destruct (dict_lookup platform_settings (lower platform)) as [settings|].
    + unfold bind at 1. rewrite default_output_given.
      match goal with
      | |- context [try_except (_ <- subprocess_run_check ?cmd ;; print ?s ;; _) _
                      (fun e => print (?f +++ _) ;; _) ?w0] =>
          destruct (guarded_transcode_outcome cmd s f out w0) as (r & w' & E & Hr)
      end.
      exists r, w'. split; [exact E|].
      destruct Hr as [Hr|[Hr|[Hc Hr]]]; [left; exact Hr | right; left; exact Hr |].
      right; right. split; [|exact Hr].
      apply (all_str_Some_input [Some "ffmpeg"; Some "-i"] _ input Hc); discriminate.
    + eexists; eexists; split; [reflexivity | left; reflexivity].
  - eexists; eexists; split; [reflexivity | left; reflexivity].
Qed.


Lemma add_intro_outcome (input : option string) (intro_path out : string) (w : world) :
  exists r w',
    add_intro input intro_path (Some out) w = (r, w') /\ ends_as input out r.
Proof.
  unfold add_intro. rewrite with_ffmpeg.
  destruct (probe_ok w); [|eexists; eexists; split; [reflexivity | left; reflexivity]].
  unfold bind at 1, os_path_exists.
  destruct (path_exists_in (files (after_run w probe)) intro_path); cbn [negb];
    [|eexists; eexists; split; [reflexivity | left; reflexivity]].
  unfold bind at 1. rewrite default_output_given.
  unfold bind at 1, open_w. unfold bind at 1, abspath_of, ret.
  unfold bind at 1, file_write, emit.
  destruct input as [video|];
    [|eexists; eexists; split; [reflexivity | right; right; split; reflexivity]].
  unfold bind at 1. unfold bind at 1. cbn [files trace].
  match goal with |- context [try_except _ _ _ ?w0] => remember w0 as listed eqn:El end.
  assert (Hl : path_exists_in (files listed) temp_list = true)
    by (subst listed; reflexivity).
  unfold try_except, bind at 1.
  rewrite (subprocess_run_check_spec (concat_command out) (concat_argv out))
    by reflexivity.
  assert (Hlist : path_exists_in
                    (created (run_process listed (concat_argv out)) ++ files listed)
                    temp_list = true).
  { rewrite path_exists_in_app, Hl. apply orb_true_r. }
  destruct (Z.eqb (returncode (run_process listed (concat_argv out))) 0).
  - unfold bind, print, emit, os_remove, ret. cbn [files trace after_run].
    rewrite Hlist.
    eexists; eexists; split; [reflexivity | right; left; reflexivity].
  - cbn [is_CalledProcessError].
    unfold bind, print, emit, os_path_exists, os_remove, ret.
    cbn [files trace after_run]. rewrite Hlist. cbn [files trace]. rewrite Hlist.
    eexists; eexists; split; [reflexivity | left; reflexivity].
Qed.

(** One step of the inner loop of [batch_process] *)
Lemma run_operation_outcome (output_dir filename : string) (op : operation)
    (current_input : option string) (w : world) :
  exists r w',
    run_operation output_dir filename op current_input w = (r, w') /\
    ((recognised op = false /\ r = Return current_input /\ w' = w)
     \/ (recognised op = true /\
         ends_as current_input (operation_output output_dir filename op) r)).
Proof.
  unfold run_operation, recognised, operation_output. cbn [existsb].
  destruct (is_type op "trim").
  { destruct (trim_video_outcome current_input
                (os_path_join output_dir
                   (fst (os_path_splitext filename) +++ "_trimmed"
                    +++ snd (os_path_splitext filename)))
                (dict_get op "start_time" "0") (dict_lookup op "duration") w)
      as (r & w' & E & Hr).
    exists r, w'. split; [exact E|]. right. split; [reflexivity|]. exact Hr. }
  destruct (is_type op "watermark").
  { destruct (add_watermark_outcome current_input (dict_get op "text" "")
                (os_path_join output_dir
                   (fst (os_path_splitext filename) +++ "_watermarked"
                    +++ snd (os_path_splitext filename)))
                (dict_get op "position" "bottomright") (dict_get op "fontsize" "24") w)
      as (r & w' & E & Hr).
    exists r, w'. split; [exact E|]. right. split; [reflexivity|]. exact Hr. }
  destruct (is_type op "intro").
  { destruct (add_intro_outcome current_input (dict_get op "intro_path" "")
                (os_path_join output_dir
                   (fst (os_path_splitext filename) +++ "_with_intro"
                    +++ snd (os_path_splitext filename))) w)
      as (r & w' & E & Hr).
    exists r, w'. split; [exact E|]. right. split; [reflexivity|]. exact Hr. }
  destruct (is_type op "convert").
  { destruct (convert_format_outcome current_input (dict_get op "format" "mp4")
                (os_path_join output_dir
                   (fst (os_path_splitext filename) +++ "."
                    +++ dict_get op "format" "mp4")) w)
      as (r & w' & E & Hr).
    exists r, w'. split; [exact E|]. right. split; [reflexivity|]. exact Hr. }
  destruct (is_type op "resize").
  { destruct (resize_for_platform_outcome current_input
                (dict_get op "platform" "youtube")
                (os_path_join output_dir
                   (fst (os_path_splitext filename) +++ "_for_"
                    +++ dict_get op "platform" "youtube"
                    +++ snd (os_path_splitext filename))) w)
      as (r & w' & E & Hr).
    exists r, w'. split; [exact E|]. right. split; [reflexivity|]. exact Hr. }
  exists (Return current_input), w. split; [reflexivity|]. left. auto.
Qed.

(** The inner loop: with no known operation the input comes out untouched;
    otherwise what comes out is nothing, the output path of the last known
    operation, or a [TypeError]. *)
Lemma run_operations_outcome (output_dir filename : string) (ops : list operation) :
  forall (current_input : option string) (w : world),
  exists r w',
    run_operations output_dir filename ops current_input w = (r, w') /\
    match last_recognised ops with
    | None => r = Return current_input /\ w' = w
    | Some op =>
        r = Return None
        \/ r = Return (Some (operation_output output_dir filename op))
        \/ r = Raise TypeError
    end.
Proof.
  induction ops as [|op rest IH]; intros current_input w.
  - exists (Return current_input), w. split; [reflexivity|]. cbn. auto.
  - cbn [run_operations last_recognised]. unfold bind at 1.
    destruct (run_operation_outcome output_dir filename op current_input w)
      as (r & w1 & E & Hr).
    rewrite E.
    destruct Hr as [(Hno & -> & ->) | (Hyes & Hr)].
    + destruct (IH current_input w) as (r' & w' & E' & Hr').
      exists r', w'. split; [exact E'|]. rewrite Hno.
      destruct (last_recognised rest); exact Hr'.
    + rewrite Hyes.
      destruct Hr as [-> | [-> | [_ ->]]].
      * destruct (IH None w1) as (r' & w' & E' & Hr').
        exists r', w'. split; [exact E'|].
        destruct (last_recognised rest); [exact Hr'|].
        destruct Hr' as [-> _]. left. reflexivity.
      * destruct (IH (Some (operation_output output_dir filename op)) w1)
          as (r' & w' & E' & Hr').
        exists r', w'. split; [exact E'|].
        destruct (last_recognised rest); [exact Hr'|].
        destruct Hr' as [-> _]. right. left. reflexivity.
      * exists (Raise TypeError), w1. split; [reflexivity|].
        destruct (last_recognised rest); auto.
Qed.

Lemma last_recognised_none (ops : list operation) :
  last_recognised ops = None <-> forallb (fun op => negb (recognised op)) ops = true.
Proof.
  induction ops as [|op rest IH]; [cbn; tauto|].
  cbn [last_recognised forallb].
  destruct (last_recognised rest) as [later|].
  - split; [discriminate|]. intros Hall. apply andb_true_iff in Hall as [_ Hrest].
    apply IH in Hrest. discriminate Hrest.
  - destruct (recognised op); cbn [negb andb]; [split; discriminate|].
    split; [intros _; now apply IH | reflexivity].
Qed.

(* ------------------------------------------------------------------ *)
(** ** Batches *)

Lemma process_files_outcome (output_dir : string) (ops : list operation)
    (video_files : list string) :
  forall (processed_files : list string) (w : world),
  exists r w',
    process_files output_dir ops video_files processed_files w = (r, w') /\
    match r with
    | Return l =>
        exists chosen added,
          l = processed_files ++ added /\
          subsequence chosen video_files /\
          Forall2 (reported_for output_dir ops) chosen added
    | Raise e => e = TypeError
    end.
Proof.
  induction video_files as [|video_file rest IH]; intros processed_files w.
  - exists (Return processed_files), w. split; [reflexivity|].
    exists [], []. rewrite app_nil_r. repeat split; constructor.
  - cbn [process_files]. unfold bind at 1.
    destruct (run_operations_outcome output_dir (os_path_basename video_file) ops
                (Some video_file) w) as (r & w1 & E & Hr).
    rewrite E.
    assert (Hkeep : forall acc,
               acc = processed_files ->
               exists r' w',
                 process_files output_dir ops rest acc w1 = (r', w') /\
                 match r' with
                 | Return l =>
                     exists chosen added,
                       l = processed_files ++ added /\
                       subsequence chosen (video_file :: rest) /\
                       Forall2 (reported_for output_dir ops) chosen added
                 | Raise e => e = TypeError
                 end).
    { intros acc ->. destruct (IH processed_files w1) as (r' & w' & E' & Hr').
      exists r', w'. split; [exact E'|].
      destruct r' as [l|e]; [|exact Hr'].
      destruct Hr' as (chosen & added & -> & Hsub & Hall).
      exists chosen, added. split; [reflexivity|].
      split; [apply subsequence_skip, Hsub | exact Hall]. }
    destruct (last_recognised ops) as [op|] eqn:Hlast.
    + destruct Hr as [-> | [-> | ->]].
      * apply Hkeep. reflexivity.
      * destruct (completed (Some (operation_output output_dir
                                     (os_path_basename video_file) op)) video_file)
          eqn:Hdone; [|apply Hkeep; reflexivity].
        destruct (IH (processed_files
                      ++ [operation_output output_dir (os_path_basename video_file) op])
                    w1) as (r' & w' & E' & Hr').
        exists r', w'. split; [exact E'|].
        destruct r' as [l|e]; [|exact Hr'].
        destruct Hr' as (chosen & added & -> & Hsub & Hall).
        exists (video_file :: chosen),
               (operation_output output_dir (os_path_basename video_file) op :: added).
        rewrite <- app_assoc. split; [reflexivity|].
        split; [apply subsequence_keep, Hsub|].
        constructor; [|exact Hall].
        unfold completed in Hdone. apply andb_true_iff in Hdone as [Hne Hdiff].
        unfold nonempty in Hne.
        apply negb_true_iff, String.eqb_neq in Hne, Hdiff.
        split; [exact Hdiff|]. split; [exact Hne|].
        exists op. rewrite Hlast. split; reflexivity.
      * exists (Raise TypeError), w1. split; reflexivity.
    + destruct Hr as [-> ->]. apply Hkeep. unfold completed.
      rewrite String.eqb_refl. cbn [negb]. rewrite andb_false_r. reflexivity.
Qed.

Lemma Forall2_subsequence_length {A B : Type} (R : A -> B -> Prop)
    (chosen all : list A) (l : list B) :
  subsequence chosen all -> Forall2 R chosen l -> length l <= length all.
Proof.
  intros Hsub Hall. rewrite <- (Forall2_length Hall).
  clear Hall. induction Hsub; cbn [length]; lia.
Qed.

Lemma batch_process_outcome (input_dir : string)
    (ops : list operation) (output_dir : option string) (w : world) :
  let directory := match output_dir with
                   | Some o => o
                   | None => os_path_join input_dir "processed"
                   end in
  let started := World (directory :: files w) (trace w ++ [EvMakedirs directory]) in
  let video_files := flat_map (fun ext => path_glob started input_dir ("*" +++ ext))
                       video_extensions in
  exists r w',
    batch_process input_dir ops output_dir w = (r, w') /\
    match makedirs_error w directory with
    | Some kind => r = Raise (OSError kind) /\ w' = w
    | None =>
        match r with
        | Return processed =>
            (exists chosen,
               subsequence chosen video_files /\
               Forall2 (reported_for directory ops) chosen processed) /\
            length processed <= length video_files
        | Raise e => e = TypeError
        end
    end.
Proof.
  intros directory started video_files. unfold batch_process. fold directory.
  unfold bind at 1, os_makedirs.
  destruct (makedirs_error w directory) as [kind|].
  { eexists; eexists. split; [reflexivity|]. split; reflexivity. }
  fold started.
  unfold bind at 1, list_video_files. fold video_files.
  destruct (process_files_outcome directory ops video_files [] started)
    as (r & w' & E & Hr).
  exists r, w'. split; [exact E|].
  destruct r as [l|e]; [|exact Hr].
  destruct Hr as (chosen & added & -> & Hsub & Hall). cbn [app].
  split; [exists chosen; split; assumption|].
  exact (Forall2_subsequence_length _ _ _ _ Hsub Hall).
Qed.







(** *** With a string for its input an operation returns *)

Lemma trim_video_returns (video start_time : string) (duration output_path : option string)
    (w : world) :
  returns (trim_video (Some video) output_path start_time duration) w.
Proof.
  unfold returns. destruct (probe_ok w) eqn:Hprobe.
  - rewrite (trim_video_run video start_time duration output_path w Hprobe).
    unfold path_if_ok. destruct (Z.eqb _ 0); eauto.
  - unfold trim_video. rewrite with_ffmpeg, Hprobe. eauto.
Qed.

Lemma add_watermark_returns (video text position fontsize : string)
    (output_path : option string) (w : world) :
  returns (add_watermark (Some video) text output_path position fontsize) w.
Proof.
  unfold returns. destruct (probe_ok w) eqn:Hprobe.
  - rewrite (add_watermark_run video text position fontsize output_path w Hprobe).
    unfold path_if_ok. destruct (Z.eqb _ 0); eauto.
  - unfold add_watermark. rewrite with_ffmpeg, Hprobe. eauto.
Qed.

Lemma convert_format_returns (video output_format : string) (output_path : option string)
    (w : world) :
  returns (convert_format (Some video) output_format output_path) w.
Proof.
  unfold returns. destruct (probe_ok w) eqn:Hprobe.
  - rewrite (convert_format_run video output_format output_path w Hprobe).
    unfold path_if_ok. destruct (Z.eqb _ 0); eauto.
  - unfold convert_format. rewrite with_ffmpeg, Hprobe. eauto.
Qed.

Lemma resize_for_platform_returns (video platform : string) (output_path : option string)
    (w : world) :
  returns (resize_for_platform (Some video) platform output_path) w.
Proof.
  unfold returns. destruct (probe_ok w) eqn:Hprobe.
  - destruct (dict_lookup platform_settings (lower platform)) as [settings|] eqn:Hs.
    + rewrite (resize_for_platform_run video platform settings output_path w Hs Hprobe).
      unfold path_if_ok. destruct (Z.eqb _ 0); eauto.
    + unfold resize_for_platform. rewrite with_ffmpeg, Hprobe, Hs.
      eexists; eexists; reflexivity.
  - unfold resize_for_platform. rewrite with_ffmpeg, Hprobe. eauto.
Qed.

Lemma add_intro_explicit (video intro_path : string) (output_path : option string)
    (w : world) :
  add_intro (Some video) intro_path output_path w
  = add_intro (Some video) intro_path
      (Some (output_or_default output_path video "_with_intro")) w.
Proof. destruct output_path; reflexivity. Qed.

Lemma add_intro_returns (video intro_path : string) (output_path : option string)
    (w : world) :
  returns (add_intro (Some video) intro_path output_path) w.
Proof.
  unfold returns. rewrite add_intro_explicit.
  destruct (add_intro_outcome (Some video) intro_path
              (output_or_default output_path video "_with_intro") w)
    as (r & w' & E & [-> | [-> | [Hnone _]]]); [eauto | eauto | discriminate].
Qed.

End OperationFacts.

(* ------------------------------------------------------------------ *)
(** ** The command line of the processor *)

Section ProcessorFacts.
Context {H : Host}.
Variable os_path_isdir : world -> string -> bool.
Variable load_config : world -> string -> option Processor.config_file.
Import Processor.

Lemma process_single_file_returns (args : arguments) (input_path : string)
    (output_path : option string) (w : world) :
  exists w', process_single_file args input_path output_path w = (Return tt, w').
Proof.
  unfold process_single_file.
  destruct (is_operation args "trim").
  { destruct (trim_video_returns input_path (start args) (duration args) output_path w)
      as (r & w' & E).
    unfold bind. rewrite E. eexists; reflexivity. }
  destruct (is_operation args "watermark").
  { destruct (add_watermark_returns input_path (text args) (position args)
                (fontsize args) output_path w) as (r & w' & E).
    unfold bind. rewrite E. eexists; reflexivity. }
  destruct (is_operation args "intro").
  { destruct (add_intro_returns input_path (intro_file args) output_path w)
      as (r & w' & E).
    unfold bind. rewrite E. eexists; reflexivity. }
  destruct (is_operation args "convert").
  { destruct (convert_format_returns input_path (format args) output_path w)
      as (r & w' & E).
    unfold bind. rewrite E. eexists; reflexivity. }
  destruct (is_operation args "resize").
  { destruct (resize_for_platform_returns input_path (platform args) output_path w)
      as (r & w' & E).
    unfold bind. rewrite E. eexists; reflexivity. }
  eexists. reflexivity.
Qed.

Lemma process_each_returns (args : arguments) (output_dir : string)
    (video_files : list string) :
  forall w, exists w', process_each args output_dir video_files w = (Return tt, w').
Proof.
  induction video_files as [|video_file rest IH]; intros w; [eexists; reflexivity|].
  cbn [process_each]. unfold bind at 1.
  destruct (process_single_file_returns args video_file
              (Some (os_path_join output_dir (os_path_basename video_file))) w)
    as (w1 & E).
  rewrite E. apply IH.
Qed.

Lemma main_with_ffmpeg (args : arguments) (w : world) :
  main os_path_isdir load_config args w =
  if probe_ok w then
    (if is_operation args "batch-config" then main_batch_config load_config args
     else if batch args then main_batch os_path_isdir args
     else
       found <- os_path_exists (input args) ;;
       if negb found then
         (print ("Input file not found: " +++ input args) ;; raise (SystemExit 1))
       else process_single_file args (input args) (output args))%py (after_run w probe)
  else (Raise (SystemExit 1),
        after_events (after_run w probe) [EvPrint VideoProcessor.ffmpeg_missing_message]).
Proof.
  unfold main, bind at 1. rewrite check_ffmpeg_run.
  destruct (probe_ok w); reflexivity.
Qed.

(** X9.  Without [ffmpeg] the processor prints the notice and exits with status 1,
    whatever it was asked to do: no file is looked at and nothing is
    written. *)
Theorem processor_exits_without_ffmpeg (args : arguments) (w : world) :
  probe_ok w = false ->
  main os_path_isdir load_config args w
  = (Raise (SystemExit 1),
     after_events (after_run w probe) [EvPrint VideoProcessor.ffmpeg_missing_message]).
Proof. intros Hprobe. rewrite main_with_ffmpeg, Hprobe. reflexivity. Qed.

(** X10.  In single-file mode the processor exits with status 1 when the input
    file is not there, and starts nothing for it.  When the file is there it
    runs the operation and returns normally, whether the operation gave an
    output or not: a failed transcoding does not change the exit status. *)
Theorem processor_single_file_exit (args : arguments) (w : world) :
  probe_ok w = true ->
  is_operation args "batch-config" = false ->
  batch args = false ->
  let started := after_run w probe in
  if path_exists_in (files started) (input args)
  then exists w',
         process_single_file args (input args) (output args) started = (Return tt, w') /\
         main os_path_isdir load_config args w = (Return tt, w')
  else main os_path_isdir load_config args w
       = (Raise (SystemExit 1),
          after_events started [EvPrint ("Input file not found: " +++ input args)]).
Proof.
  intros Hprobe Hconfig Hbatch started.
  rewrite main_with_ffmpeg, Hprobe, Hconfig, Hbatch. fold started.
  destruct (path_exists_in (files started) (input args)) eqn:Hfound.
  - destruct (process_single_file_returns args (input args) (output args) started)
      as (w' & E).
    exists w'. split; [exact E|].
    unfold bind at 1, os_path_exists. rewrite Hfound. exact E.
  - unfold bind at 1, os_path_exists. rewrite Hfound. reflexivity.
Qed.

Lemma main_batch_run (args : arguments) (w : world) :
  let output_dir := match output args with
                    | Some o => if nonempty o then o
                                else os_path_join (input args) "processed"
                    | None => os_path_join (input args) "processed"
                    end in
  let made := World (output_dir :: files w) (trace w ++ [EvMakedirs output_dir]) in
  let video_files :=
    flat_map (fun ext => path_glob made (input args) ("*" +++ ext))
      VideoProcessor.video_extensions in
  main_batch os_path_isdir args w =
  if os_path_isdir w (input args)
  then match makedirs_error w output_dir with
       | Some kind => (Raise (OSError kind), w)
       | None =>
           match process_each args output_dir video_files
                   (after_events made
                      [EvPrint ("Found " +++ str_int (Z.of_nat (length video_files))
                                +++ " video files")]) with
           | (Return _, w') =>
               (Raise (SystemExit 0),
                after_events w'
                  [EvPrint ("Batch processing complete. Processed files saved to: "
                            +++ output_dir)])
           | (Raise e, w') => (Raise e, w')
           end
       end
  else (Raise (SystemExit 1),
        after_events w
          [EvPrint ("Input must be a directory for batch processing: "
                    +++ input args)]).
Proof.
  intros output_dir made video_files.
  unfold main_batch, bind at 1.
  destruct (os_path_isdir w (input args)); [|reflexivity].
  cbn [negb]. fold output_dir.
  unfold bind at 1, os_makedirs.
  destruct (makedirs_error w output_dir); [reflexivity|]. fold made.
  unfold bind at 1, VideoProcessor.list_video_files. fold video_files.
  unfold bind at 1. rewrite print_run.
  unfold bind at 1.
  destruct (process_each args output_dir video_files _) as [[[]|e] w']; reflexivity.
Qed.

(** A trim, a watermark or a conversion of one file, with [ffmpeg] there:
    the probe, the job, one line. *)
Lemma process_single_file_job (args : arguments) (video out : string) (w : world) :
  probe_ok w = true ->
  existsb (is_operation args) ["trim"; "watermark"; "convert"] = true ->
  exists line,
    process_single_file args video (Some out) w
    = (Return tt,
       after_events (after_run (after_run w probe) (single_file_job args video out))
         [EvPrint line]).
Proof.
  intros Hprobe Hop. unfold process_single_file, single_file_job.
  cbn [existsb] in Hop.
  destruct (is_operation args "trim") eqn:Htrim.
  { unfold bind.
    rewrite (trim_video_run video (start args) (duration args) (Some out) w Hprobe).
    cbv zeta. cbn [output_or_default]. unfold path_if_ok.
    destruct (Z.eqb _ 0); eexists; reflexivity. }
  destruct (is_operation args "watermark") eqn:Hmark.
  { unfold bind.
    rewrite (add_watermark_run video (text args) (position args) (fontsize args)
               (Some out) w Hprobe).
    cbv zeta. cbn [output_or_default]. unfold path_if_ok.
    destruct (Z.eqb _ 0); eexists; reflexivity. }
  cbn [orb] in Hop. rewrite orb_false_r in Hop.
  assert (Hintro : is_operation args "intro" = false).
  { unfold is_operation in *. destruct (operation args) as [o|]; [|reflexivity].
    apply String.eqb_eq in Hop. subst o. reflexivity. }
  rewrite Hintro, Hop. unfold bind.
  rewrite (convert_format_run video (format args) (Some out) w Hprobe).
  cbv zeta. unfold path_if_ok.
  destruct (Z.eqb _ 0); eexists; reflexivity.
Qed.

(** The processes of the loop over the videos: for each video in turn, the
    probe and the job on that video, into the output directory under the
    base name of the video. *)
Lemma process_each_jobs (args : arguments) (output_dir : string) :
  (forall w0, probe_ok w0 = true) ->
  existsb (is_operation args) ["trim"; "watermark"; "convert"] = true ->
  forall (video_files : list string) (w : world),
  exists added w',
    process_each args output_dir video_files w = (Return tt, w') /\
    trace w' = trace w ++ added /\
    filter is_run added
    = flat_map (fun video =>
                  [EvRun probe;
                   EvRun (single_file_job args video
                            (os_path_join output_dir (os_path_basename video)))])
        video_files.
Proof.
  intros Hprobe Hop.
  induction video_files as [|video_file rest IH]; intros w.
  - exists [], w. rewrite app_nil_r. repeat split.
  - cbn [process_each]. unfold bind at 1.
    destruct (process_single_file_job args video_file
                (os_path_join output_dir (os_path_basename video_file)) w
                (Hprobe w) Hop) as (line & E).
    rewrite E.
    match goal with
    | |- context [process_each args output_dir rest ?w1] =>
        destruct (IH w1) as (added & w' & E' & Htrace & Hruns)
    end.
    eexists; exists w'. split; [exact E'|]. split.
    + rewrite Htrace. unfold after_events, after_run. cbn [trace].
      rewrite <- !app_assoc. reflexivity.
    + cbn [app filter is_run flat_map]. rewrite Hruns. reflexivity.
Qed.

(** X11.  With [--batch] the processor exits with status 1 when the input is not a
    directory.  When it is and [os.makedirs] fails on the output directory,
    its error leaves [main] uncaught.  Otherwise the run ends with exit
    status 0 whatever became of the single files.  For a trim, a watermark or
    a conversion, on a host where the probe of [ffmpeg] always succeeds, what
    happens between the line that counts the videos and the closing line has
    as its processes, for every video found and in the order found, the probe
    and the job on that video into the output directory under the base name
    of the video. *)
Theorem processor_batch_exit (args : arguments) (w : world) :
  probe_ok w = true ->
  is_operation args "batch-config" = false ->
  batch args = true ->
  let started := after_run w probe in
  let output_dir := match output args with
                    | Some o => if nonempty o then o
                                else os_path_join (input args) "processed"
                    | None => os_path_join (input args) "processed"
                    end in
  let made := World (output_dir :: files started)
                    (trace started ++ [EvMakedirs output_dir]) in
  let video_files :=
    flat_map (fun ext => path_glob made (input args) ("*" +++ ext))
      VideoProcessor.video_extensions in
  if os_path_isdir started (input args)
  then match makedirs_error started output_dir with
       | Some kind =>
           main os_path_isdir load_config args w = (Raise (OSError kind), started)
       | None =>
           exists w',
             main os_path_isdir load_config args w = (Raise (SystemExit 0), w') /\
             ((forall w0, probe_ok w0 = true) ->
              existsb (is_operation args) ["trim"; "watermark"; "convert"] = true ->
              exists added,
                trace w'
                = trace made
                  ++ [EvPrint ("Found " +++ str_int (Z.of_nat (length video_files))
                               +++ " video files")]
                  ++ added
                  ++ [EvPrint ("Batch processing complete. Processed files saved to: "
                               +++ output_dir)] /\
                filter is_run added
                = flat_map
                    (fun video =>
                       [EvRun probe;
                        EvRun (single_file_job args video
                                 (os_path_join output_dir (os_path_basename video)))])
                    video_files)
       end
  else main os_path_isdir load_config args w
       = (Raise (SystemExit 1),
          after_events started
            [EvPrint ("Input must be a directory for batch processing: "
                      +++ input args)]).
Proof.
  intros Hprobe Hconfig Hbatch started output_dir made video_files.
  rewrite main_with_ffmpeg, Hprobe, Hconfig, Hbatch. fold started.
  rewrite main_batch_run. fold output_dir made video_files.
  destruct (os_path_isdir started (input args)); [|reflexivity].
  destruct (makedirs_error started output_dir); [reflexivity|].
  set (found := after_events made _).
  destruct (process_each_returns args output_dir video_files found) as (w1 & E).
  rewrite E. eexists. split; [reflexivity|].
  intros Hall Hop.
  destruct (process_each_jobs args output_dir Hall Hop video_files found)
    as (added & w2 & E2 & Htrace & Hruns).
  rewrite E in E2. injection E2 as <-.
  exists added. split; [|exact Hruns].
  unfold after_events at 1. cbn [trace]. rewrite Htrace.
  unfold found, after_events. cbn [trace]. rewrite <- !app_assoc. reflexivity.
Qed.

(** X12.  The [batch-config] operation always ends in an exit, never in a
    traceback: with status 0 when the config file is there, is read, and
    [batch_process] returns, and with status 1 in every other case, the
    [TypeError] of a broken chain among them. *)
Theorem processor_batch_config_exit (args : arguments) (w : world) :
  probe_ok w = true ->
  is_operation args "batch-config" = true ->
  let started := after_run w probe in
  exists code w',
    main os_path_isdir load_config args w = (Raise (SystemExit code), w') /\
    (code = 0 \/ code = 1)%Z /\
    (code = 0%Z <->
     path_exists_in (files started) (config args) = true /\
     exists cfg processed w1,
       load_config started (config args) = Some cfg /\
       VideoProcessor.batch_process
         (match config_input_dir cfg with Some d => d | None => input args end)
         (match config_operations cfg with Some l => l | None => [] end)
         (match config_output_dir cfg with Some d => Some d | None => output args end)
         started
       = (Return processed, w1)).
Proof.
  intros Hprobe Hconfig started.
  rewrite main_with_ffmpeg, Hprobe, Hconfig. fold started.
  unfold main_batch_config, bind at 1, os_path_exists.
  destruct (path_exists_in (files started) (config args)); cbn [negb].
  2:{ exists 1%Z. eexists. split; [reflexivity|]. split; [auto|].
      split; [discriminate | intros [E _]; discriminate E]. }
  unfold bind at 1.
  destruct (load_config started (config args)) as [cfg|].
  2:{ exists 1%Z. eexists. split; [reflexivity|]. split; [auto|].
      split; [discriminate | intros (_ & cfg & l & w1 & E & _); discriminate E]. }
  unfold try_except, bind at 1.
  destruct (batch_process_outcome
              (match config_input_dir cfg with Some d => d | None => input args end)
              (match config_operations cfg with Some l => l | None => [] end)
              (match config_output_dir cfg with Some d => Some d | None => output args end)
              started) as (r & w1 & E & Hr).
  rewrite E. destruct r as [processed|e].
  - exists 0%Z. eexists. split; [reflexivity|]. split; [auto|].
    split; [|reflexivity]. intros _. split; [reflexivity|].
    exists cfg, processed, w1. auto.
  - assert (He : is_Exception e = true).
    { destruct (makedirs_error _ _);
        [destruct Hr as [Hr _]; injection Hr as ->; reflexivity
        | subst e; reflexivity]. }
    rewrite He.
    exists 1%Z. eexists. split; [reflexivity|]. split; [auto|].
    split; [discriminate|].
    intros (_ & cfg' & l & w1' & Ecfg & E'). injection Ecfg as <-.
    rewrite E in E'. discriminate E'.
Qed.


Lemma process_each_any_format (args : arguments) (output_format output_dir : string)
    (video_files : list string) :
  is_operation args "convert" = true ->
  forall w,
    process_each (with_format args output_format) output_dir video_files w
    = process_each args output_dir video_files w.
Proof.
  intros Hconvert. induction video_files as [|video_file rest IH]; intros w;
    [reflexivity|].
  cbn [process_each]. unfold bind at 1 2.
  assert (Hop : forall name, is_operation (with_format args output_format) name
                             = is_operation args name) by reflexivity.
  assert (Hnot : forall name, name <> "convert" -> is_operation args name = false).
  { intros name Hname. unfold is_operation in *.
    destruct (operation args) as [o|]; [|reflexivity].
    apply String.eqb_eq in Hconvert. subst o.
    apply String.eqb_neq. congruence. }
  assert (Hfile : forall v out w0,
             process_single_file (with_format args output_format) v (Some out) w0
             = process_single_file args v (Some out) w0).
  { intros v out w0. unfold process_single_file. rewrite !Hop.
    rewrite (Hnot "trim"), (Hnot "watermark"), (Hnot "intro") by discriminate.
    rewrite Hconvert. reflexivity. }
  rewrite Hfile.
  destruct (process_single_file args video_file
              (Some (os_path_join output_dir (os_path_basename video_file))) w)
    as [[[]|e] w1]; [apply IH | reflexivity].
Qed.

(** X13.  With [--batch] a conversion does not look at [--format]: each video is
    converted into the output directory under its own base name, extension
    included, and the whole run is the same for every format asked for. *)
Theorem batch_conversion_ignores_the_format (args : arguments)
    (output_format : string) (w : world) :
  batch args = true ->
  is_operation args "convert" = true ->
  main os_path_isdir load_config (with_format args output_format) w
  = main os_path_isdir load_config args w.
Proof.
  intros Hbatch Hconvert. rewrite !main_with_ffmpeg.
  destruct (probe_ok w); [|reflexivity].
  assert (Hconfig : is_operation args "batch-config" = false).
  { unfold is_operation in *. destruct (operation args) as [o|]; [|reflexivity].
    apply String.eqb_eq in Hconvert. subst o. reflexivity. }
  change (is_operation (with_format args output_format) "batch-config")
    with (is_operation args "batch-config").
  change (batch (with_format args output_format)) with (batch args).
  rewrite Hconfig, Hbatch, !main_batch_run.
  change (input (with_format args output_format)) with (input args).
  change (output (with_format args output_format)) with (output args).
  rewrite (process_each_any_format args output_format _ _ Hconvert).
  reflexivity.
Qed.

End ProcessorFacts.

(* ------------------------------------------------------------------ *)
(** ** More on the Downloader *)

Section DownloaderMoreFacts.
Context {H : Host}.

Lemma downloaded_without_run (w : world) (events : list event) :
  existsb is_run events = false ->
  downloaded w None (after_events w events).
Proof.
  intros Hev. split; [|split].
  - unfold after_events. cbn [trace]. rewrite runs_app.
    assert (runs events = 0).
    { unfold runs. induction events as [|e r IH]; [reflexivity|].
      cbn [existsb] in Hev. apply orb_false_iff in Hev as [He Hr].
      cbn [filter]. rewrite He. apply IH, Hr. }
    lia.
  - intros p Hp. exact Hp.
  - intros p E. discriminate E.
Qed.

Lemma cli_download_clip_outcome (clip : clip) (output_dir output_format : string)
    (w : world) :
  exists r w',
    Cli.download_clip clip output_dir output_format w = (Return r, w') /\
    downloaded w r w'.
Proof.
  unfold Cli.download_clip, try_except.
  destruct (truthy (url clip)) eqn:Htruthy; cbn [negb].
  2:{ unfold bind. rewrite print_run. eexists; eexists. split; [reflexivity|].
      apply downloaded_without_run. reflexivity. }
  destruct (title clip) as [| | | |t| |] eqn:Ht;
    try (unfold bind at 1; cbn [sanitize_title raise is_Exception];
         unfold bind; rewrite print_run; eexists; eexists; split; [reflexivity|];
         apply downloaded_without_run; reflexivity).
  unfold bind at 1. cbn [sanitize_title ret].
  unfold bind at 1, os_path_exists.
  fold (destination clip t output_dir output_format).
  set (dest := destination clip t output_dir output_format).
  destruct (path_exists_in (files w) dest) eqn:Hex.
  { unfold bind. rewrite print_run. eexists; eexists. split; [reflexivity|].
    split; [|split].
    - unfold after_events. cbn [trace]. rewrite runs_app. unfold runs at 2. simpl. lia.
    - intros p Hp. exact Hp.
    - intros p E. injection E as <-. exact Hex. }
  unfold bind at 1. rewrite print_run. cbn [py_str].
  set (asked := after_events w [EvPrint ("Downloading: " +++ t)]).
  unfold bind at 1, subprocess_run. cbn [Cli.download_command all_str].
  destruct (as_arg (url clip)) as [u|] eqn:Hu.
  2:{ cbn [is_Exception]. unfold bind. rewrite print_run.
      eexists; eexists. split; [reflexivity|].
      split; [|split].
      - unfold asked, after_events. cbn [trace]. rewrite !runs_app. unfold runs. simpl. lia.
      - intros p Hp. exact Hp.
      - intros p E. discriminate E. }
  fold (download_argv dest u). set (argv := download_argv dest u).
  fold (after_run asked argv). set (done := after_run asked argv).
  assert (Hruns : runs (trace done) = runs (trace w) + 1).
  { unfold done, after_run, asked, after_events. cbn [trace].
    rewrite !runs_app. unfold runs. simpl. lia. }
  assert (Hkept : forall p, path_exists_in (files w) p = true ->
                            path_exists_in (files done) p = true).
  { intros p Hp. unfold done, after_run. cbn [files].
    rewrite path_exists_in_app. unfold asked. rewrite files_after_events, Hp.
    apply orb_true_r. }
  destruct (Z.eqb (returncode (run_process asked argv)) 0); cbn [negb].
  2:{ unfold bind. rewrite print_run. eexists; eexists. split; [reflexivity|].
      split; [|split].
      - unfold after_events. cbn [trace]. rewrite runs_app, Hruns. unfold runs at 2.
        simpl. lia.
      - exact Hkept.
      - intros p E. discriminate E. }
  unfold bind at 1, os_path_exists.
  destruct (path_exists_in (files done) dest) eqn:Hnow; cbn [negb];
    unfold bind; rewrite print_run; eexists; eexists; (split; [reflexivity|]);
    (split; [|split]).
  - unfold after_events. cbn [trace]. rewrite runs_app, Hruns. unfold runs at 2.
    simpl. lia.
  - exact Hkept.
  - intros p E. injection E as <-. exact Hnow.
  - unfold after_events. cbn [trace]. rewrite runs_app, Hruns. unfold runs at 2.
    simpl. lia.
  - exact Hkept.
  - intros p E. discriminate E.
Qed.


Lemma downloaded_with_log (w : world) (message : string) :
  downloaded w None (logged w message).
Proof. apply (downloaded_without_run w [EvPrint _]). reflexivity. Qed.

Lemma gui_download_clip_outcome (self : Gui.gui) (clip : clip)
    (output_dir output_format : string) (w : world) :
  exists r w',
    Gui.download_clip self clip output_dir output_format w = (Return r, w') /\
    downloaded w r w'.
Proof.
  unfold Gui.download_clip, try_except.
  destruct (truthy (url clip)) eqn:Htruthy; cbn [negb].
  2:{ unfold bind. rewrite log_run. eexists; eexists. split; [reflexivity|].
      apply downloaded_with_log. }
  destruct (title clip) as [| | | |t| |] eqn:Ht;
    try (unfold bind at 1; cbn [sanitize_title raise is_Exception];
         unfold bind; rewrite log_run; eexists; eexists; split; [reflexivity|];
         apply downloaded_with_log).
  unfold bind at 1. cbn [sanitize_title ret].
  unfold bind at 1, os_path_exists.
  fold (destination clip t output_dir output_format).
  set (dest := destination clip t output_dir output_format).
  destruct (path_exists_in (files w) dest) eqn:Hex.
  { unfold bind. rewrite log_run. eexists; eexists. split; [reflexivity|].
    split; [|split].
    - unfold logged, after_events. cbn [trace]. rewrite runs_app. unfold runs at 2.
      simpl. lia.
    - intros p Hp. exact Hp.
    - intros p E. injection E as <-. exact Hex. }
  unfold bind at 1. rewrite log_run. cbn [py_str].
  set (asked := logged w ("Downloading: " +++ t)).
  assert (Hasked : runs (trace asked) = runs (trace w)).
  { unfold asked, logged, after_events. cbn [trace]. rewrite runs_app. unfold runs at 2.
    simpl. lia. }
  unfold bind at 1, subprocess_run.
  destruct (url clip) as [| | | |u| |] eqn:Hu;
    try (cbn [Gui.download_command as_arg all_str app is_Exception];
         unfold bind; rewrite log_run; eexists; eexists; split; [reflexivity|];
         split; [|split];
         [ unfold logged at 1, after_events; cbn [trace]; rewrite runs_app, Hasked;
           unfold runs at 2; simpl; lia
         | intros p Hp; exact Hp
         | intros p E; discriminate E ]).
  rewrite gui_download_command_argv.
  set (argv := gui_download_argv self dest u).
  fold (after_run asked argv). set (done := after_run asked argv).
  assert (Hruns : runs (trace done) = runs (trace w) + 1).
  { unfold done, after_run. cbn [trace]. rewrite runs_app, Hasked. unfold runs at 2.
    simpl. lia. }
  assert (Hkept : forall p, path_exists_in (files w) p = true ->
                            path_exists_in (files done) p = true).
  { intros p Hp. unfold done, after_run. cbn [files].
    rewrite path_exists_in_app. unfold asked. rewrite files_logged, Hp.
    apply orb_true_r. }
  assert (Hlogged : forall message, runs (trace (logged done message))
                                    <= runs (trace w) + 1).
  { intros message. unfold logged, after_events. cbn [trace].
    rewrite runs_app, Hruns. unfold runs at 2. simpl. lia. }
  destruct (Z.eqb (returncode (run_process asked argv)) 0); cbn [negb].
  2:{ unfold bind. rewrite log_run. eexists; eexists. split; [reflexivity|].
      split; [apply Hlogged | split; [exact Hkept | intros p E; discriminate E]]. }
  unfold bind at 1, os_path_exists.
  destruct (path_exists_in (files done) dest) eqn:Hnow; cbn [negb];
    unfold bind; rewrite log_run; eexists; eexists; (split; [reflexivity|]);
    (split; [apply Hlogged | split; [exact Hkept|]]).
  - intros p E. injection E as <-. exact Hnow.
  - intros p E. discriminate E.
Qed.

(** X14.  Whatever the clip holds, [download_clip] returns and does not raise, on
    the command line and in the GUI: it starts one process at most, removes
    no file, and a path it returns is the path of a file that exists. *)
Theorem download_clip_returns_existing_paths (self : Gui.gui) (clip : clip)
    (output_dir output_format : string) (w : world) :
  (exists r w',
     Cli.download_clip clip output_dir output_format w = (Return r, w') /\
     runs (trace w') <= runs (trace w) + 1 /\
     (forall p, path_exists_in (files w) p = true -> path_exists_in (files w') p = true) /\
     (forall p, r = Some p -> path_exists_in (files w') p = true))
  /\
  (exists r w',
     Gui.download_clip self clip output_dir output_format w = (Return r, w') /\
     runs (trace w') <= runs (trace w) + 1 /\
     (forall p, path_exists_in (files w) p = true -> path_exists_in (files w') p = true) /\
     (forall p, r = Some p -> path_exists_in (files w') p = true)).
Proof.
  split.
  - apply cli_download_clip_outcome.
  - apply gui_download_clip_outcome.
Qed.

(** X15.  A clip without a URL, and a clip whose title is not a string, are not
    downloaded: [download_clip] prints why, returns [None] and starts no
    process. *)
Theorem download_needs_url_and_title (self : Gui.gui) (clip : clip)
    (output_dir output_format : string) (w : world) :
  truthy (url clip) = false \/ (forall t, title clip <> PStr t) ->
  let line := if truthy (url clip)
              then "Error downloading clip: " +++ str_exn TypeError
              else "Error: No URL for clip " +++ py_str (title clip) in
  Cli.download_clip clip output_dir output_format w
  = (Return None, after_events w [EvPrint line]) /\
  Gui.download_clip self clip output_dir output_format w
  = (Return None, logged w line).
Proof.
  intros Hclip line. unfold Cli.download_clip, Gui.download_clip, try_except.
  subst line. destruct (truthy (url clip)); cbn [negb].
  2:{ split; reflexivity. }
  destruct Hclip as [Hclip|Hclip]; [discriminate|].
  destruct (title clip) as [| | | |t| |]; try (split; reflexivity).
  exfalso. apply (Hclip t). reflexivity.
Qed.


Lemma cli_download_clip_path (clip : clip) (u t output_dir output_format p : string)
    (w w1 : world) :
  url clip = PStr u -> u <> "" -> title clip = PStr t ->
  Cli.download_clip clip output_dir output_format w = (Return (Some p), w1) ->
  p = destination clip t output_dir output_format /\
  path_exists_in (files w1) p = true.
Proof.
  intros Hu Hne Ht.
  rewrite (cli_download_clip_run clip u t output_dir output_format w Hu Hne Ht).
  cbv zeta.
  destruct (path_exists_in (files w) _) eqn:Hex.
  - intros E. injection E as <- <-. split; [reflexivity | exact Hex].
  - match goal with |- (if ?c then _ else _) = _ -> _ => destruct c end;
      [|intros E; discriminate E].
    match goal with |- (if ?c then _ else _) = _ -> _ => destruct c eqn:Hnow end;
      [|intros E; discriminate E].
    intros E. injection E as <- <-. split; [reflexivity | exact Hnow].
Qed.

(** X16.  Two clips of one broadcaster whose titles differ only in characters that
    [sanitize] replaces have one destination.  Once the first is downloaded,
    the second is taken for downloaded: [download_clip] returns the file of
    the first for it and starts no process. *)
Theorem same_name_clips_collide (first second : clip)
    (u1 u2 t1 t2 output_dir output_format p : string) (w w1 : world) :
  url first = PStr u1 -> u1 <> "" -> title first = PStr t1 ->
  url second = PStr u2 -> u2 <> "" -> title second = PStr t2 ->
  broadcaster_name first = broadcaster_name second ->
  sanitize t1 = sanitize t2 ->
  Cli.download_clip first output_dir output_format w = (Return (Some p), w1) ->
  Cli.download_clip second output_dir output_format w1
  = (Return (Some p), after_events w1 [EvPrint ("Clip already exists: " +++ p)]).
Proof.
  intros Hu1 Hne1 Ht1 Hu2 Hne2 Ht2 Hname Htitle Hfirst.
  destruct (cli_download_clip_path first u1 t1 output_dir output_format p w w1
              Hu1 Hne1 Ht1 Hfirst) as [Hp Hthere].
  assert (Hsame : destination second t2 output_dir output_format = p).
  { rewrite Hp. unfold destination. rewrite Hname, Htitle. reflexivity. }
  rewrite (cli_download_clip_run second u2 t2 output_dir output_format w1 Hu2 Hne2 Ht2).
  cbv zeta. rewrite Hsame, Hthere. reflexivity.
Qed.

(** *** The metadata file *)

Lemma has_dot_app (stem ext : string) :
  existsb (Ascii.eqb ".") (list_ascii_of_string (stem +++ "." +++ ext)) = true.
Proof.
  induction stem as [|c r IH]; simpl in *; [reflexivity | rewrite IH; apply orb_true_r].
Qed.

Lemma rsplit_dot_head_app (stem ext : string) :
  existsb (Ascii.eqb ".") (list_ascii_of_string ext) = false ->
  rsplit_dot_head (stem +++ "." +++ ext) = stem.
Proof.
  intros Hext. induction stem as [|c r IH].
  - simpl. rewrite Hext. reflexivity.
  - change (String c r +++ "." +++ ext) with (String c (r +++ "." +++ ext)).
    cbn [rsplit_dot_head]. rewrite has_dot_app, IH. reflexivity.
Qed.

Lemma cli_create_metadata_file_run (clip : clip) (video_path output_format : string)
    (w : world) :
  let path := rsplit_dot_head video_path +++ "." +++ output_format in
  Cli.create_metadata_file clip video_path output_format w
  = (Return (Some path),
     World (path :: files w)
       (trace w ++ [ EvOpenW path;
                     EvWrite path (json_dumps (metadata_of clip (clock w)));
                     EvPrint ("Created metadata file: " +++ path) ])).
Proof.
  intros path. unfold Cli.create_metadata_file, try_except. fold path.
  unfold bind, datetime_now, open_w, file_write, print, emit, ret. cbn [files trace].
  now rewrite <- !app_assoc.
Qed.

Lemma gui_create_metadata_file_run (clip : clip) (video_path : string) (w : world) :
  let path := rsplit_dot_head video_path +++ ".json" in
  Gui.create_metadata_file clip video_path w
  = (Return (Some path),
     logged
       (World (path :: files w)
          (trace w ++ [ EvOpenW path;
                        EvWrite path (json_dumps (metadata_of clip (clock w))) ]))
       ("Created metadata file: " +++ path)).
Proof.
  intros path. unfold Gui.create_metadata_file, try_except. fold path.
  unfold bind at 1, datetime_now. unfold bind at 1, open_w.
  unfold bind at 1, file_write, emit. cbn [files trace].
  unfold bind at 1. rewrite log_run. unfold ret.
  now rewrite <- !app_assoc.
Qed.

(** X17.  The metadata of the video [stem.ext], where [ext] has no dot in it, goes
    to [stem.json] beside it, on the command line and in the GUI: the file is
    opened for writing, the JSON text of the metadata is written to it once,
    and its path is returned. *)
Theorem metadata_beside_the_video (clip : clip) (stem ext : string) (w : world) :
  existsb (Ascii.eqb ".") (list_ascii_of_string ext) = false ->
  let path := stem +++ ".json" in
  let written :=
    World (path :: files w)
      (trace w ++ [ EvOpenW path;
                    EvWrite path (json_dumps (metadata_of clip (clock w))) ]) in
  Cli.create_metadata_file clip (stem +++ "." +++ ext) "json" w
  = (Return (Some path),
     after_events written [EvPrint ("Created metadata file: " +++ path)]) /\
  Gui.create_metadata_file clip (stem +++ "." +++ ext) w
  = (Return (Some path), logged written ("Created metadata file: " +++ path)).
Proof.
  intros Hext path written. split.
  - rewrite cli_create_metadata_file_run, (rsplit_dot_head_app stem ext Hext).
    unfold after_events, written. cbn [files trace]. now rewrite <- !app_assoc.
  - rewrite gui_create_metadata_file_run, (rsplit_dot_head_app stem ext Hext).
    reflexivity.
Qed.


(** *** The download loop *)

Lemma runs_after_print (w : world) (line : string) :
  runs (trace (after_events w [EvPrint line])) = runs (trace w).
Proof. unfold after_events. cbn [trace]. rewrite runs_app. unfold runs at 2. simpl. lia. Qed.

Lemma runs_logged (w : world) (message : string) :
  runs (trace (logged w message)) = runs (trace w).
Proof. apply runs_after_print. Qed.

Lemma cli_download_all_outcome (args : Cli.arguments) (total : nat)
    (clips : list clip) :
  forall (i : Z) (downloaded_clips : list (clip * string)) (w : world),
  exists added w',
    Cli.download_all args total i clips downloaded_clips w
    = (Return (downloaded_clips ++ added), w') /\
    subsequence (map fst added) clips /\
    Forall (fun cp => nonempty (snd cp) = true /\
                      path_exists_in (files w') (snd cp) = true) added /\
    runs (trace w') <= runs (trace w) + length clips /\
    (forall p, path_exists_in (files w) p = true -> path_exists_in (files w') p = true).
Proof.
  induction clips as [|clip rest IH]; intros i acc w.
  - exists [], w. rewrite app_nil_r. cbn [length map].
    repeat split; [constructor | constructor | lia | auto].
  - cbn [Cli.download_all].
    unfold bind at 1. rewrite print_run.
    unfold bind at 1. rewrite print_run.
    unfold bind at 1. rewrite print_run.
    unfold bind at 1.
    match goal with
    | |- context [Cli.download_clip clip _ _ ?w0] => set (w3 := w0)
    end.
    assert (Hruns3 : runs (trace w3) = runs (trace w))
      by (unfold w3; now rewrite !runs_after_print).
    assert (Hfiles3 : files w3 = files w) by reflexivity.
    destruct (cli_download_clip_outcome clip (Cli.output_dir args) (Cli.format args) w3)
      as (r & w4 & E & Hruns4 & Hkept4 & Hthere4).
    rewrite E. rewrite Hruns3 in Hruns4. rewrite Hfiles3 in Hkept4.
    destruct r as [p|].
    2:{ destruct (IH (i + 1)%Z acc w4) as (added & w' & E' & Hsub & Hall & Hruns & Hkept).
        exists added, w'. split; [exact E'|]. cbn [length].
        repeat split; [constructor; exact Hsub | exact Hall | lia | auto]. }
    unfold bind at 1.
    assert (Hmeta : exists w5,
               (if andb (nonempty p) (Cli.metadata args)
                then (_ <- Cli.create_metadata_file clip p "json" ;; ret tt)
                else ret tt) w4 = (Return tt, w5) /\
               runs (trace w5) = runs (trace w4) /\
               (forall q, path_exists_in (files w4) q = true ->
                          path_exists_in (files w5) q = true)).
    { destruct (andb (nonempty p) (Cli.metadata args)).
      - unfold bind. rewrite cli_create_metadata_file_run. eexists.
        split; [reflexivity|]. split.
        + cbn [trace]. rewrite runs_app. unfold runs at 2. simpl. lia.
        + intros q Hq. cbn [files path_exists_in existsb].
          unfold path_exists_in in Hq. rewrite Hq. apply orb_true_r.
      - exists w4. repeat split; auto. }
    destruct Hmeta as (w5 & Emeta & Hruns5 & Hkept5). rewrite Emeta.
    destruct (nonempty p) eqn:Hp.
    + destruct (IH (i + 1)%Z (acc ++ [(clip, p)]) w5)
        as (added & w' & E' & Hsub & Hall & Hruns & Hkept).
      exists ((clip, p) :: added), w'. rewrite <- app_assoc in E'.
      split; [exact E'|]. cbn [length map fst].
      repeat split.
      * constructor; exact Hsub.
      * constructor; [|exact Hall]. cbn [snd]. split; [exact Hp|].
        apply Hkept, Hkept5, Hthere4. reflexivity.
      * lia.
      * auto.
    + destruct (IH (i + 1)%Z acc w5) as (added & w' & E' & Hsub & Hall & Hruns & Hkept).
      exists added, w'. split; [exact E'|]. cbn [length].
      repeat split; [constructor; exact Hsub | exact Hall | lia | auto].
Qed.

End DownloaderMoreFacts.

(* ------------------------------------------------------------------ *)
(** ** Dependencies, periods and the window *)

Section OrchestratorMoreFacts.
Context {H : Host}.

Lemma cli_check_dependencies_run (w : world) :
  Cli.check_dependencies w =
  if dependencies_ok w
  then (Return tt,
        after_events (after_run (ytdlp_found w) probe) [EvPrint "✓ ffmpeg is installed"])
  else (Raise (SystemExit 1), missing_tool_world w).
Proof.
  unfold Cli.check_dependencies, dependencies_ok, missing_tool_world.
  unfold bind at 1. unfold try_except at 1. unfold bind at 1.
  rewrite (subprocess_run_check_spec _ ytdlp_probe) by reflexivity.
  fold (ytdlp_ok w). destruct (ytdlp_ok w); cbn [andb].
  2:{ cbn [is_SubprocessError_or_FileNotFound]. unfold bind. rewrite print_run.
      reflexivity. }
  rewrite print_run. fold (ytdlp_found w).
  unfold try_except, bind at 1.
  rewrite (subprocess_run_check_spec _ probe) by reflexivity.
  fold (probe_ok (ytdlp_found w)). destruct (probe_ok (ytdlp_found w)).
  - rewrite print_run. reflexivity.
  - cbn [is_SubprocessError_or_FileNotFound]. unfold bind. rewrite print_run.
    reflexivity.
Qed.

(** X18.  When [yt-dlp] or [ffmpeg] is missing, [main] exits with status 1 from
    the check of its dependencies, at the first tool that is missing: it
    prints no banner, makes no directory and lists no clips, and [ffmpeg] is
    not probed when [yt-dlp] is missing. *)
Theorem cli_exits_at_the_first_missing_tool (args : Cli.arguments) (w : world) :
  dependencies_ok w = false ->
  Cli.check_dependencies w = (Raise (SystemExit 1), missing_tool_world w) /\
  Cli.main args w = (Raise (SystemExit 1), missing_tool_world w) /\
  runs (trace (missing_tool_world w))
  = runs (trace w) + (if ytdlp_ok w then 2 else 1).
Proof.
  intros Hdeps.
  assert (E : Cli.check_dependencies w = (Raise (SystemExit 1), missing_tool_world w))
    by (rewrite cli_check_dependencies_run, Hdeps; reflexivity).
  split; [exact E|]. split.
  - unfold Cli.main, Cli.main_prelude. unfold bind at 1. unfold bind at 1.
    rewrite E. reflexivity.
  - unfold missing_tool_world. destruct (ytdlp_ok w).
    + unfold after_events, after_run, ytdlp_found, after_events, after_run.
      cbn [trace]. rewrite !runs_app. unfold runs. simpl. lia.
    + unfold after_events, after_run. cbn [trace]. rewrite !runs_app.
      unfold runs. simpl. lia.
Qed.

Lemma window_log_run (message : string) (w : world) :
  Window.log message w = (Return tt, logged w message).
Proof. reflexivity. Qed.

(** X19.  The window's check of the dependencies does not catch the exit of the
    command line's check: when a tool is missing, [SystemExit] with status 1
    leaves [check_dependencies], and the status line is never set to
    [Dependencies missing]. *)
Theorem window_check_lets_the_exit_through (w : world) :
  let checking := logged w "Checking dependencies..." in
  dependencies_ok checking = false ->
  Window.check_dependencies w = (Raise (SystemExit 1), missing_tool_world checking) /\
  ~ In (EvStatus "Dependencies missing")
       (skipn (length (trace w)) (trace (missing_tool_world checking))).
Proof.
  intros checking Hdeps. split.
  - unfold Window.check_dependencies. unfold bind at 1. rewrite window_log_run.
    fold checking. unfold try_except, bind at 1.
    rewrite cli_check_dependencies_run, Hdeps. reflexivity.
  - unfold missing_tool_world, checking, logged, ytdlp_found, after_events, after_run.
    destruct (ytdlp_ok _); cbn [trace]; rewrite <- !app_assoc;
      rewrite skipn_app, skipn_all, Nat.sub_diag; cbn [app skipn];
      intros Hin; repeat (destruct Hin as [Hin|Hin]; [discriminate Hin|]); exact Hin.
Qed.

(** X20.  The window turns the period into hours and the command line turns the
    hours back into a period: [7d] and [30d] come back, every other choice,
    [all] among them, comes back as [24h]. *)
Theorem window_period_round_trip (period : string) :
  Cli.period_of_hours (Window.hours_of_period period)
  = if existsb (String.eqb period) ["7d"; "30d"] then period else "24h".
Proof.
  unfold Window.hours_of_period, dict_get. cbn [dict_lookup existsb].
  rewrite (String.eqb_sym period "7d"), (String.eqb_sym period "30d").
  destruct (String.eqb_spec "24h" period) as [<-|_]; [reflexivity|].
  destruct (String.eqb_spec "7d" period) as [<-|_]; [reflexivity|].
  destruct (String.eqb_spec "30d" period) as [<-|_]; [reflexivity|].
  destruct (String.eqb_spec "all" period) as [<-|_]; reflexivity.
Qed.

(** X21.  When the listing is empty the window's download thread logs that no
    clips were found, sets the status line, and returns: nothing is
    downloaded and no dialog is shown.  The buttons are re-enabled twice, by
    the branch and by the [finally] clause. *)
Theorem window_stops_on_empty_listing (self : Window.gui) (w w1 : world) :
  let streamer := strip (Window.streamer_var self) in
  Cli.scrape_clips streamer (Window.hours_of_period (Window.period_var self))
    (Window.limit_var self) (Window.min_views_var self)
    (logged w ("Searching for clips from " +++ streamer +++ " ("
               +++ Window.period_var self +++ ")..."))
  = (Return [], w1) ->
  Window.download_clips self w
  = (Return tt,
     after_events
       (logged w1 ("No clips found for " +++ streamer +++ " in the selected time period."))
       [EvEnableButtons; EvStatus "No clips found"; EvEnableButtons]).
Proof.
  intros streamer Hlisting.
  unfold Window.download_clips, try_finally, try_except. fold streamer.
  unfold bind at 1. rewrite window_log_run.
  unfold bind at 1. rewrite Hlisting.
  unfold bind at 1. rewrite window_log_run.
  unfold bind, emit. cbn [files trace].
  unfold after_events. cbn [files trace]. now rewrite <- !app_assoc.
Qed.

End OrchestratorMoreFacts.

(* ------------------------------------------------------------------ *)
(** ** More on the Lister *)

Section ListerMoreFacts.
Context {H : Host}.

(** X22.  When the listing tool exits with a status other than 0, the Lister
    reports what the tool wrote to its standard error and returns no clips,
    without looking at the tool's output: the command-line Lister when its
    process fails, and the GUI Lister when its own process fails, each
    whatever the other does. *)
Theorem lister_reports_tool_failure (username period : string)
    (hours limit min_views : Z) (w : world) :
  let cli_world := cli_listing_world w username hours in
  let cli_argv := listing_argv username limit min_views in
  let gui_world := gui_listing_world w username period in
  let gui_argv := gui_listing_argv w username period limit min_views in
  (Z.eqb (returncode (run_process cli_world cli_argv)) 0 = false ->
   Cli.scrape_clips username hours limit min_views w
   = (Return [],
      after_events (after_run cli_world cli_argv)
        [EvPrint ("Error running yt-dlp: "
                  +++ stderr (run_process cli_world cli_argv))]))
  /\
  (Z.eqb (returncode (run_process gui_world gui_argv)) 0 = false ->
   Gui.scrape_clips username period limit min_views w
   = (Return [],
      logged (after_run gui_world gui_argv)
        ("Error running yt-dlp: " +++ stderr (run_process gui_world gui_argv)))).
Proof.
  intros cli_world cli_argv gui_world gui_argv. split.
  - intros Hcli.
    unfold Cli.scrape_clips. unfold bind at 1. rewrite print_run.
    fold (cli_listing_world w username hours). fold cli_world.
    unfold try_except, bind at 1, subprocess_run.
    change (all_str (Cli.listing_command username limit min_views))
      with (Some cli_argv).
    cbv iota. rewrite Hcli. cbn [negb].
    unfold bind. rewrite print_run. reflexivity.
  - intros Hgui.
    unfold Gui.scrape_clips. unfold bind at 1. rewrite log_run.
    unfold bind at 1. rewrite log_run.
    fold (gui_filter_world w username period).
    unfold try_except. unfold bind at 1.
    assert (Hcmd :
      (if negb (String.eqb period "all")
       then (date_filter <- Gui.get_date_filter period ;;
             ret (Gui.listing_command username limit min_views
                  ++ [Some "--dateafter"; Some date_filter]))
       else ret (Gui.listing_command username limit min_views))%py
        (gui_filter_world w username period)
      = (Return (map Some gui_argv), gui_filter_world w username period)).
    { unfold gui_argv, gui_listing_argv.
      destruct (String.eqb period "all"); cbn [negb].
      - rewrite app_nil_r. reflexivity.
      - unfold bind. rewrite get_date_filter_run. unfold ret.
        rewrite map_app. reflexivity. }
    rewrite Hcmd.
    unfold bind at 1. rewrite log_run.
    fold (gui_listing_world w username period). fold gui_world.
    unfold bind at 1, subprocess_run. rewrite all_str_map_Some.
    fold (after_run gui_world gui_argv).
    rewrite Hgui. cbn [negb].
    unfold bind. rewrite log_run. reflexivity.
Qed.

Lemma parse_lines_of_objects (username : string) (lines : list string) (w : world) :
  forall (objects : list (dict value)) (clips : list clip),
  map json_loads (filter nonempty lines) = map (fun d => Some (PDict d)) objects ->
  Cli.parse_lines username lines clips w
  = (Return (clips ++ map (clip_of_data username) objects), w).
Proof.
  induction lines as [|line rest IH]; intros objects clips Hlines.
  - destruct objects; [|discriminate Hlines]. cbn [map]. now rewrite app_nil_r.
  - cbn [Cli.parse_lines filter] in *.
    destruct (nonempty line); cbn [negb].
    + destruct objects as [|d objects]; [discriminate Hlines|].
      cbn [map] in Hlines. injection Hlines as Hline Hrest.
      rewrite Hline, (IH objects _ Hrest). cbn [map].
      now rewrite <- app_assoc.
    + apply IH, Hlines.
Qed.

(** X23.  When the listing tool exits with status 0 and each non-empty line of its
    output is a JSON object, the command line's Lister returns one clip per
    line, in the order of the lines: the clip built from the object, under
    the user name that was asked for.  It prints their number. *)
Theorem lister_builds_one_clip_per_object (username : string)
    (hours limit min_views : Z) (objects : list (dict value)) (w : world) :
  let listing := cli_listing_world w username hours in
  let argv := listing_argv username limit min_views in
  returncode (run_process listing argv) = 0%Z ->
  map json_loads (output_lines (stdout (run_process listing argv)))
  = map (fun d => Some (PDict d)) objects ->
  Cli.scrape_clips username hours limit min_views w
  = (Return (map (clip_of_data username) objects),
     after_events (after_run listing argv)
       [EvPrint ("Found " +++ str_int (Z.of_nat (length objects)) +++ " clips.")]) /\
  Forall (fun c => broadcaster_name c = username) (map (clip_of_data username) objects).
Proof.
  intros listing argv Hstatus Hlines. split.
  - unfold Cli.scrape_clips. unfold bind at 1. rewrite print_run.
    fold (cli_listing_world w username hours). fold listing.
    unfold try_except, bind at 1, subprocess_run.
    change (all_str (Cli.listing_command username limit min_views)) with (Some argv).
    cbv iota. rewrite Hstatus. cbn [Z.eqb negb].
    unfold bind at 1.
    rewrite (parse_lines_of_objects username _ _ objects [] Hlines).
    cbn [app]. unfold bind. rewrite print_run. rewrite length_map. reflexivity.
  - apply Forall_forall. intros c Hc. apply in_map_iff in Hc as (d & <- & _).
    reflexivity.
Qed.

(** *** The instructions file *)

(** X24.  The upload instructions depend on the clips through their number alone:
    two lists of downloaded clips of one length give the same file, line for
    line, and no clip's title or path is written to it. *)
Theorem instructions_depend_on_the_count_only
    (clips others : list (clip * string)) (output_dir : string) (w : world) :
  length clips = length others ->
  Cli.generate_platform_instructions clips output_dir w
  = Cli.generate_platform_instructions others output_dir w /\
  Gui.generate_platform_instructions clips output_dir w
  = Gui.generate_platform_instructions others output_dir w.
Proof.
  intros Hlen.
  destruct clips as [|c clips], others as [|o others]; try discriminate Hlen;
    [split; reflexivity|].
  unfold Cli.generate_platform_instructions, Gui.generate_platform_instructions,
    write_instructions.
  rewrite Hlen. split; reflexivity.
Qed.

End ListerMoreFacts.

(* ------------------------------------------------------------------ *)
(** ** The download loops of the two windows *)

Section WindowLoopFacts.
Context {H : Host}.

Lemma gui_metadata_step (clip : clip) (p : string) (wanted : bool) (w : world) :
  exists w',
    (if andb (nonempty p) wanted
     then (_ <- Gui.create_metadata_file clip p ;; ret tt)
     else ret tt)%py w = (Return tt, w') /\
    runs (trace w') = runs (trace w) /\
    (forall q, path_exists_in (files w) q = true -> path_exists_in (files w') q = true).
Proof.
  destruct (andb (nonempty p) wanted).
  - unfold bind. rewrite gui_create_metadata_file_run. eexists.
    split; [reflexivity|]. split.
    + rewrite runs_logged. cbn [trace]. rewrite runs_app. unfold runs at 2. simpl. lia.
    + intros q Hq. rewrite files_logged. cbn [files path_exists_in existsb].
      unfold path_exists_in in Hq. rewrite Hq. apply orb_true_r.
  - exists w. repeat split; auto.
Qed.

Lemma cli_metadata_step (clip : clip) (p : string) (wanted : bool) (w : world) :
  exists w',
    (if andb (nonempty p) wanted
     then (_ <- Cli.create_metadata_file clip p "json" ;; ret tt)
     else ret tt)%py w = (Return tt, w') /\
    runs (trace w') = runs (trace w) /\
    (forall q, path_exists_in (files w) q = true -> path_exists_in (files w') q = true).
Proof.
  destruct (andb (nonempty p) wanted).
  - unfold bind. rewrite cli_create_metadata_file_run. eexists.
    split; [reflexivity|]. split.
    + cbn [trace]. rewrite runs_app. unfold runs at 2. simpl. lia.
    + intros q Hq. cbn [files path_exists_in existsb].
      unfold path_exists_in in Hq. rewrite Hq. apply orb_true_r.
  - exists w. repeat split; auto.
Qed.

Lemma runs_after_status (w : world) (text : string) :
  runs (trace (after_events w [EvStatus text])) = runs (trace w).
Proof. unfold after_events. cbn [trace]. rewrite runs_app. unfold runs at 2. simpl. lia. Qed.

Lemma gui_download_all_outcome (self : Gui.gui) (total : nat) (clips : list clip) :
  forall (i : Z) (downloaded_clips : list (clip * string)) (w : world),
  exists added w',
    Gui.download_all self total i clips downloaded_clips w
    = (Return (downloaded_clips ++ added), w') /\
    subsequence (map fst added) clips /\
    Forall (fun cp => nonempty (snd cp) = true /\
                      path_exists_in (files w') (snd cp) = true) added /\
    runs (trace w') <= runs (trace w) + length clips /\
    (forall p, path_exists_in (files w) p = true -> path_exists_in (files w') p = true).
Proof.
  induction clips as [|clip rest IH]; intros i acc w.
  - exists [], w. rewrite app_nil_r. cbn [length map].
    repeat split; [constructor | constructor | lia | auto].
  - cbn [Gui.download_all].
    unfold bind at 1. rewrite log_run.
    unfold bind at 1. rewrite log_run.
    unfold bind at 1. rewrite log_run.
    unfold bind at 1, emit at 1.
    match goal with
    | |- context [World (files ?w0) (trace ?w0 ++ [EvStatus ?text])] =>
        change (World (files w0) (trace w0 ++ [EvStatus text]))
          with (after_events w0 [EvStatus text])
    end.
    unfold bind at 1.
    match goal with
    | |- context [Gui.download_clip self clip _ _ ?w0] => set (w3 := w0)
    end.
    assert (Hruns3 : runs (trace w3) = runs (trace w))
      by (unfold w3; now rewrite runs_after_status, !runs_logged).
    assert (Hfiles3 : files w3 = files w) by reflexivity.
    destruct (gui_download_clip_outcome self clip (Gui.output_dir_var self)
                (Gui.format_var self) w3) as (r & w4 & E & Hruns4 & Hkept4 & Hthere4).
    rewrite E. rewrite Hruns3 in Hruns4. rewrite Hfiles3 in Hkept4.
    destruct r as [p|].
    2:{ destruct (IH (i + 1)%Z acc w4) as (added & w' & E' & Hsub & Hall & Hruns & Hkept).
        exists added, w'. split; [exact E'|]. cbn [length].
        repeat split; [constructor; exact Hsub | exact Hall | lia | auto]. }
    unfold bind at 1.
    destruct (gui_metadata_step clip p (Gui.create_metadata_var self) w4)
      as (w5 & Emeta & Hruns5 & Hkept5).
    rewrite Emeta.
    destruct (nonempty p) eqn:Hp.
    + destruct (IH (i + 1)%Z (acc ++ [(clip, p)]) w5)
        as (added & w' & E' & Hsub & Hall & Hruns & Hkept).
      exists ((clip, p) :: added), w'. rewrite <- app_assoc in E'.
      split; [exact E'|]. cbn [length map fst].
      repeat split.
      * constructor; exact Hsub.
      * constructor; [|exact Hall]. cbn [snd]. split; [exact Hp|].
        apply Hkept, Hkept5, Hthere4. reflexivity.
      * lia.
      * auto.
    + destruct (IH (i + 1)%Z acc w5) as (added & w' & E' & Hsub & Hall & Hruns & Hkept).
      exists added, w'. split; [exact E'|]. cbn [length].
      repeat split; [constructor; exact Hsub | exact Hall | lia | auto].
Qed.

Lemma window_download_all_outcome (self : Window.gui) (total : nat) (clips : list clip) :
  forall (i : Z) (downloaded_clips : list (clip * string)) (w : world),
  exists added w',
    Window.download_all self total i clips downloaded_clips w
    = (Return (downloaded_clips ++ added), w') /\
    subsequence (map fst added) clips /\
    Forall (fun cp => nonempty (snd cp) = true /\
                      path_exists_in (files w') (snd cp) = true) added /\
    runs (trace w') <= runs (trace w) + length clips /\
    (forall p, path_exists_in (files w) p = true -> path_exists_in (files w') p = true).
Proof.
  induction clips as [|clip rest IH]; intros i acc w.
  - exists [], w. rewrite app_nil_r. cbn [length map].
    repeat split; [constructor | constructor | lia | auto].
  - cbn [Window.download_all].
    unfold bind at 1. rewrite window_log_run.
    unfold bind at 1. rewrite window_log_run.
    unfold bind at 1. rewrite window_log_run.
    unfold bind at 1.
    match goal with
    | |- context [Cli.download_clip clip _ _ ?w0] => set (w3 := w0)
    end.
    assert (Hruns3 : runs (trace w3) = runs (trace w))
      by (unfold w3; now rewrite !runs_logged).
    assert (Hfiles3 : files w3 = files w) by reflexivity.
    destruct (cli_download_clip_outcome clip (Window.output_dir_var self)
                (Window.format_var self) w3) as (r & w4 & E & Hruns4 & Hkept4 & Hthere4).
    rewrite E. rewrite Hruns3 in Hruns4. rewrite Hfiles3 in Hkept4.
    unfold bind at 1.
    destruct r as [p|].
    2:{ unfold ret at 1. unfold bind at 1, emit at 1.
        match goal with
        | |- context [World (files w4) (trace w4 ++ [EvStatus ?text])] =>
            change (World (files w4) (trace w4 ++ [EvStatus text]))
              with (after_events w4 [EvStatus text]);
            destruct (IH (i + 1)%Z acc (after_events w4 [EvStatus text]))
              as (added & w' & E' & Hsub & Hall & Hruns & Hkept)
        end.
        rewrite runs_after_status in Hruns.
        exists added, w'. split; [exact E'|]. cbn [length].
        repeat split; [constructor; exact Hsub | exact Hall | lia | auto]. }
    unfold bind at 1.
    destruct (cli_metadata_step clip p (Window.create_metadata_var self) w4)
      as (w5 & Emeta & Hruns5 & Hkept5).
    rewrite Emeta. unfold ret at 1. unfold bind at 1, emit at 1.
    match goal with
    | |- context [World (files w5) (trace w5 ++ [EvStatus ?text])] =>
        change (World (files w5) (trace w5 ++ [EvStatus text]))
          with (after_events w5 [EvStatus text]);
        set (w6 := after_events w5 [EvStatus text])
    end.
    assert (Hruns6 : runs (trace w6) = runs (trace w5))
      by (unfold w6; apply runs_after_status).
    assert (Hfiles6 : files w6 = files w5) by reflexivity.
    destruct (nonempty p) eqn:Hp.
    + destruct (IH (i + 1)%Z (acc ++ [(clip, p)]) w6)
        as (added & w' & E' & Hsub & Hall & Hruns & Hkept).
      exists ((clip, p) :: added), w'. rewrite <- app_assoc in E'.
      split; [exact E'|]. cbn [length map fst].
      repeat split.
      * constructor; exact Hsub.
      * constructor; [|exact Hall]. cbn [snd]. split; [exact Hp|].
        apply Hkept. rewrite Hfiles6. apply Hkept5, Hthere4. reflexivity.
      * lia.
      * intros q Hq. apply Hkept. rewrite Hfiles6. auto.
    + destruct (IH (i + 1)%Z acc w6) as (added & w' & E' & Hsub & Hall & Hruns & Hkept).
      exists added, w'. split; [exact E'|]. cbn [length].
      repeat split; [constructor; exact Hsub | exact Hall | lia |].
      intros q Hq. apply Hkept. rewrite Hfiles6. auto.
Qed.

(** X25.  The three download loops, of the command line and of the two windows,
    return and do not raise.  What each returns are clips of its list, in the
    order of the list, each with the path of its file: a path that is not
    empty and that exists when the loop is over.  A loop starts one process
    per clip at most and removes no file. *)
Theorem download_loops_report_existing_files (args : Cli.arguments) (form : Gui.gui)
    (self : Window.gui) (total : nat) (clips : list clip) (i : Z) (w : world) :
  reports_existing_files clips w (Cli.download_all args total i clips [] w) /\
  reports_existing_files clips w (Gui.download_all form total i clips [] w) /\
  reports_existing_files clips w (Window.download_all self total i clips [] w).
Proof.
  unfold reports_existing_files. split; [|split].
  - exact (cli_download_all_outcome args total clips i [] w).
  - exact (gui_download_all_outcome form total clips i [] w).
  - exact (window_download_all_outcome self total clips i [] w).
Qed.

End WindowLoopFacts.

(* ------------------------------------------------------------------ *)
(** ** The further properties on the sample hosts *)

Section WithoutFfmpeg.
#[local] Existing Instance no_ffmpeg_host.

Lemma operations_need_ffmpeg_witness :
  let gave_up :=
    (Return (@None string),
     World [] [EvRun probe; EvPrint VideoProcessor.ffmpeg_missing_message]) in
  probe_ok Example.empty_world = false /\
  VideoProcessor.trim_video (Some "clip.mp4") None "0" None Example.empty_world
  = gave_up /\
  VideoProcessor.add_watermark (Some "clip.mp4") "foo" None "center" "24"
    Example.empty_world = gave_up /\
  VideoProcessor.add_intro (Some "clip.mp4") "intro.mp4" None Example.empty_world
  = gave_up /\
  VideoProcessor.convert_format (Some "clip.mp4") "mov" None Example.empty_world
  = gave_up /\
  VideoProcessor.resize_for_platform (Some "clip.mp4") "tiktok" None Example.empty_world
  = gave_up.
Proof.
  split; [reflexivity|].
  refine (operations_need_ffmpeg (Some "clip.mp4") None "0" "foo" "center" "24"
           "intro.mp4" "mov" "tiktok" None Example.empty_world _).
  reflexivity.
Defined.

Lemma processor_exits_without_ffmpeg_witness :
  probe_ok Example.empty_world = false /\
  Processor.main is_clips_directory read_batch_json trim_arguments Example.empty_world
  = (Raise (SystemExit 1),
     World [] [EvRun probe; EvPrint VideoProcessor.ffmpeg_missing_message]).
Proof.
  split; [reflexivity|].
  refine (processor_exits_without_ffmpeg is_clips_directory read_batch_json
           trim_arguments Example.empty_world _).
  reflexivity.
Defined.

Lemma cli_exits_at_the_first_missing_tool_witness :
  let stopped :=
    World []
      [ EvRun ["yt-dlp"; "--version"]; EvPrint "✓ yt-dlp is installed";
        EvRun ["ffmpeg"; "-version"];
        EvPrint "✗ ffmpeg is not installed. Please install it from https://ffmpeg.org/download.html" ] in
  dependencies_ok Example.empty_world = false /\
  Cli.check_dependencies Example.empty_world = (Raise (SystemExit 1), stopped) /\
  Cli.main sample_arguments Example.empty_world = (Raise (SystemExit 1), stopped) /\
  runs (trace stopped) = 2.
Proof.
  split; [reflexivity|].
  refine (cli_exits_at_the_first_missing_tool sample_arguments Example.empty_world _).
  reflexivity.
Defined.

Lemma window_check_lets_the_exit_through_witness :
  let stopped :=
    World []
      [ EvPrint "[12:00:00] Checking dependencies...";
        EvRun ["yt-dlp"; "--version"]; EvPrint "✓ yt-dlp is installed";
        EvRun ["ffmpeg"; "-version"];
        EvPrint "✗ ffmpeg is not installed. Please install it from https://ffmpeg.org/download.html" ] in
  dependencies_ok (logged Example.empty_world "Checking dependencies...") = false /\
  Window.check_dependencies Example.empty_world = (Raise (SystemExit 1), stopped) /\
  ~ In (EvStatus "Dependencies missing") (trace stopped).
Proof.
  split; [reflexivity|].
  refine (window_check_lets_the_exit_through Example.empty_world _).
  reflexivity.
Defined.

End WithoutFfmpeg.

Section WithWorkingTools.
#[local] Existing Instance working_host.


Lemma resize_uses_the_table_witness :
  dict_lookup VideoProcessor.platform_settings (lower "Instagram")
  = Some (VideoProcessor.Setting "1080:1080" "Instagram (square 1:1)") /\
  probe_ok Example.empty_world = true /\
  In (lower "Instagram", "1080:1080")
     [ ("tiktok", "1080:1920"); ("instagram", "1080:1080");
       ("instagram_story", "1080:1920"); ("youtube", "1920:1080") ] /\
  VideoProcessor.resize_for_platform (Some "clip.mp4") "Instagram" None
    Example.empty_world
  = (Return (Some "clip_for_Instagram.mp4"),
     World ["clip_for_Instagram.mp4"]
       [ EvRun probe;
         EvRun (resize_argv "clip.mp4" "1080:1080" "clip_for_Instagram.mp4");
         EvPrint "Resized video for Instagram (square 1:1) saved to: clip_for_Instagram.mp4" ]).
Proof.
  split; [reflexivity|]. split; [reflexivity|].
  refine (resize_uses_the_table "clip.mp4" "Instagram"
           (VideoProcessor.Setting "1080:1080" "Instagram (square 1:1)") None
           Example.empty_world _ _); reflexivity.
Defined.

Lemma intro_needs_its_file_witness :
  probe_ok Example.empty_world = true /\
  path_exists_in (files (after_run Example.empty_world probe)) "intro.mp4" = false /\
  VideoProcessor.add_intro (Some "clip.mp4") "intro.mp4" None Example.empty_world
  = (Return None, World [] [EvRun probe; EvPrint "Intro file not found: intro.mp4"]).
Proof.
  split; [reflexivity|]. split; [reflexivity|].
  refine (intro_needs_its_file (Some "clip.mp4") "intro.mp4" None Example.empty_world _ _);
    reflexivity.
Defined.

Lemma intro_of_None_leaves_its_list_witness :
  probe_ok (World ["intro.mp4"] []) = true /\
  path_exists_in (files (World ["intro.mp4"] [])) "intro.mp4" = true /\
  exists w',
    VideoProcessor.add_intro None "intro.mp4" (Some "out.mp4") (World ["intro.mp4"] [])
    = (Raise TypeError, w') /\
    trace w' = [ EvRun probe;
                 EvOpenW "concat_list.txt";
                 EvWrite "concat_list.txt" ("file '/work/intro.mp4'" +++ newline) ] /\
    path_exists_in (files w') "concat_list.txt" = true.
Proof.
  split; [reflexivity|]. split; [reflexivity|].
  refine (intro_of_None_leaves_its_list "intro.mp4" "out.mp4" (World ["intro.mp4"] []) _ _);
    reflexivity.
Defined.



Lemma processor_single_file_exit_witness :
  probe_ok (World ["clip.mp4"] []) = true /\
  Processor.is_operation trim_arguments "batch-config" = false /\
  Processor.batch trim_arguments = false /\
  exists w',
    Processor.process_single_file trim_arguments "clip.mp4" None
      (after_run (World ["clip.mp4"] []) probe) = (Return tt, w') /\
    Processor.main is_clips_directory read_batch_json trim_arguments
      (World ["clip.mp4"] []) = (Return tt, w').
Proof.
  split; [reflexivity|]. split; [reflexivity|]. split; [reflexivity|].
  refine (processor_single_file_exit is_clips_directory read_batch_json trim_arguments
           (World ["clip.mp4"] []) _ _ _); reflexivity.
Defined.

Lemma download_needs_url_and_title_witness :
  let untitled := clip_of_data "foo" [("title", PInt 7)] in
  (truthy (url untitled) = false \/ (forall t, title untitled <> PStr t)) /\
  Cli.download_clip untitled "downloads" "mp4" Example.empty_world
  = (Return None, World [] [EvPrint "Error: No URL for clip 7"]) /\
  Gui.download_clip sample_form untitled "downloads" "mp4" Example.empty_world
  = (Return None, World [] [EvPrint "[12:00:00] Error: No URL for clip 7"]).
Proof.
  intros untitled.
  split; [left; reflexivity|].
  refine (download_needs_url_and_title sample_form untitled "downloads" "mp4"
           Example.empty_world _).
  left. reflexivity.
Defined.

Lemma same_name_clips_collide_witness :
  let first_done :=
    World ["downloads/foo - a_b.mp4"]
      [ EvPrint "Downloading: a/b";
        EvRun (download_argv "downloads/foo - a_b.mp4" "u1");
        EvPrint "Successfully downloaded: downloads/foo - a_b.mp4" ] in
  url slash_clip = PStr "u1" /\ "u1" <> "" /\ title slash_clip = PStr "a/b" /\
  url colon_clip = PStr "u2" /\ "u2" <> "" /\ title colon_clip = PStr "a:b" /\
  broadcaster_name slash_clip = broadcaster_name colon_clip /\
  sanitize "a/b" = sanitize "a:b" /\
  Cli.download_clip slash_clip "downloads" "mp4" Example.empty_world
  = (Return (Some "downloads/foo - a_b.mp4"), first_done) /\
  Cli.download_clip colon_clip "downloads" "mp4" first_done
  = (Return (Some "downloads/foo - a_b.mp4"),
     after_events first_done [EvPrint "Clip already exists: downloads/foo - a_b.mp4"]).
Proof.
  intros first_done.
  repeat (split; [first [reflexivity | discriminate]|]).
  refine (same_name_clips_collide slash_clip colon_clip "u1" "u2" "a/b" "a:b"
           "downloads" "mp4" "downloads/foo - a_b.mp4" Example.empty_world first_done _ _ _ _ _ _ _ _ _);
    first [reflexivity | discriminate].
Defined.

Lemma metadata_beside_the_video_witness :
  let clip := sample_clip "A" 50 in
  let path := "downloads/foo - A.json" in
  let written :=
    World [path]
      [ EvOpenW path; EvWrite path (json_dumps (metadata_of clip Example.noon)) ] in
  existsb (Ascii.eqb ".") (list_ascii_of_string "mp4") = false /\
  Cli.create_metadata_file clip "downloads/foo - A.mp4" "json" Example.empty_world
  = (Return (Some path),
     after_events written [EvPrint "Created metadata file: downloads/foo - A.json"]) /\
  Gui.create_metadata_file clip "downloads/foo - A.mp4" Example.empty_world
  = (Return (Some path),
     after_events written
       [EvPrint "[12:00:00] Created metadata file: downloads/foo - A.json"]).
Proof.
  intros clip path written.
  split; [reflexivity|].
  refine (metadata_beside_the_video clip "downloads/foo - A" "mp4" Example.empty_world _).
  reflexivity.
Defined.

Lemma instructions_depend_on_the_count_only_witness :
  let clips := [(sample_clip "A" 50, "downloads/foo - A.mp4")] in
  let others := [(sample_clip "B" 90, "elsewhere/foo - B.mov")] in
  length clips = length others /\
  Cli.generate_platform_instructions clips "downloads" Example.empty_world
  = Cli.generate_platform_instructions others "downloads" Example.empty_world /\
  Gui.generate_platform_instructions clips "downloads" Example.empty_world
  = Gui.generate_platform_instructions others "downloads" Example.empty_world.
Proof.
  intros clips others.
  split; [reflexivity|].
  refine (instructions_depend_on_the_count_only clips others "downloads"
           Example.empty_world _).
  reflexivity.
Defined.

Lemma window_stops_on_empty_listing_witness :
  let searching :=
    logged Example.empty_world "Searching for clips from foo (all)..." in
  let listed := snd (Cli.scrape_clips "foo" (365 * 24) 5 0 searching) in
  Cli.scrape_clips (strip (Window.streamer_var sample_window))
    (Window.hours_of_period (Window.period_var sample_window))
    (Window.limit_var sample_window) (Window.min_views_var sample_window)
    (logged Example.empty_world
       ("Searching for clips from " +++ strip (Window.streamer_var sample_window)
        +++ " (" +++ Window.period_var sample_window +++ ")..."))
  = (Return [], listed) /\
  Window.download_clips sample_window Example.empty_world
  = (Return tt,
     after_events
       (logged listed "No clips found for foo in the selected time period.")
       [EvEnableButtons; EvStatus "No clips found"; EvEnableButtons]).
Proof.
  intros searching listed.
  split; [reflexivity|].
  refine (window_stops_on_empty_listing sample_window Example.empty_world listed _).
  reflexivity.
Defined.

End WithWorkingTools.

Section WithTwoVideos.
#[local] Existing Instance x_fails_host.

Lemma processor_batch_exit_witness :
  let made := World ["clips/processed"] [EvRun probe; EvMakedirs "clips/processed"] in
  probe_ok Example.empty_world = true /\
  Processor.is_operation batch_arguments "batch-config" = false /\
  Processor.batch batch_arguments = true /\
  exists w',
    Processor.main is_clips_directory read_batch_json batch_arguments
      Example.empty_world
    = (Raise (SystemExit 0), w') /\
    ((forall w0, probe_ok w0 = true) ->
     existsb (Processor.is_operation batch_arguments) ["trim"; "watermark"; "convert"]
     = true ->
     exists added,
       trace w'
       = trace made
         ++ [EvPrint "Found 2 video files"]
         ++ added
         ++ [EvPrint "Batch processing complete. Processed files saved to: clips/processed"]
       /\
       filter is_run added
       = [ EvRun probe;
           EvRun (trim_argv "clips/x.mp4" "0" None "clips/processed/x.mp4");
           EvRun probe;
           EvRun (trim_argv "clips/y.mp4" "0" None "clips/processed/y.mp4") ]).
Proof.
  intros made.
  split; [reflexivity|]. split; [reflexivity|]. split; [reflexivity|].
  refine (processor_batch_exit is_clips_directory read_batch_json batch_arguments
           Example.empty_world _ _ _); reflexivity.
Defined.

Lemma processor_batch_config_exit_witness :
  let started := after_run (World ["batch.json"] []) probe in
  probe_ok (World ["batch.json"] []) = true /\
  Processor.is_operation config_arguments "batch-config" = true /\
  exists code w',
    Processor.main is_clips_directory read_batch_json config_arguments
      (World ["batch.json"] []) = (Raise (SystemExit code), w') /\
    (code = 0 \/ code = 1)%Z /\
    (code = 0%Z <->
     path_exists_in (files started) "batch.json" = true /\
     exists cfg processed w1,
       read_batch_json started "batch.json" = Some cfg /\
       VideoProcessor.batch_process
         (match Processor.config_input_dir cfg with Some d => d | None => "clips" end)
         (match Processor.config_operations cfg with Some l => l | None => [] end)
         (match Processor.config_output_dir cfg with Some d => Some d | None => None end)
         started
       = (Return processed, w1)).
Proof.
  intros started.
  split; [reflexivity|]. split; [reflexivity|].
  refine (processor_batch_config_exit is_clips_directory read_batch_json
            config_arguments (World ["batch.json"] []) _ _); reflexivity.
Defined.

Lemma batch_conversion_ignores_the_format_witness :
  Processor.batch convert_arguments = true /\
  Processor.is_operation convert_arguments "convert" = true /\
  Processor.main is_clips_directory read_batch_json
    (with_format convert_arguments "avi") Example.empty_world
  = Processor.main is_clips_directory read_batch_json convert_arguments
      Example.empty_world.
Proof.
  split; [reflexivity|]. split; [reflexivity|].
  refine (batch_conversion_ignores_the_format is_clips_directory read_batch_json
            convert_arguments "avi" Example.empty_world _ _); reflexivity.
Defined.

(** The run of [--batch convert --format mov] on the two videos *)
Example batch_conversion_run :
  Processor.main is_clips_directory read_batch_json convert_arguments
    Example.empty_world
  = (Raise (SystemExit 0),
     World ["clips/processed/y.mp4"; "clips/processed"]
       [ EvRun probe; EvMakedirs "clips/processed"; EvPrint "Found 2 video files";
         EvRun probe;
         EvRun (convert_argv "clips/x.mp4" "clips/processed/x.mp4");
         EvPrint ("Error converting video: "
                  +++ Example.exn_text
                        (CalledProcessError
                           (convert_argv "clips/x.mp4" "clips/processed/x.mp4") 1));
         EvRun probe;
         EvRun (convert_argv "clips/y.mp4" "clips/processed/y.mp4");
         EvPrint "Converted video saved to: clips/processed/y.mp4";
         EvPrint "Batch processing complete. Processed files saved to: clips/processed" ]).
Proof. reflexivity. Qed.

(** The run of the [batch-config] operation on the two videos: the trim of
    the first fails, the watermark that follows raises, and the exit status
    is 1 *)
Example batch_config_run :
  Processor.main is_clips_directory read_batch_json config_arguments
    (World ["batch.json"] [])
  = (Raise (SystemExit 1),
     World ["clips/processed"; "batch.json"]
       [ EvRun probe; EvMakedirs "clips/processed";
         EvRun probe;
         EvRun trim_x_argv;
         EvPrint ("Error trimming video: "
                  +++ Example.exn_text (CalledProcessError trim_x_argv 1));
         EvRun probe;
         EvPrint ("Error processing batch: " +++ Example.exn_text TypeError) ]).
Proof. reflexivity. Qed.

End WithTwoVideos.

(** An output directory that is an existing file: [os.makedirs] raises
    [FileExistsError], which neither [batch_process] nor the batch mode of
    the processor catches. *)
Example batch_into_a_plain_file :
  VideoProcessor.batch_process (H:=plain_file_host) "clips" [] (Some "clips/x.mp4")
    (World ["clips/x.mp4"] [])
  = (Raise (OSError FileExistsError), World ["clips/x.mp4"] []).
Proof. reflexivity. Qed.

Example processor_batch_into_a_plain_file :
  Processor.main (H:=plain_file_host) is_clips_directory read_batch_json
    (Processor.Arguments "clips" (Some "clips/x.mp4") true (Some "trim") "0" None
       "" "bottomright" "24" "" "" "" "")
    (World ["clips/x.mp4"] [])
  = (Raise (OSError FileExistsError), World ["clips/x.mp4"] [EvRun probe]).
Proof. reflexivity. Qed.

Section WithAFailingListing.
#[local] Existing Instance failing_listing_host.

Lemma lister_reports_tool_failure_witness :
  let cli_world := cli_listing_world Example.empty_world "foo" 24 in
  let cli_argv := listing_argv "foo" 5 0 in
  let gui_world := gui_listing_world Example.empty_world "foo" "24h" in
  let gui_argv := gui_listing_argv Example.empty_world "foo" "24h" 5 0 in
  Z.eqb (returncode (run_process cli_world cli_argv)) 0 = false /\
  Z.eqb (returncode (run_process gui_world gui_argv)) 0 = false /\
  Cli.scrape_clips "foo" 24 5 0 Example.empty_world
  = (Return [],
     after_events (after_run cli_world cli_argv)
       [EvPrint "Error running yt-dlp: ERROR: unable to list clips"]) /\
  Gui.scrape_clips "foo" "24h" 5 0 Example.empty_world
  = (Return [],
     after_events (after_run gui_world gui_argv)
       [EvPrint "[12:00:00] Error running yt-dlp: ERROR: unable to list clips"]).
Proof.
  intros cli_world cli_argv gui_world gui_argv.
  split; [reflexivity|]. split; [reflexivity|]. split.
  - refine (proj1 (lister_reports_tool_failure "foo" "24h" 24 5 0
                     Example.empty_world) _).
    reflexivity.
  - refine (proj2 (lister_reports_tool_failure "foo" "24h" 24 5 0
                     Example.empty_world) _).
    reflexivity.
Defined.

End WithAFailingListing.

Section WithTwoLines.
#[local] Existing Instance two_lines_host.

Lemma lister_builds_one_clip_per_object_witness :
  let listing := cli_listing_world Example.empty_world "foo" 24 in
  let argv := listing_argv "foo" 5 0 in
  returncode (run_process listing argv) = 0%Z /\
  map json_loads (output_lines (stdout (run_process listing argv)))
  = map (fun d => Some (PDict d)) [object_A; object_B] /\
  Cli.scrape_clips "foo" 24 5 0 Example.empty_world
  = (Return [listed_clip "foo" "1" "A" "u1" 50; listed_clip "foo" "2" "B" "u2" 90],
     after_events (after_run listing argv) [EvPrint "Found 2 clips."]) /\
  Forall (fun c => broadcaster_name c = "foo")
    [listed_clip "foo" "1" "A" "u1" 50; listed_clip "foo" "2" "B" "u2" 90].
Proof.
  intros listing argv.
  split; [reflexivity|]. split; [reflexivity|].
  refine (lister_builds_one_clip_per_object "foo" 24 5 0 [object_A; object_B]
            Example.empty_world _ _); reflexivity.
Defined.

End WithTwoLines.
